(** * Chart analysis engine (js/analysis.js, v7.0): embedding and properties

    The engine reads a candlestick chart from a pixel buffer, detects
    candlestick patterns, evaluates a battery of indicators and fuses
    them into a BUY / SELL / WAIT recommendation.

    Numbers.  JavaScript numbers are IEEE doubles.  Pixel rows, columns
    and counts are integers far below 2^53 and are modelled exactly as
    [Z]; every other quantity is modelled as an exact rational [Q].
    Results of a division whose divisor can be zero are modelled as
    [jsnum], which keeps NaN and the infinities apart from the finite
    values.  [Math.sqrt] has no rational counterpart and is a parameter
    of the functions that call it. *)

From Stdlib Require Import ZArith QArith Qround Qabs Qminmax.
From Stdlib Require Import String Ascii List Bool Lia Lqa.
From Stdlib Require Import Sorted Permutation.
Import ListNotations.

Local Open Scope Z_scope.

(** ** JavaScript numbers and array helpers *)

Module Js.

Definition ltb (x y : Q) : bool := negb (Qle_bool y x).
Definition gtb (x y : Q) : bool := ltb y x.
Definition leb (x y : Q) : bool := Qle_bool x y.
Definition geb (x y : Q) : bool := Qle_bool y x.

(** [Math.round]: the nearest integer, ties towards +infinity. *)
Definition Math_round (x : Q) : Z := Qfloor (x + 0.5)%Q.

(** The value of [a / b] when [b] may be zero. *)
Inductive jsnum : Type :=
| Fin (q : Q)
| PosInf
| NegInf
| NaN.

Definition div (a b : Q) : jsnum :=
  if Qeq_bool b 0%Q then
    if Qeq_bool a 0%Q then NaN
    else if ltb 0%Q a then PosInf else NegInf
  else Fin (a / b)%Q.

(** [x > c] for a possibly non-finite [x] and a finite [c]. *)
Definition num_gtb (x : jsnum) (c : Q) : bool :=
  match x with
  | Fin q => gtb q c
  | PosInf => true
  | NegInf | NaN => false
  end.

(** Truthiness of a value that is [null] or a number. *)
Definition truthy (x : option Q) : bool :=
  match x with
  | Some q => negb (Qeq_bool q 0%Q)
  | None => false
  end.

(** [a.slice(-n)] for [n > 0]: the last [n] elements. *)
Definition lastn {A : Type} (n : nat) (l : list A) : list A :=
  skipn (length l - n) l.

(** [a.slice(0, -n)] for [n > 0]: all but the last [n] elements. *)
Definition dropLast {A : Type} (n : nat) (l : list A) : list A :=
  firstn (length l - n) l.

(** [a.sort(cmp)]: a stable sort; [cmp a b] is the sign test
    [cmp(a, b) <= 0], that is, [a] may stay in front of [b]. *)
Fixpoint insertBy {A : Type} (le : A -> A -> bool) (x : A) (l : list A)
  : list A :=
  match l with
  | [] => [x]
  | y :: ys => if le x y then x :: y :: ys else y :: insertBy le x ys
  end.

Definition sortBy {A : Type} (le : A -> A -> bool) (l : list A) : list A :=
  fold_right (insertBy le) [] l.

(** The integers [lo, lo+1, ..., hi] visited by
    [for (y = lo; y <= hi; y++)]. *)
Definition range (lo hi : Z) : list Z :=
  map (fun k => lo + Z.of_nat k) (seq 0 (Z.to_nat (hi - lo + 1))).

(** The integers [0, 1, ...] visited by [for (y = 0; y < bound; y++)]. *)
Definition below (bound : Q) : list Z :=
  map Z.of_nat (seq 0 (Z.to_nat (Qceiling bound))).

(** The integers [hi, hi-1, ..., lo+1] visited by
    [for (x = hi; x > lo; x--)]. *)
Definition downto (hi lo : Z) : list Z :=
  map (fun k => hi - Z.of_nat k) (seq 0 (Z.to_nat (hi - lo))).

End Js.

Notation "x <? y" := (Js.ltb x y) : Q_scope.
Notation "x >? y" := (Js.gtb x y) : Q_scope.
Notation "x <=? y" := (Js.leb x y) : Q_scope.
Notation "x >=? y" := (Js.geb x y) : Q_scope.

Coercion inject_Z : Z >-> Q.

(** ** Signals, candles and patterns *)

Inductive Signal : Type := BUY | SELL | HOLD.

Inductive Action : Type := ActBUY | ActSELL | ActWAIT.

Definition Signal_eqb (a b : Signal) : bool :=
  match a, b with
  | BUY, BUY | SELL, SELL | HOLD, HOLD => true
  | _, _ => false
  end.

Record Candle : Type := mkCandle {
  x_end : Z;
  x_start : Z;
  isGreen : bool;
  isRed : bool;
  high : Z;
  low : Z;
  totalHeight : Z;
  bodyTop : Z;
  bodyBottom : Z;
  open : Z;
  close : Z;
  bodyHeight : Z;
  upperWick : Z;
  lowerWick : Z;
  bodyRatio : Q;
  upperWickRatio : Q;
  lowerWickRatio : Q
}.

Record Pattern : Type := mkPattern {
  name : string;
  signal : Signal;
  strength : Q;
  description : string
}.

(** ** Configuration (the [config] object) *)

Module config.

Module candles.
Definition scanCount : nat := 150.
Definition minWidth : Z := 2.
Definition chartAreaRatio : Q := 0.9.
Definition greenCandle (r g b : Z) : bool :=
  ((g >? r * 1.3) && (g >? b * 1.3))%Q && (g >? 100)%Z.
Definition redCandle (r g b : Z) : bool :=
  ((r >? g * 1.3) && (r >? b * 1.3))%Q && (r >? 100)%Z.
Definition dojiBodyRatio : Q := 0.05.
Definition wickRatio : Q := 2.5.
End candles.

Module supportResistance.
Definition zoneProximity : Q := 0.015.
Definition minTouches : Z := 2.
Definition clusterTolerance : Q := 0.01.
Definition confirmationCandles : nat := 3.
End supportResistance.

Module donchian.
Definition periods : list nat := [20; 50]%nat.
Definition breakoutThreshold : Q := 0.015.
End donchian.

(** [config.scores]: the own keys of the object and their values. *)
Definition scores : list (string * Q) :=
  [ ("doji", 1.0); ("spinningTop", 1.5); ("hammer", 2.5);
    ("invertedHammer", 2.0); ("shootingStar", 2.0); ("hangingMan", 2.5);
    ("bullishEngulfing", 4.0); ("bearishEngulfing", 4.0);
    ("bullishHarami", 3.0); ("bearishHarami", 3.0);
    ("piercingLine", 3.5); ("darkCloudCover", 3.5);
    ("morningStar", 5.0); ("eveningStar", 5.0);
    ("threeWhiteSoldiers", 4.5); ("threeBlackCrows", 4.5);
    ("tweezerTop", 2.5); ("tweezerBottom", 2.5);
    ("risingThree", 3.5); ("fallingThree", 3.5);
    ("gapUp", 3.0); ("gapDown", 3.0);
    ("strongSupport", 5.0); ("strongResistance", 5.0);
    ("upperBreakout", 4.5); ("lowerBreakout", 4.5);
    ("rsiOversold", 3.0); ("rsiOverbought", 3.0);
    ("macdBullish", 3.5); ("macdBearish", 3.5) ]%string%Q.

Fixpoint lookup (key : string) (table : list (string * Q)) : option Q :=
  match table with
  | [] => None
  | (k, v) :: rest => if String.eqb key k then Some v else lookup key rest
  end.

Module recommendation.
Definition confidenceThreshold : Z := 65.
Module profitTargets.
Definition conservative : Q := 0.015.
Definition moderate : Q := 0.03.
Definition aggressive : Q := 0.045.
End profitTargets.
Module riskLevels.
Definition conservative : Q := 0.0075.
Definition moderate : Q := 0.015.
Definition aggressive : Q := 0.0225.
End riskLevels.
End recommendation.

End config.

(** ** Candle extraction: [analyzeProfessionalCandlesticks] *)

(** An [ImageData]: RGBA bytes, row-major, four per pixel. *)
Record ImageData : Type := mkImageData {
  data : list Z;
  width : Z;
  height : Z
}.

(** [pixels[i]]; an index outside the array reads [undefined]. *)
Definition pixelAt (img : ImageData) (i : Z) : option Z :=
  if i <? 0 then None else nth_error (data img) (Z.to_nat i).

(** A colour test applied to [pixels[i], pixels[i+1], pixels[i+2]] with
    [i = (y * width + x) * 4].  Every comparison with [undefined] is
    false and each test compares all three channels, so the test fails
    as soon as one channel is missing. *)
Definition testPixel (test : Z -> Z -> Z -> bool) (img : ImageData)
  (x y : Z) : bool :=
  let i := (y * width img + x) * 4 in
  match pixelAt img i, pixelAt img (i + 1), pixelAt img (i + 2) with
  | Some r, Some g, Some b => test r g b
  | _, _, _ => false
  end.

Definition isGreenPixel := testPixel config.candles.greenCandle.
Definition isRedPixel := testPixel config.candles.redCandle.

Definition isCandlePixel (img : ImageData) (x y : Z) : bool :=
  isGreenPixel img x y || isRedPixel img x y.

Definition chartAreaHeight (img : ImageData) : Q :=
  (height img * config.candles.chartAreaRatio)%Q.

(** The inner loop of the column scan: does column [x] hold a candle
    pixel inside the chart area? *)
Definition isCandleColumn (img : ImageData) (x : Z) : bool :=
  existsb (isCandlePixel img x) (Js.below (chartAreaHeight img)).

(** A column run: the object [{x_end, x_start}] before it is measured. *)
Record Run : Type := mkRun {
  run_x_end : Z;
  run_x_start : Z
}.

Definition wideEnough (c : Run) : bool :=
  config.candles.minWidth <=? run_x_end c - run_x_start c.

(** The right-to-left column loop.  [candles] is the array built so far
    and [cur] is [currentCandle]; the result is their value when the loop
    exits, by exhaustion or by [break]. *)
Fixpoint scanColumns (img : ImageData) (xs : list Z) (candles : list Run)
  (cur : option Run) : list Run * option Run :=
  match xs with
  | [] => (candles, cur)
  | x :: xs' =>
      if isCandleColumn img x then
        let started :=
          match cur with
          | None => mkRun x x
          | Some c => c
          end in
        scanColumns img xs' candles (Some (mkRun (run_x_end started) x))
      else
        match cur with
        | Some c =>
            if wideEnough c then
              let candles' := candles ++ [c] in
              if (config.candles.scanCount <=? length candles')%nat
              then (candles', cur)
              else scanColumns img xs' candles' None
            else scanColumns img xs' candles None
        | None => scanColumns img xs' candles None
        end
  end.

(** The column runs, in push order (rightmost first). *)
Definition detectRuns (img : ImageData) : list Run :=
  let '(candles, cur) :=
    scanColumns img (Js.downto (width img - 1) 0) [] None in
  match cur with
  | Some c =>
      if wideEnough c && (length candles <? config.candles.scanCount)%nat
      then candles ++ [c]
      else candles
  | None => candles
  end.

(** First vertical pass over column [midX]: [high] is set at the first
    candle pixel, [low] at every candle pixel. *)
Definition scanHighLow (img : ImageData) (midX : Z) : Z * Z :=
  fold_left
    (fun (hl : Z * Z) (y : Z) =>
       let '(hi, lo) := hl in
       if isCandlePixel img midX y
       then ((if hi =? height img then y else hi), y)
       else hl)
    (Js.below (chartAreaHeight img))
    (height img, 0).

(** Second pass: count green and red pixels between [high] and [low]. *)
Definition countPixels (test : Z -> bool) (hi lo : Z) : Z :=
  fold_left (fun n y => if test y then n + 1 else n) (Js.range hi lo) 0.

(** Third pass: the first and last pixel of the candle's own colour. *)
Definition scanBody (img : ImageData) (midX : Z) (green red : bool)
  (hi lo : Z) : Z * Z :=
  let '(bodyHigh, bodyLow, _) :=
    fold_left
      (fun (st : Z * Z * bool) (y : Z) =>
         let '(bh, bl, inBody) := st in
         let isColorMatch :=
           (green && isGreenPixel img midX y)
           || (red && isRedPixel img midX y) in
         if isColorMatch
         then ((if inBody then bh else y), y, true)
         else st)
      (Js.range hi lo)
      (height img, 0, false) in
  (bodyHigh, bodyLow).

(** [midX]: the column on which a run is measured. *)
Definition midColumn (c : Run) : Z :=
  Js.Math_round ((run_x_start c + run_x_end c) / 2)%Q.

(** The body of the [for (const candle of candles)] loop. *)
Definition measureCandle (img : ImageData) (c : Run) : Candle :=
  let midX := midColumn c in
  let '(hi, lo) := scanHighLow img midX in
  let greenPixels := countPixels (isGreenPixel img midX) hi lo in
  let redPixels := countPixels (isRedPixel img midX) hi lo in
  let green := greenPixels >? redPixels in
  let red := negb green in
  let '(bodyHigh, bodyLow) := scanBody img midX green red hi lo in
  let total := Z.max 1 (lo - hi) in
  let op := if green then bodyLow else bodyHigh in
  let cl := if green then bodyHigh else bodyLow in
  let body := Z.abs (cl - op) in
  let upper := (if green then cl else op) - hi in
  let lower := lo - (if green then op else cl) in
  {| x_end := run_x_end c;
     x_start := run_x_start c;
     isGreen := green;
     isRed := red;
     high := hi;
     low := lo;
     totalHeight := total;
     bodyTop := bodyHigh;
     bodyBottom := bodyLow;
     open := op;
     close := cl;
     bodyHeight := body;
     upperWick := upper;
     lowerWick := lower;
     bodyRatio := (body / total)%Q;
     upperWickRatio := (upper / Z.max 1 total)%Q;
     lowerWickRatio := (lower / Z.max 1 total)%Q |}.

(** ** Pattern detection: [detectAllCandlestickPatterns] *)

Definition isDoji (candle : Candle) : bool :=
  (bodyRatio candle <? config.candles.dojiBodyRatio)%Q.

Definition hasLongUpperWick (candle : Candle) : bool :=
  (upperWickRatio candle >? lowerWickRatio candle * config.candles.wickRatio)%Q.

Definition hasLongLowerWick (candle : Candle) : bool :=
  (lowerWickRatio candle >? upperWickRatio candle * config.candles.wickRatio)%Q.

(** [if (cond) patterns.push(p)]. *)
Definition pushIf (cond : bool) (p : Pattern) : list Pattern :=
  if cond then [p] else [].

Module Patterns.
Local Open Scope string_scope.

Definition Doji := mkPattern "Doji" HOLD 0.7
  "Market Indecision - Equal buying and selling pressure".
Definition Hammer := mkPattern "Hammer" BUY 0.9
  "Bullish Reversal - Buyers stepping in at lows".
Definition InvertedHammer := mkPattern "Inverted Hammer" BUY 0.8
  "Bullish Reversal - Buyers attempting to push prices higher".
Definition ShootingStar := mkPattern "Shooting Star" SELL 0.9
  "Bearish Reversal - Sellers pushing prices down from highs".
Definition HangingMan := mkPattern "Hanging Man" SELL 0.8
  "Bearish Reversal - Potential selling climax".
Definition BullishMarubozu := mkPattern "Bullish Marubozu" BUY 0.8
  "Strong Bullish Trend - Continuous buying pressure".
Definition BearishMarubozu := mkPattern "Bearish Marubozu" SELL 0.8
  "Strong Bearish Trend - Continuous selling pressure".
Definition BullishEngulfing := mkPattern "Bullish Engulfing" BUY 0.95
  "Strong Bullish Reversal - Buyers overpower sellers".
Definition BearishEngulfing := mkPattern "Bearish Engulfing" SELL 0.95
  "Strong Bearish Reversal - Sellers overpower buyers".
Definition BullishHarami := mkPattern "Bullish Harami" BUY 0.75
  "Bullish Reversal - Decreasing selling pressure".
Definition BearishHarami := mkPattern "Bearish Harami" SELL 0.75
  "Bearish Reversal - Decreasing buying pressure".
Definition PiercingLine := mkPattern "Piercing Line" BUY 0.85
  "Bullish Reversal - Buyers entering after selling pressure".
Definition DarkCloudCover := mkPattern "Dark Cloud Cover" SELL 0.85
  "Bearish Reversal - Sellers entering after buying pressure".
Definition TweezerTop := mkPattern "Tweezer Top" SELL 0.7
  "Bearish Reversal - Failed attempt to move higher".
Definition TweezerBottom := mkPattern "Tweezer Bottom" BUY 0.7
  "Bullish Reversal - Failed attempt to move lower".
Definition MorningStar := mkPattern "Morning Star" BUY 0.98
  "Powerful Bullish Reversal - Trend change confirmed".
Definition EveningStar := mkPattern "Evening Star" SELL 0.98
  "Powerful Bearish Reversal - Trend change confirmed".
Definition ThreeWhiteSoldiers := mkPattern "Three White Soldiers" BUY 0.9
  "Strong Bullish Trend - Continuous upward momentum".
Definition ThreeBlackCrows := mkPattern "Three Black Crows" SELL 0.9
  "Strong Bearish Trend - Continuous downward momentum".
Definition ThreeInsideUp := mkPattern "Three Inside Up" BUY 0.8
  "Bullish Continuation - Strengthening bullish trend".
Definition ThreeInsideDown := mkPattern "Three Inside Down" SELL 0.8
  "Bearish Continuation - Strengthening bearish trend".
Definition RisingThreeMethods := mkPattern "Rising Three Methods" BUY 0.85
  "Bullish Continuation - Brief consolidation before continuation".
Definition FallingThreeMethods := mkPattern "Falling Three Methods" SELL 0.85
  "Bearish Continuation - Brief consolidation before continuation".
Definition GapUp := mkPattern "Gap Up" BUY 0.7
  "Bullish Signal - Strong buying interest".
Definition GapDown := mkPattern "Gap Down" SELL 0.7
  "Bearish Signal - Strong selling interest".
End Patterns.

(** The blocks guarded by [if (c0 && ...)]. *)
Definition singleCandlePatterns (c0 : option Candle) : list Pattern :=
  match c0 with
  | None => []
  | Some c0 =>
      pushIf (isDoji c0) Patterns.Doji
      ++ pushIf ((bodyRatio c0 <? 0.3)%Q && hasLongLowerWick c0
                 && (lowerWickRatio c0 >? 0.5)%Q) Patterns.Hammer
      ++ pushIf ((bodyRatio c0 <? 0.3)%Q && hasLongUpperWick c0
                 && (upperWickRatio c0 >? 0.5)%Q) Patterns.InvertedHammer
      ++ pushIf ((bodyRatio c0 <? 0.3)%Q && hasLongUpperWick c0
                 && (upperWickRatio c0 >? 0.5)%Q && isRed c0)
           Patterns.ShootingStar
      ++ pushIf ((bodyRatio c0 <? 0.3)%Q && hasLongLowerWick c0
                 && (lowerWickRatio c0 >? 0.5)%Q && isRed c0)
           Patterns.HangingMan
      ++ pushIf ((bodyRatio c0 >? 0.7)%Q && isGreen c0)
           Patterns.BullishMarubozu
      ++ pushIf ((bodyRatio c0 >? 0.7)%Q && isRed c0)
           Patterns.BearishMarubozu
  end.

(** The block guarded by the first [if (c0 && c1)]. *)
Definition twoCandlePatterns (c0 c1 : option Candle) : list Pattern :=
  match c0, c1 with
  | Some c0, Some c1 =>
      pushIf (isGreen c0 && isRed c1 && (close c0 >? open c1)
              && (open c0 <? close c1) && (bodyHeight c0 >? bodyHeight c1))
        Patterns.BullishEngulfing
      ++ pushIf (isRed c0 && isGreen c1 && (close c0 <? open c1)
                 && (open c0 >? close c1) && (bodyHeight c0 >? bodyHeight c1))
           Patterns.BearishEngulfing
      ++ pushIf (isRed c1 && isGreen c0 && (open c0 >? close c1)
                 && (close c0 <? open c1)) Patterns.BullishHarami
      ++ pushIf (isGreen c1 && isRed c0 && (open c0 <? close c1)
                 && (close c0 >? open c1)) Patterns.BearishHarami
      ++ pushIf (isRed c1 && isGreen c0 && (open c0 <? low c1)
                 && (close c0 >? (open c1 + close c1)%Z / 2)%Q)
           Patterns.PiercingLine
      ++ pushIf (isGreen c1 && isRed c0 && (open c0 >? high c1)
                 && (close c0 <? (open c1 + close c1)%Z / 2)%Q)
           Patterns.DarkCloudCover
      ++ pushIf ((Z.abs (high c1 - high c0) <? (high c1 - low c1)%Z * 0.01)%Q
                 && isGreen c1 && isRed c0) Patterns.TweezerTop
      ++ pushIf ((Z.abs (low c1 - low c0) <? (high c1 - low c1)%Z * 0.01)%Q
                 && isRed c1 && isGreen c0) Patterns.TweezerBottom
  | _, _ => []
  end.

(** The block guarded by [if (c0 && c1 && c2)]. *)
Definition threeCandlePatterns (c0 c1 c2 : option Candle) : list Pattern :=
  match c0, c1, c2 with
  | Some c0, Some c1, Some c2 =>
      pushIf (isRed c2 && isDoji c1 && isGreen c0 && (close c0 >? open c2))
        Patterns.MorningStar
      ++ pushIf (isGreen c2 && isDoji c1 && isRed c0 && (close c0 <? open c2))
           Patterns.EveningStar
      ++ pushIf (isGreen c2 && isGreen c1 && isGreen c0
                 && (close c1 >? close c2) && (close c0 >? close c1)
                 && (open c1 >? open c2) && (open c0 >? open c1))
           Patterns.ThreeWhiteSoldiers
      ++ pushIf (isRed c2 && isRed c1 && isRed c0
                 && (close c1 <? close c2) && (close c0 <? close c1)
                 && (open c1 <? open c2) && (open c0 <? open c1))
           Patterns.ThreeBlackCrows
      ++ pushIf (isRed c2 && isGreen c1 && (open c1 >? close c2)
                 && (close c1 <? open c2) && isGreen c0
                 && (close c0 >? close c1)) Patterns.ThreeInsideUp
      ++ pushIf (isGreen c2 && isRed c1 && (open c1 <? close c2)
                 && (close c1 >? open c2) && isRed c0
                 && (close c0 <? close c1)) Patterns.ThreeInsideDown
      ++ pushIf (isGreen c2 && isRed c1 && isGreen c0
                 && (open c1 <? close c2) && (close c1 >? open c0)
                 && (bodyHeight c1 <? Z.min (bodyHeight c2) (bodyHeight c0)))
           Patterns.RisingThreeMethods
      ++ pushIf (isRed c2 && isGreen c1 && isRed c0
                 && (open c1 >? close c2) && (close c1 <? open c0)
                 && (bodyHeight c1 <? Z.min (bodyHeight c2) (bodyHeight c0)))
           Patterns.FallingThreeMethods
  | _, _, _ => []
  end.

(** The second [if (c0 && c1)] block (gap analysis). *)
Definition gapPatterns (c0 c1 : option Candle) : list Pattern :=
  match c0, c1 with
  | Some c0, Some c1 =>
      pushIf (low c0 >? high c1) Patterns.GapUp
      ++ pushIf (high c0 <? low c1) Patterns.GapDown
  | _, _ => []
  end.

(** The comparator [(a, b) => b.strength - a.strength]: [a] stays in
    front of [b] when [b.strength - a.strength <= 0]. *)
Definition byStrengthDesc (a b : Pattern) : bool :=
  (strength b <=? strength a)%Q.

Definition detectAllCandlestickPatterns (candles : list Candle)
  : list Pattern :=
  let len := length candles in
  if (len <? 3)%nat then []
  else
    let c0 := nth_error candles (len - 1) in
    let c1 := if (2 <=? len)%nat then nth_error candles (len - 2) else None in
    let c2 := if (3 <=? len)%nat then nth_error candles (len - 3) else None in
    Js.sortBy byStrengthDesc
      (singleCandlePatterns c0
       ++ twoCandlePatterns c0 c1
       ++ threeCandlePatterns c0 c1 c2
       ++ gapPatterns c0 c1).

(** ** The extraction stage as a whole *)

(** A value, or the message of the [Error] that was thrown. *)
Inductive Outcome (A : Type) : Type :=
| Ok (a : A)
| Throw (message : string).

Arguments Ok {A} a.
Arguments Throw {A} message.

(** [patterns[0] || {name: 'No Pattern', signal: 'HOLD', strength: 0}]. *)
Inductive MainPattern : Type :=
| Detected (p : Pattern)
| NoPattern.

Record CandleAnalysis : Type := mkCandleAnalysis {
  candles : list Candle;
  patterns : list Pattern;
  mainPattern : MainPattern
}.

Definition analyzeProfessionalCandlesticks (imageData : ImageData)
  : Outcome CandleAnalysis :=
  let runs := detectRuns imageData in
  if (length runs =? 0)%nat then
    Throw "No candles detected in chart image - ensure image contains clear candlestick chart"
  else
    let measured := map (measureCandle imageData) runs in
    let reversed := rev measured in
    let validCandles := filter (fun c => totalHeight c >? 0) reversed in
    if (length validCandles =? 0)%nat then
      Throw "No valid candles found after processing"
    else
      let patterns := detectAllCandlestickPatterns validCandles in
      Ok {| candles := validCandles;
            patterns := patterns;
            mainPattern := match patterns with
                           | p :: _ => Detected p
                           | [] => NoPattern
                           end |}.

(** ** Support and resistance: [analyzeSupportResistance] *)

Module SR.

Inductive PointType : Type := resistance | support.

Record Point : Type := mkPoint {
  y : Z;
  type : PointType;
  index : nat;
  weight : Q;
  candle : Candle
}.

(** The accumulator [currentLevel]. *)
Record Cluster : Type := mkCluster {
  sum : Q;
  weightedSum : Q;
  touches : Z;
  values : list Z;
  cluster_type : PointType;
  indices : list nat;
  cluster_candles : list Candle
}.

Record Level : Type := mkLevel {
  level : Z;
  level_touches : Z;
  level_strength : Q;
  level_indices : list nat;
  level_candles : list Candle
}.

(** The short-input result carries no [levels] field. *)
Record Result : Type := mkResult {
  supports : list Level;
  resistances : list Level;
  signal : Signal;
  strength : Q;
  levels : option (list Level)
}.

End SR.

Definition nat_ratio (i n : nat) : Q := (Z.of_nat i / Z.of_nat n)%Q.

(** The [candles.forEach((c, i) => ...)] that collects the touch points. *)
Definition collectPoints (candles : list Candle) : list SR.Point :=
  let n := length candles in
  flat_map
    (fun ic : nat * Candle =>
       let '(i, c) := ic in
       let weight := (1 + nat_ratio i n * 2)%Q in
       [ SR.mkPoint (high c) SR.resistance i weight c;
         SR.mkPoint (low c) SR.support i weight c ])
    (combine (seq 0 n) candles).

Definition startCluster (p : SR.Point) : SR.Cluster :=
  {| SR.sum := (SR.y p * SR.weight p)%Q;
     SR.weightedSum := SR.weight p;
     SR.touches := 1;
     SR.values := [SR.y p];
     SR.cluster_type := SR.type p;
     SR.indices := [SR.index p];
     SR.cluster_candles := [SR.candle p] |}.

Definition extendCluster (cl : SR.Cluster) (p : SR.Point) : SR.Cluster :=
  {| SR.sum := (SR.sum cl + SR.y p * SR.weight p)%Q;
     SR.weightedSum := (SR.weightedSum cl + SR.weight p)%Q;
     SR.touches := SR.touches cl + 1;
     SR.values := SR.values cl ++ [SR.y p];
     SR.cluster_type := SR.cluster_type cl;
     SR.indices := SR.indices cl ++ [SR.index p];
     SR.cluster_candles := SR.cluster_candles cl ++ [SR.candle p] |}.

(** [levels.push({...})] when the cluster has enough touches. *)
Definition flushCluster (lv : list SR.Level) (cl : SR.Cluster)
  : list SR.Level :=
  if SR.touches cl >=? config.supportResistance.minTouches then
    let weightedAverage := (SR.sum cl / SR.weightedSum cl)%Q in
    lv ++ [ {| SR.level := Js.Math_round weightedAverage;
               SR.level_touches := SR.touches cl;
               SR.level_strength :=
                 (Qmin (SR.touches cl / 6) 1
                  * (SR.weightedSum cl / SR.touches cl / 2))%Q;
               SR.level_indices := SR.indices cl;
               SR.level_candles := SR.cluster_candles cl |} ]
  else lv.

(** One iteration of the clustering loop. *)
Definition clusterStep (imageHeight : Z) (n : nat)
  (st : list SR.Level * SR.Cluster) (p : SR.Point)
  : list SR.Level * SR.Cluster :=
  let '(lv, cl) := st in
  let distance := SR.y p - last (SR.values cl) 0 in
  let dynamicTolerance :=
    (imageHeight * config.supportResistance.clusterTolerance
     * (1 + nat_ratio (SR.index p) n * 0.5))%Q in
  if (distance <? dynamicTolerance)%Q
  then (lv, extendCluster cl p)
  else (flushCluster lv cl, startCluster p).

(** Clustering of the sorted points.  With at least eight candles there
    are at least sixteen points, so [points[0]] exists. *)
Definition clusterLevels (imageHeight : Z) (n : nat) (points : list SR.Point)
  : list SR.Level :=
  match points with
  | [] => []
  | p0 :: rest =>
      let '(lv, cl) :=
        fold_left (clusterStep imageHeight n) rest ([], startCluster p0) in
      flushCluster lv cl
  end.

(** [levels.filter(level => !levels.some(otherLevel => ...))];
    [otherLevel !== level] compares object identity, modelled by the
    position in [levels]. *)
Definition validateLevels (imageHeight : Z) (lvls : list SR.Level)
  : list SR.Level :=
  let indexed := combine (seq 0 (length lvls)) lvls in
  map snd
    (filter
       (fun il : nat * SR.Level =>
          let '(i, lv) := il in
          negb
            (existsb
               (fun jo : nat * SR.Level =>
                  let '(j, otherLevel) := jo in
                  negb (j =? i)%nat
                  && (SR.level_strength otherLevel
                      >? SR.level_strength lv * 1.2)%Q
                  && (Z.abs (SR.level otherLevel - SR.level lv)
                      <? imageHeight
                         * config.supportResistance.clusterTolerance * 3)%Q)
               indexed))
       indexed).

(** The proximity zone of a nearest level, [0] when there is none. *)
Definition zoneOf (imageHeight : Z) (nearest : option SR.Level) : Q :=
  match nearest with
  | Some l =>
      (imageHeight * config.supportResistance.zoneProximity
       * (1 + SR.level_strength l * 0.7))%Q
  | None => 0%Q
  end.

Definition analyzeSupportResistance (candles : list Candle) (imageHeight : Z)
  : SR.Result :=
  if (length candles <? 8)%nat then
    {| SR.supports := []; SR.resistances := [];
       SR.signal := HOLD; SR.strength := 0%Q; SR.levels := None |}
  else
    let n := length candles in
    let points :=
      Js.sortBy (fun a b => SR.y a <=? SR.y b) (collectPoints candles) in
    let lvls := clusterLevels imageHeight n points in
    let currentPrice :=
      match nth_error candles (n - 1) with
      | Some lastCandle => close lastCandle
      | None => 0
      end in
    let validatedLevels := validateLevels imageHeight lvls in
    let supports :=
      Js.sortBy (fun a b => SR.level a <=? SR.level b)
        (filter (fun l => SR.level l >? currentPrice) validatedLevels) in
    let resistances :=
      Js.sortBy (fun a b => SR.level b <=? SR.level a)
        (filter (fun l => SR.level l <? currentPrice) validatedLevels) in
    let nearestSupport := nth_error supports 0 in
    let nearestResistance := nth_error resistances 0 in
    let supportZone := zoneOf imageHeight nearestSupport in
    let resistanceZone := zoneOf imageHeight nearestResistance in
    let confirmationCandles :=
      config.supportResistance.confirmationCandles in
    let recentCandles :=
      Js.dropLast 1 (Js.lastn (confirmationCandles + 1) candles) in
    let confirmedBy (nearest : option SR.Level) (zone : Q)
          (edge : Candle -> Z) : bool :=
      if (confirmationCandles + 1 <=? n)%nat then
        existsb
          (fun c =>
             match nearest with
             | Some l => (Z.abs (edge c - SR.level l) <? zone * 0.5)%Q
             | None => false
             end)
          recentCandles
      else false in
    let supportConfirmed := confirmedBy nearestSupport supportZone low in
    let resistanceConfirmed :=
      confirmedBy nearestResistance resistanceZone high in
    let near (nearest : option SR.Level) (zone : Q) : bool :=
      match nearest with
      | Some l => (Z.abs (currentPrice - SR.level l) <? zone)%Q
      | None => false
      end in
    let strengthOf (nearest : option SR.Level) : Q :=
      match nearest with
      | Some l => Qmin (SR.level_strength l * 1.2) 1
      | None => 0%Q
      end in
    let '(signal, strength) :=
      if near nearestResistance resistanceZone && resistanceConfirmed
      then (SELL, strengthOf nearestResistance)
      else if near nearestSupport supportZone && supportConfirmed
      then (BUY, strengthOf nearestSupport)
      else (HOLD, 0%Q) in
    {| SR.supports := supports;
       SR.resistances := resistances;
       SR.signal := signal;
       SR.strength := strength;
       SR.levels := Some validatedLevels |}.

(** ** Donchian channels: [analyzeDonchianChannels] *)

Module Donchian.

Inductive Position : Type := middle | upper_breakout | lower_breakout.

Record PeriodResult : Type := mkPeriodResult {
  period : nat;
  highest : Z;
  lowest : Z;
  mid : Q;
  period_signal : Signal;
  period_strength : Q;
  period_position : Position
}.

(** [position] is absent when no period yields a signal, and
    [allPeriods] is absent from the short-input result. *)
Record Result : Type := mkResult {
  signal : Signal;
  strength : Q;
  position : option Position;
  allPeriods : option (list PeriodResult)
}.

End Donchian.

(** [Math.max(...xs)] and [Math.min(...xs)] of a non-empty array. *)
Definition maxOf (xs : list Z) : Z :=
  match xs with
  | [] => 0
  | x :: rest => fold_left Z.max rest x
  end.

Definition minOf (xs : list Z) : Z :=
  match xs with
  | [] => 0
  | x :: rest => fold_left Z.min rest x
  end.

Definition breakoutBand (highest lowest : Z) : Q :=
  ((highest - lowest)%Z * config.donchian.breakoutThreshold)%Q.

Definition aboveUpperBand (highest lowest : Z) (c : Candle) : bool :=
  (close c >? highest - breakoutBand highest lowest)%Q.

Definition belowLowerBand (highest lowest : Z) (c : Candle) : bool :=
  (close c <? lowest + breakoutBand highest lowest)%Q.

(** The body of [periods.forEach] for a period that fits. *)
Definition donchianPeriod (candles : list Candle) (period : nat)
  : Donchian.PeriodResult :=
  let recentCandles := Js.lastn period candles in
  let highest := maxOf (map high recentCandles) in
  let lowest := minOf (map low recentCandles) in
  let middle := ((highest + lowest)%Z / 2)%Q in
  let currentPrice :=
    match nth_error candles (length candles - 1) with
    | Some c => close c
    | None => 0
    end in
  let breakoutThreshold := breakoutBand highest lowest in
  let confirmedBy (beyond : Candle -> bool) : bool :=
    if (3 <=? length candles)%nat
    then forallb beyond (Js.lastn 3 candles)
    else true in
  let '(signal, strength, position) :=
    if (currentPrice >? highest - breakoutThreshold)%Q then
      if confirmedBy (aboveUpperBand highest lowest)
      then (BUY, 0.9%Q, Donchian.upper_breakout)
      else (HOLD, 0%Q, Donchian.middle)
    else if (currentPrice <? lowest + breakoutThreshold)%Q then
      if confirmedBy (belowLowerBand highest lowest)
      then (SELL, 0.9%Q, Donchian.lower_breakout)
      else (HOLD, 0%Q, Donchian.middle)
    else (HOLD, 0%Q, Donchian.middle) in
  {| Donchian.period := period;
     Donchian.highest := highest;
     Donchian.lowest := lowest;
     Donchian.mid := middle;
     Donchian.period_signal := signal;
     Donchian.period_strength := strength;
     Donchian.period_position := position |}.

Definition donchianResults (candles : list Candle)
  : list Donchian.PeriodResult :=
  flat_map
    (fun period =>
       if (period <=? length candles)%nat
       then [donchianPeriod candles period]
       else [])
    config.donchian.periods.

(** [results.reduce((best, current) => ..., {signal: 'HOLD', strength: 0})]. *)
Definition strongestSignal (results : list Donchian.PeriodResult)
  : Signal * Q * option Donchian.Position :=
  fold_left
    (fun (best : Signal * Q * option Donchian.Position) current =>
       let '(_, bestStrength, _) := best in
       if (Donchian.period_strength current >? bestStrength)%Q
       then (Donchian.period_signal current,
             Donchian.period_strength current,
             Some (Donchian.period_position current))
       else best)
    results
    (HOLD, 0%Q, None).

Definition analyzeDonchianChannels (candles : list Candle)
  : Donchian.Result :=
  if (length candles <? 20)%nat then
    {| Donchian.signal := HOLD; Donchian.strength := 0%Q;
       Donchian.position := Some Donchian.middle;
       Donchian.allPeriods := None |}
  else
    let results := donchianResults candles in
    let '(signal, strength, position) := strongestSignal results in
    {| Donchian.signal := signal;
       Donchian.strength := strength;
       Donchian.position := position;
       Donchian.allPeriods := Some results |}.

(** ** Moving averages, RSI and the other helpers *)

(** Sum of the closes, as [reduce((acc, c) => acc + c.close, 0)]. *)
Definition sumCloses (candles : list Candle) : Z :=
  fold_left (fun acc c => acc + close c) candles 0.

(** [period] is a positive number of candles at every call site. *)
Definition calculateSMA (candles : list Candle) (period : positive)
  : option Q :=
  if (length candles <? Pos.to_nat period)%nat then None
  else
    let sum := sumCloses (Js.lastn (Pos.to_nat period) candles) in
    Some (sum / Z.pos period)%Q.

Definition calculateEMA (candles : list Candle) (period : positive)
  : option Q :=
  if (length candles <? Pos.to_nat period)%nat then None
  else
    match candles with
    | [] => None
    | first :: rest =>
        let k := (2 / (Z.pos period + 1)%Z)%Q in
        Some (fold_left
                (fun ema c => (close c * k + ema * (1 - k))%Q)
                rest (inject_Z (close first)))
    end.

(** The loop of [calculateRSI]: [i] runs over the last [period] indices
    and compares [candles[i]] with [candles[i - 1]]. *)
Definition gainsLosses (candles : list Candle) (period : positive) : Z * Z :=
  let n := length candles in
  fold_left
    (fun (gl : Z * Z) (i : nat) =>
       let '(gains, losses) := gl in
       match nth_error candles i, nth_error candles (i - 1) with
       | Some ci, Some cp =>
           let change := close ci - close cp in
           if change >? 0 then (gains + change, losses)
           else (gains, losses - change)
       | _, _ => gl
       end)
    (seq (n - Pos.to_nat period) (Pos.to_nat period))
    (0, 0).

Definition calculateRSI (candles : list Candle) (period : positive) : Q :=
  if (length candles <=? Pos.to_nat period)%nat then 50%Q
  else
    let '(gains, losses) := gainsLosses candles period in
    let avgGain := (gains / Z.pos period)%Q in
    let avgLoss := (losses / Z.pos period)%Q in
    if Qeq_bool avgLoss 0 then 100%Q
    else
      let rs := (avgGain / avgLoss)%Q in
      (100 - 100 / (1 + rs))%Q.

Definition calculateTrendStrength (candles : list Candle) : Q :=
  if (length candles <? 10)%nat then 0%Q
  else
    let recentCandles := Js.lastn 10 candles in
    let '(upDays, downDays) :=
      fold_left
        (fun (ud : Z * Z) (pc : Candle * Candle) =>
           let '(up, down) := ud in
           let '(prev, cur) := pc in
           if close cur >? close prev then (up + 1, down)
           else if close cur <? close prev then (up, down + 1)
           else ud)
        (combine recentCandles (tl recentCandles))
        (0, 0) in
    ((upDays - downDays)%Z / 10)%Q.

Definition calculateMomentum (candles : list Candle) : Js.jsnum :=
  if (length candles <? 10)%nat then Js.Fin 0
  else
    let n := length candles in
    match nth_error candles (n - 1), nth_error candles (n - 10) with
    | Some cur, Some old =>
        Js.div (close cur - close old)%Z (close old)
    | _, _ => Js.NaN
    end.

Module MA.

Record Indicators : Type := mkIndicators {
  sma9 : option Q;
  sma20 : option Q;
  sma50 : option Q;
  ema9 : option Q;
  ema20 : option Q;
  ema50 : option Q
}.

(** The short-input result carries no [indicators] field. *)
Record Result : Type := mkResult {
  signal : Signal;
  strength : Q;
  indicators : option Indicators
}.

End MA.

Definition analyzeMovingAverages (candles : list Candle) : MA.Result :=
  if (length candles <? 50)%nat then
    {| MA.signal := HOLD; MA.strength := 0%Q; MA.indicators := None |}
  else
    let sma9 := calculateSMA candles 9 in
    let sma20 := calculateSMA candles 20 in
    let sma50 := calculateSMA candles 50 in
    let ema9 := calculateEMA candles 9 in
    let ema20 := calculateEMA candles 20 in
    let ema50 := calculateEMA candles 50 in
    let '(signal, strength) :=
      match sma9, sma20, sma50 with
      | Some s9, Some s20, Some s50 =>
          if Js.truthy sma20 && Js.truthy sma50 && Js.truthy sma9 then
            let prevCandles := Js.dropLast 1 (Js.lastn 2 candles) in
            if (0 <? length prevCandles)%nat then
              let prevSma9 := calculateSMA (Js.dropLast 1 candles) 9 in
              let prevSma20 := calculateSMA (Js.dropLast 1 candles) 20 in
              let prevSma50 := calculateSMA (Js.dropLast 1 candles) 50 in
              match prevSma9, prevSma20, prevSma50 with
              | Some p9, Some p20, Some p50 =>
                  if Js.truthy prevSma20 && Js.truthy prevSma50
                     && Js.truthy prevSma9 then
                    if ((s20 >? s50) && (p20 <=? p50))%Q
                    then (BUY, 0.85%Q)
                    else if ((s20 <? s50) && (p20 >=? p50))%Q
                    then (SELL, 0.85%Q)
                    else if ((s9 >? s20) && (s20 >? s50))%Q
                    then (BUY, 0.7%Q)
                    else if ((s9 <? s20) && (s20 <? s50))%Q
                    then (SELL, 0.7%Q)
                    else (HOLD, 0%Q)
                  else (HOLD, 0%Q)
              | _, _, _ => (HOLD, 0%Q)
              end
            else (HOLD, 0%Q)
          else (HOLD, 0%Q)
      | _, _, _ => (HOLD, 0%Q)
      end in
    {| MA.signal := signal;
       MA.strength := strength;
       MA.indicators :=
         Some {| MA.sma9 := sma9; MA.sma20 := sma20; MA.sma50 := sma50;
                 MA.ema9 := ema9; MA.ema20 := ema20; MA.ema50 := ema50 |} |}.

(** ** MACD: [analyzeMACD] *)

Module MACD.

Record Indicators : Type := mkIndicators {
  macdLine : Q;
  signalLine : Q;
  histogram : Q
}.

Record Result : Type := mkResult {
  signal : Signal;
  strength : Q;
  indicators : option Indicators
}.

End MACD.

Definition sumQ (xs : list Q) : Q :=
  fold_left (fun a b => (a + b)%Q) xs 0%Q.

(** [e12 && e26 ? e12 - e26 : absent] on a prefix of the candles. *)
Definition macdOf (slice : list Candle) : option Q :=
  let e12 := calculateEMA slice 12 in
  let e26 := calculateEMA slice 26 in
  match e12, e26 with
  | Some a, Some b =>
      if Js.truthy e12 && Js.truthy e26 then Some (a - b)%Q else None
  | _, _ => None
  end.

Definition analyzeMACD (candles : list Candle) : MACD.Result :=
  let neutral :=
    {| MACD.signal := HOLD; MACD.strength := 0%Q;
       MACD.indicators := None |} in
  if (length candles <? 26)%nat then neutral
  else
    match macdOf candles with
    | None => neutral
    | Some macdLine =>
        let n := length candles in
        (* [unshift] in a loop over i = 0, 1, ...: the oldest prefix first. *)
        let macdValues :=
          flat_map
            (fun i =>
               match macdOf (firstn (n - i) candles) with
               | Some v => [v]
               | None => []
               end)
            (rev (seq 0 (Nat.min 9 n))) in
        let signalLine :=
          if (0 <? length macdValues)%nat
          then (sumQ macdValues / Z.of_nat (length macdValues))%Q
          else 0%Q in
        let histogram := (macdLine - signalLine)%Q in
        let '(signal, strength) :=
          if ((macdLine >? 0) && (histogram >? 0))%Q
          then (BUY, Qmin (Qabs histogram * 10) 1)
          else if ((macdLine <? 0) && (histogram <? 0))%Q
          then (SELL, Qmin (Qabs histogram * 10) 1)
          else (HOLD, 0%Q) in
        let strength :=
          if (3 <=? n)%nat then
            let prevCandles := Js.dropLast 1 (Js.lastn 3 candles) in
            let prevMacdValues :=
              map
                (fun i =>
                   match macdOf (firstn (n - 2 + i) candles) with
                   | Some v => v
                   | None => 0%Q
                   end)
                (seq 0 (length prevCandles)) in
            let prevHistogram :=
              if (0 <? length prevMacdValues)%nat
              then (last prevMacdValues 0
                    - sumQ prevMacdValues
                      / Z.of_nat (length prevMacdValues))%Q
              else 0%Q in
            if (histogram >? prevHistogram)%Q && Signal_eqb signal BUY
            then Qmin (strength * 1.3) 1
            else if (histogram <? prevHistogram)%Q && Signal_eqb signal SELL
            then Qmin (strength * 1.3) 1
            else strength
          else strength in
        {| MACD.signal := signal;
           MACD.strength := strength;
           MACD.indicators :=
             Some {| MACD.macdLine := macdLine;
                     MACD.signalLine := signalLine;
                     MACD.histogram := histogram |} |}
    end.

(** ** Quantitative analysis: [performQuantitativeAnalysis] *)

Module Quant.

Record Indicators : Type := mkIndicators {
  rsi : Q;
  sma9 : option Q;
  sma20 : option Q;
  sma50 : option Q;
  ema9 : option Q;
  ema20 : option Q;
  ema50 : option Q;
  volatility : Js.jsnum;
  trendStrength : Q;
  momentum : Js.jsnum
}.

Record Result : Type := mkResult {
  signal : Signal;
  strength : Q;
  indicators : Indicators
}.

End Quant.

Module Combined.

Record Result : Type := mkResult {
  signal : Signal;
  confidence : Q
}.

End Combined.

Record TechnicalAnalysis : Type := mkTechnicalAnalysis {
  supportResistance : SR.Result;
  donchianChannels : Donchian.Result;
  quantitative : option Quant.Result;
  movingAverages : MA.Result;
  macd : MACD.Result;
  combinedSignal : Combined.Result
}.

(** [combineTechnicalSignals]: the quantitative signal joins the list
    only when the analysis is present. *)
Definition combineTechnicalSignals (srAnalysis : SR.Result)
  (donchianAnalysis : Donchian.Result) (quantAnalysis : option Quant.Result)
  (maAnalysis : MA.Result) (macdAnalysis : MACD.Result) : Combined.Result :=
  let signals : list (Signal * Q) :=
    [ (SR.signal srAnalysis, (SR.strength srAnalysis * 1.2)%Q);
      (Donchian.signal donchianAnalysis, Donchian.strength donchianAnalysis);
      (MA.signal maAnalysis, (MA.strength maAnalysis * 0.9)%Q);
      (MACD.signal macdAnalysis, MACD.strength macdAnalysis) ]
    ++ match quantAnalysis with
       | Some q =>
           let s := if Qeq_bool (Quant.strength q) 0
                    then 0.5%Q else Quant.strength q in
           [ (Quant.signal q, (s * 0.8)%Q) ]
       | None => []
       end in
  let '(buyScore, sellScore) :=
    fold_left
      (fun (bs : Q * Q) (s : Signal * Q) =>
         let '(buy, sell) := bs in
         match fst s with
         | BUY => ((buy + snd s)%Q, sell)
         | SELL => (buy, (sell + snd s)%Q)
         | HOLD => bs
         end)
      signals (0%Q, 0%Q) in
  let totalScore := (buyScore + sellScore)%Q in
  if Qeq_bool totalScore 0 then
    {| Combined.signal := HOLD; Combined.confidence := 0%Q |}
  else if (buyScore >? sellScore)%Q then
    {| Combined.signal := BUY;
       Combined.confidence := Qmin 98 (buyScore / totalScore * 100) |}
  else
    {| Combined.signal := SELL;
       Combined.confidence := Qmin 98 (sellScore / totalScore * 100) |}.

Section WithSqrt.

(** [Math.sqrt], a primitive of the platform. *)
Variable Math_sqrt : Q -> Q.

Definition calculateVolatility (candles : list Candle) (period : positive)
  : Js.jsnum :=
  if (length candles <=? Pos.to_nat period)%nat then Js.Fin 0
  else
    let closes := map close (Js.lastn (Pos.to_nat period) candles) in
    let mean :=
      (fold_left Z.add closes 0%Z / Z.of_nat (length closes))%Q in
    let squareDiffs :=
      map (fun value : Z =>
             let diff := (value - mean)%Q in (diff * diff)%Q)
          closes in
    let avgSquareDiff :=
      (sumQ squareDiffs / Z.of_nat (length squareDiffs))%Q in
    let stdDev := Math_sqrt avgSquareDiff in
    Js.div stdDev mean.

Definition performQuantitativeAnalysis (candles : list Candle)
  : option Quant.Result :=
  if (length candles <? 14)%nat then None
  else
    let sma9 := calculateSMA candles 9 in
    let sma20 := calculateSMA candles 20 in
    let sma50 := calculateSMA candles 50 in
    let ema9 := calculateEMA candles 9 in
    let ema20 := calculateEMA candles 20 in
    let ema50 := calculateEMA candles 50 in
    let rsi := calculateRSI candles 14 in
    let volatility := calculateVolatility candles 14 in
    let trendStrength := calculateTrendStrength candles in
    let momentum := calculateMomentum candles in
    let '(signal, strength) :=
      if (rsi >? 75)%Q
      then (SELL, (Qmin ((rsi - 75) / 25) 1 * 0.9)%Q)
      else if (rsi <? 25)%Q
      then (BUY, (Qmin ((25 - rsi) / 25) 1 * 0.9)%Q)
      else (HOLD, 0%Q) in
    let '(signal, strength) :=
      match sma9, sma20, sma50 with
      | Some s9, Some s20, Some s50 =>
          if Js.truthy sma9 && Js.truthy sma20 && Js.truthy sma50 then
            let maDiff := ((s9 - s20) / s20)%Q in
            if (maDiff >? 0.005)%Q then
              let newStrength := (Qmin (maDiff * 100) 1 * 0.7)%Q in
              if (newStrength >? strength)%Q
              then (BUY, newStrength) else (signal, strength)
            else if (maDiff <? - 0.005)%Q then
              let newStrength := (Qmin (Qabs maDiff * 100) 1 * 0.7)%Q in
              if (newStrength >? strength)%Q
              then (SELL, newStrength) else (signal, strength)
            else (signal, strength)
          else (signal, strength)
      | _, _, _ => (signal, strength)
      end in
    let strength :=
      if Js.num_gtb volatility 0.03 then (strength * 0.7)%Q
      else strength in
    Some {| Quant.signal := signal;
            Quant.strength := strength;
            Quant.indicators :=
              {| Quant.rsi := rsi;
                 Quant.sma9 := sma9; Quant.sma20 := sma20;
                 Quant.sma50 := sma50;
                 Quant.ema9 := ema9; Quant.ema20 := ema20;
                 Quant.ema50 := ema50;
                 Quant.volatility := volatility;
                 Quant.trendStrength := trendStrength;
                 Quant.momentum := momentum |} |}.

Definition performTechnicalAnalysis (candles : list Candle)
  (imageData : ImageData) : TechnicalAnalysis :=
  let srAnalysis := analyzeSupportResistance candles (height imageData) in
  let donchianAnalysis := analyzeDonchianChannels candles in
  let quantAnalysis := performQuantitativeAnalysis candles in
  let maAnalysis := analyzeMovingAverages candles in
  let macdAnalysis := analyzeMACD candles in
  {| supportResistance := srAnalysis;
     donchianChannels := donchianAnalysis;
     quantitative := quantAnalysis;
     movingAverages := maAnalysis;
     macd := macdAnalysis;
     combinedSignal :=
       combineTechnicalSignals srAnalysis donchianAnalysis quantAnalysis
         maAnalysis macdAnalysis |}.

End WithSqrt.

(** ** Signal fusion: [generateProfessionalRecommendation] *)

(** A piece of a template literal: literal text, or a number rendered
    by [toFixed(1)]; the rendering itself is left symbolic. *)
Inductive Fragment : Type :=
| Lit (s : string)
| ToFixed1 (q : Q).

Inductive FactorType : Type := bullish | bearish | neutral.

Record SummaryItem : Type := mkSummaryItem {
  item_type : FactorType;
  text : list Fragment;
  impact : Q
}.

Record Recommendation : Type := mkRecommendation {
  action : Action;
  confidence : Z;
  profitTarget : Q;
  riskLevel : Q;
  color : string;
  summary : list SummaryItem;
  scores_buy : Fragment;
  scores_sell : Fragment
}.

(** [s.replace(/\s/g, '')] on an ASCII string. *)
Definition isWhitespace (c : ascii) : bool :=
  let n := nat_of_ascii c in
  ((9 <=? n) && (n <=? 13) || (n =? 32))%nat.

Fixpoint removeWhitespace (s : string) : string :=
  match s with
  | EmptyString => EmptyString
  | String c rest =>
      if isWhitespace c then removeWhitespace rest
      else String c (removeWhitespace rest)
  end.

(** [config.scores[key] || 2.0]. *)
Definition baseScoreOf (patternName : string) : Q :=
  match config.lookup (removeWhitespace patternName) config.scores with
  | Some v => if Qeq_bool v 0 then 2.0%Q else v
  | None => 2.0%Q
  end.

(** A static read [config.scores.key] of a key that is present. *)
Definition scoreOf (key : string) : Q :=
  match config.lookup key config.scores with
  | Some v => v
  | None => 0%Q
  end.

(** The running state of the scoring phase. *)
Record Tally : Type := mkTally {
  buyScore : Q;
  sellScore : Q;
  entries : list SummaryItem
}.

Definition addBuy (t : Tally) (score : Q) (txt : list Fragment) : Tally :=
  {| buyScore := (buyScore t + score)%Q;
     sellScore := sellScore t;
     entries := entries t ++ [mkSummaryItem bullish txt score] |}.

Definition addSell (t : Tally) (score : Q) (txt : list Fragment) : Tally :=
  {| buyScore := buyScore t;
     sellScore := (sellScore t + score)%Q;
     entries := entries t ++ [mkSummaryItem bearish txt score] |}.

Module Texts.
Local Open Scope string_scope.

Definition pattern (p : Pattern) (score : Q) : list Fragment :=
  [Lit "🕯️ "; Lit (name p); Lit ": "; Lit (description p); Lit " (+";
   ToFixed1 score; Lit ")"].
Definition fixed (label : string) (score : Q) : list Fragment :=
  [Lit label; Lit " (+"; ToFixed1 score; Lit ")"].
Definition support := fixed "📈 Strong Support Level Detected".
Definition resistance := fixed "📉 Strong Resistance Level Detected".
Definition upperBreakout := fixed "🚀 Donchian Upper Breakout Detected".
Definition lowerBreakout := fixed "📉 Donchian Lower Breakout Detected".
Definition maBullish := fixed "📊 Moving Average Bullish Signal".
Definition maBearish := fixed "📊 Moving Average Bearish Signal".
Definition macdBullish := fixed "📶 MACD Bullish Signal".
Definition macdBearish := fixed "📶 MACD Bearish Signal".
Definition quantBuy := fixed "🔬 Quantitative Analysis: BUY".
Definition quantSell := fixed "🔬 Quantitative Analysis: SELL".
Definition belowThreshold : list Fragment :=
  [Lit "⚠️ Confidence below 65% threshold - Recommendation: WAIT"].
End Texts.

(** The callback of [candleAnalysis.patterns.forEach]. *)
Definition scorePattern (t : Tally) (pattern : Pattern) : Tally :=
  let baseScore := baseScoreOf (name pattern) in
  let score := (baseScore * strength pattern)%Q in
  match signal pattern with
  | BUY => addBuy t score (Texts.pattern pattern score)
  | SELL => addSell t score (Texts.pattern pattern score)
  | HOLD => t
  end.

(** An [if (s.signal === 'BUY') ... else if (s.signal === 'SELL') ...]
    block of the scoring phase. *)
Definition scoreIndicator (t : Tally) (sig : Signal) (buy sell : Q)
  (buyText sellText : Q -> list Fragment) : Tally :=
  match sig with
  | BUY => addBuy t buy (buyText buy)
  | SELL => addSell t sell (sellText sell)
  | HOLD => t
  end.

(** The scoring phase: everything up to
    [// Calculate final recommendation]. *)
Definition scoreSignals (candleAnalysis : CandleAnalysis)
  (technicalAnalysis : TechnicalAnalysis) : Tally :=
  let t := fold_left scorePattern (patterns candleAnalysis)
             (mkTally 0 0 []) in
  let srSignal := supportResistance technicalAnalysis in
  let t := scoreIndicator t (SR.signal srSignal)
             (scoreOf "strongSupport" * SR.strength srSignal)%Q
             (scoreOf "strongResistance" * SR.strength srSignal)%Q
             Texts.support Texts.resistance in
  let donchianSignal := donchianChannels technicalAnalysis in
  let t := scoreIndicator t (Donchian.signal donchianSignal)
             (scoreOf "upperBreakout" * Donchian.strength donchianSignal)%Q
             (scoreOf "lowerBreakout" * Donchian.strength donchianSignal)%Q
             Texts.upperBreakout Texts.lowerBreakout in
  let maSignal := movingAverages technicalAnalysis in
  let t := scoreIndicator t (MA.signal maSignal)
             (3.5 * MA.strength maSignal)%Q
             (3.5 * MA.strength maSignal)%Q
             Texts.maBullish Texts.maBearish in
  let macdSignal := macd technicalAnalysis in
  let t := scoreIndicator t (MACD.signal macdSignal)
             (scoreOf "macdBullish" * MACD.strength macdSignal)%Q
             (scoreOf "macdBearish" * MACD.strength macdSignal)%Q
             Texts.macdBullish Texts.macdBearish in
  match quantitative technicalAnalysis with
  | Some quantSignal =>
      let score := (3.0 * Quant.strength quantSignal)%Q in
      scoreIndicator t (Quant.signal quantSignal) score score
        Texts.quantBuy Texts.quantSell
  | None => t
  end.

(** The profit and risk tier of a confidence. *)
Definition tierOf (confidence : Z) : Q * Q :=
  if confidence >=? 85 then
    (config.recommendation.profitTargets.aggressive,
     config.recommendation.riskLevels.aggressive)
  else if confidence >=? 75 then
    (config.recommendation.profitTargets.moderate,
     config.recommendation.riskLevels.moderate)
  else
    (config.recommendation.profitTargets.conservative,
     config.recommendation.riskLevels.conservative).

(** The decision of the first [if ... else] after the scoring phase:
    action, confidence, profit target, risk level and colour. *)
Definition initialDecision (buyScore sellScore : Q)
  : Action * Z * Q * Q * string :=
  let totalScore := (buyScore + sellScore)%Q in
  let scoreDifference := Qabs (buyScore - sellScore) in
  if Qeq_bool totalScore 0 || (scoreDifference <? 1.5)%Q then
    (ActWAIT, 40, 0%Q, 0%Q, "var(--text-muted)"%string)
  else
    let rawConfidence := (50 + scoreDifference / totalScore * 50)%Q in
    let confidence := Z.min 95 (Js.Math_round rawConfidence) in
    let '(profitTarget, riskLevel) := tierOf confidence in
    if (buyScore >? sellScore)%Q
    then (ActBUY, confidence, profitTarget, riskLevel,
          "var(--success-green)"%string)
    else (ActSELL, confidence, profitTarget, riskLevel,
          "var(--danger-red)"%string).

Definition Action_eqb (a b : Action) : bool :=
  match a, b with
  | ActBUY, ActBUY | ActSELL, ActSELL | ActWAIT, ActWAIT => true
  | _, _ => false
  end.

(** The adjustments of the profit target by volatility, trend strength
    and RSI. *)
Definition adjustByQuant (quantData : option Quant.Result) (profitTarget : Q)
  : Q :=
  match quantData with
  | None => profitTarget
  | Some q =>
      let ind := Quant.indicators q in
      let p :=
        if Js.num_gtb (Quant.volatility ind) 0.04 then (profitTarget * 0.6)%Q
        else if Js.num_gtb (Quant.volatility ind) 0.03
        then (profitTarget * 0.75)%Q
        else if Js.num_gtb (Quant.volatility ind) 0.02
        then (profitTarget * 0.9)%Q
        else profitTarget in
      let p :=
        if (Qabs (Quant.trendStrength ind) >? 0.6)%Q then (p * 1.25)%Q
        else if (Qabs (Quant.trendStrength ind) >? 0.4)%Q then (p * 1.15)%Q
        else p in
      if ((Quant.rsi ind >? 85) || (Quant.rsi ind <? 15))%Q
      then (p * 0.85)%Q else p
  end.

(** The adjustment by the alignment of the moving averages. *)
Definition adjustByMA (maData : MA.Result) (action : Action)
  (profitTarget : Q) : Q :=
  match MA.indicators maData with
  | None => profitTarget
  | Some ind =>
      match MA.sma9 ind, MA.sma20 ind, MA.sma50 ind with
      | Some s9, Some s20, Some s50 =>
          if Js.truthy (MA.sma9 ind) && Js.truthy (MA.sma20 ind)
             && Js.truthy (MA.sma50 ind) then
            if Action_eqb action ActBUY && ((s9 >? s20) && (s20 >? s50))%Q
            then (profitTarget * 1.1)%Q
            else if Action_eqb action ActSELL
                    && ((s9 <? s20) && (s20 <? s50))%Q
            then (profitTarget * 1.1)%Q
            else if (Action_eqb action ActBUY
                     && ((s9 <? s20) || (s20 <? s50))%Q)
                    || (Action_eqb action ActSELL
                        && ((s9 >? s20) || (s20 >? s50))%Q)
            then (profitTarget * 0.85)%Q
            else profitTarget
          else profitTarget
      | _, _, _ => profitTarget
      end
  end.

(** [Math.round(x * 100 * 10) / 10]. *)
Definition toPercent (x : Q) : Q :=
  (Js.Math_round (x * 100 * 10) / 10)%Q.

(** The decision phase: from [// Calculate final recommendation] to
    the returned object. *)
Definition finalRecommendation (t : Tally)
  (technicalAnalysis : TechnicalAnalysis) : Recommendation :=
  let '(action, confidence, profitTarget, riskLevel, color) :=
    initialDecision (buyScore t) (sellScore t) in
  let '(action, profitTarget, riskLevel, summary) :=
    if confidence <? 65
    then (ActWAIT, 0%Q, 0%Q,
          entries t ++ [mkSummaryItem neutral Texts.belowThreshold 0])
    else (action, profitTarget, riskLevel, entries t) in
  let realProfitPercentage :=
    if negb (Action_eqb action ActWAIT) && (profitTarget >? 0)%Q then
      let profitTarget :=
        adjustByQuant (quantitative technicalAnalysis) profitTarget in
      let profitTarget :=
        adjustByMA (movingAverages technicalAnalysis) action profitTarget in
      toPercent profitTarget
    else 0%Q in
  {| action := action;
     confidence := confidence;
     profitTarget := realProfitPercentage;
     riskLevel := toPercent riskLevel;
     color := color;
     summary :=
       firstn 10
         (Js.sortBy (fun a b => (impact b <=? impact a)%Q) summary);
     scores_buy := ToFixed1 (buyScore t);
     scores_sell := ToFixed1 (sellScore t) |}.

Definition generateProfessionalRecommendation
  (candleAnalysis : CandleAnalysis) (technicalAnalysis : TechnicalAnalysis)
  : Recommendation :=
  finalRecommendation (scoreSignals candleAnalysis technicalAnalysis)
    technicalAnalysis.

(** ** The pipeline: [performAdvancedAnalysis] *)

(** What reaches [displayProfessionalResults]. *)
Record AnalysisOutput : Type := mkAnalysisOutput {
  out_recommendation : Recommendation;
  out_candleAnalysis : CandleAnalysis;
  out_technicalAnalysis : TechnicalAnalysis;
  out_analysisTime : Q
}.

(** The wall clock: the two values read by [Date.now()]. *)
Record Clock : Type := mkClock {
  startTime : Z;
  endTime : Z
}.

Section Pipeline.

Variable Math_sqrt : Q -> Q.

(** The pipeline from the decoded [imageData] on; an [Error] thrown
    by the extraction stage ends the run. *)
Definition performAdvancedAnalysis (clock : Clock) (imageData : ImageData)
  : Outcome AnalysisOutput :=
  match analyzeProfessionalCandlesticks imageData with
  | Throw message => Throw message
  | Ok candleAnalysis =>
      let technicalAnalysis :=
        performTechnicalAnalysis Math_sqrt (candles candleAnalysis)
          imageData in
      let recommendation :=
        generateProfessionalRecommendation candleAnalysis
          technicalAnalysis in
      Ok {| out_recommendation := recommendation;
            out_candleAnalysis := candleAnalysis;
            out_technicalAnalysis := technicalAnalysis;
            out_analysisTime :=
              ((endTime clock - startTime clock)%Z / 1000)%Q |}
  end.

(** The [Recommendation] of a run, when it produces one. *)
Definition recommendationOf (clock : Clock) (imageData : ImageData)
  : Outcome Recommendation :=
  match performAdvancedAnalysis clock imageData with
  | Ok out => Ok (out_recommendation out)
  | Throw message => Throw message
  end.

End Pipeline.

(** ** Sample inputs *)

Module Samples.

(** The indicator results of a series too short for every module. *)
Definition quietTechnicalAnalysis : TechnicalAnalysis :=
  let sr := analyzeSupportResistance [] 100 in
  let dc := analyzeDonchianChannels [] in
  let ma := analyzeMovingAverages [] in
  let mc := analyzeMACD [] in
  {| supportResistance := sr;
     donchianChannels := dc;
     quantitative := None;
     movingAverages := ma;
     macd := mc;
     combinedSignal := combineTechnicalSignals sr dc None ma mc |}.

Definition withSupportResistance (sr : SR.Result) (ta : TechnicalAnalysis)
  : TechnicalAnalysis :=
  {| supportResistance := sr;
     donchianChannels := donchianChannels ta;
     quantitative := quantitative ta;
     movingAverages := movingAverages ta;
     macd := macd ta;
     combinedSignal := combinedSignal ta |}.

Definition noPatterns : CandleAnalysis :=
  {| candles := []; patterns := []; mainPattern := NoPattern |}.

Definition withPatterns (ps : list Pattern) : CandleAnalysis :=
  {| candles := [];
     patterns := ps;
     mainPattern := match ps with
                    | p :: _ => Detected p
                    | [] => NoPattern
                    end |}.

(** A support signal of full strength: 5.0 on the buy side. *)
Definition fullSupport : SR.Result :=
  {| SR.supports := []; SR.resistances := [];
     SR.signal := BUY; SR.strength := 1; SR.levels := Some [] |}.

(** Two bearish patterns of strength 1: 2.0 + 2.0 on the sell side. *)
Definition twoBearish : list Pattern :=
  [ mkPattern "Bearish Engulfing" SELL 1 "Sellers overpower buyers";
    mkPattern "Evening Star" SELL 1 "Trend change confirmed" ]%string.

(** Buy score 5.0 against sell score 4.0. *)
Definition fiveFour : CandleAnalysis * TechnicalAnalysis :=
  (withPatterns twoBearish,
   withSupportResistance fullSupport quietTechnicalAnalysis).

(** A lone support signal of full strength: 5.0 against 0. *)
Definition fiveZero : CandleAnalysis * TechnicalAnalysis :=
  (noPatterns, withSupportResistance fullSupport quietTechnicalAnalysis).

End Samples.

Module RsiSamples.

(** A candle of which only the close matters. *)
Definition closing (c : Z) : Candle :=
  {| x_end := 0; x_start := 0; isGreen := true; isRed := false;
     high := c; low := c; totalHeight := 1; bodyTop := c; bodyBottom := c;
     open := c; close := c; bodyHeight := 0; upperWick := 0;
     lowerWick := 0; bodyRatio := 0; upperWickRatio := 0;
     lowerWickRatio := 0 |}.

Definition rising : list Candle := map closing [10; 11; 13; 16].
Definition mixed : list Candle := map closing [10; 12; 11; 14].

End RsiSamples.


Module PatternSamples.

(** A candle given by colour, open, close, high and low, with the
    derived lengths and ratios computed as the extraction does. *)
Definition bar (green : bool) (o c h l : Z) : Candle :=
  let total := Z.max 1 (Z.abs (l - h)) in
  {| x_end := 0; x_start := 0; isGreen := green; isRed := negb green;
     high := h; low := l; totalHeight := total;
     bodyTop := Z.min o c; bodyBottom := Z.max o c;
     open := o; close := c; bodyHeight := Z.abs (c - o);
     upperWick := 0; lowerWick := 0;
     bodyRatio := (Z.abs (c - o) / total)%Q;
     upperWickRatio := 0; lowerWickRatio := 0 |}.

(** A bearish bar followed by a bullish bar whose body engulfs it. *)
Definition bearishBar : Candle := bar false 12 10 13 9.
Definition engulfingBar : Candle := bar true 9 13 14 8.
Definition earlierBar : Candle := bar false 14 12 15 11.

End PatternSamples.

Module DonchianSamples.

(** Seventeen quiet bars: close 100 inside the range 90 .. 110. *)
Definition quiet : list Candle :=
  repeat (PatternSamples.bar true 99 100 110 90) 17.

(** A bar that closes at its high of 120, and a bar back at 100. *)
Definition peak : Candle := PatternSamples.bar true 100 120 120 100.
Definition back : Candle := PatternSamples.bar false 101 100 105 95.

(** Three closes at the top of the channel. *)
Definition sustained : list Candle := quiet ++ [peak; peak; peak].

(** One close at the top, then two bars back inside the channel. *)
Definition spike : list Candle := quiet ++ [peak; back; back].

End DonchianSamples.

Module ImageSamples.

Definition black : list Z := [0; 0; 0; 255].
Definition green : list Z := [0; 200; 0; 255].
Definition red : list Z := [200; 0; 0; 255].

(** One candle on columns 1 to 3: a green body on rows 3 to 6 and,
    on the middle column, a single red pixel on row 1. *)
Definition pixel (x y : Z) : list Z :=
  if (1 <=? x) && (x <=? 3) && (3 <=? y) && (y <=? 6) then green
  else if (x =? 2) && (y =? 1) then red
  else black.

(** A 5 x 10 image, row by row. *)
Definition chart : ImageData :=
  {| data :=
       flat_map (fun y => flat_map (fun x => pixel x y) (Js.range 0 4))
         (Js.range 0 9);
     width := 5;
     height := 10 |}.

(** The candle read from [chart]. *)
Definition candle : Candle :=
  {| x_end := 3; x_start := 1; isGreen := true; isRed := false;
     high := 1; low := 6; totalHeight := 5; bodyTop := 3; bodyBottom := 6;
     open := 6; close := 3; bodyHeight := 3; upperWick := 2;
     lowerWick := 0;
     bodyRatio := (3%Z / 5%Z)%Q;
     upperWickRatio := (2%Z / 5%Z)%Q;
     lowerWickRatio := (0%Z / 5%Z)%Q |}.

Definition analysis : CandleAnalysis :=
  {| candles := [candle]; patterns := []; mainPattern := NoPattern |}.

End ImageSamples.

(** ** Specification predicates *)

(** The geometry of a candle measured on a candle column. *)
Record WellMeasured (c : Candle) : Prop := mkWellMeasured {
  wm_high : 0 <= high c;
  wm_top : high c <= bodyTop c;
  wm_body : bodyTop c <= bodyBottom c;
  wm_bottom : bodyBottom c <= low c;
  wm_total : totalHeight c = Z.max 1 (low c - high c);
  wm_bodyHeight : bodyHeight c = bodyBottom c - bodyTop c;
  wm_upperWick : upperWick c = bodyTop c - high c;
  wm_lowerWick : lowerWick c = low c - bodyBottom c;
  wm_bodyRatio : bodyRatio c = (bodyHeight c / totalHeight c)%Q;
  wm_upperRatio :
    upperWickRatio c = (upperWick c / Z.max 1 (totalHeight c))%Q;
  wm_lowerRatio :
    lowerWickRatio c = (lowerWick c / Z.max 1 (totalHeight c))%Q
}.

(** A run of adjacent candle columns. *)
Definition CandleRun (img : ImageData) (c : Run) : Prop :=
  run_x_start c <= run_x_end c
  /\ forall x, run_x_start c <= x <= run_x_end c ->
                isCandleColumn img x = true.

(** What the column loop keeps true of the runs it has pushed: each is
    wide enough and lies between the scanned columns, and each lies
    strictly to the left of the ones pushed before it. *)
Definition PushedRuns (lo top : Z) (acc : list Run) : Prop :=
  Forall (fun c => wideEnough c = true /\ lo < run_x_start c
                   /\ run_x_end c <= top) acc
  /\ StronglySorted (fun a b => run_x_end b < run_x_start a) acc
  /\ (length acc <= config.candles.scanCount)%nat.


(** The two messages of the extraction stage. *)
Definition noCandlesMessage : string :=
  "No candles detected in chart image - ensure image contains clear candlestick chart".

Definition noValidCandlesMessage : string :=
  "No valid candles found after processing".

Module TwoCandleImage.

(** Two candles on a 10 x 10 image: a green one on columns 1 to 3
    (rows 2 to 5) and a red one on columns 6 to 8 (rows 4 to 7). *)
Definition pixel (x y : Z) : list Z :=
  if (1 <=? x) && (x <=? 3) && (2 <=? y) && (y <=? 5)
  then ImageSamples.green
  else if (6 <=? x) && (x <=? 8) && (4 <=? y) && (y <=? 7)
  then ImageSamples.red
  else ImageSamples.black.

Definition chart : ImageData :=
  {| data :=
       flat_map (fun y => flat_map (fun x => pixel x y) (Js.range 0 9))
         (Js.range 0 9);
     width := 10;
     height := 10 |}.

(** The analysis of [chart], evaluated. *)
Definition analysis : CandleAnalysis :=
  Eval vm_compute in
    match analyzeProfessionalCandlesticks chart with
    | Ok ca => ca
    | Throw _ => mkCandleAnalysis [] [] NoPattern
    end.

End TwoCandleImage.

Module StarSamples.

(** A red candle with a small body under a long upper wick. *)
Definition star : Candle :=
  {| x_end := 0; x_start := 0; isGreen := false; isRed := true;
     high := 10; low := 20; totalHeight := 10; bodyTop := 18;
     bodyBottom := 19; open := 18; close := 19; bodyHeight := 1;
     upperWick := 8; lowerWick := 1;
     bodyRatio := 0.1; upperWickRatio := 0.8; lowerWickRatio := 0.1 |}.

Definition series : list Candle :=
  [PatternSamples.earlierBar; PatternSamples.bearishBar; star].

End StarSamples.

Module ThreeCandleImage.

(** Three candles on a 13 x 10 image: a red one on columns 1 to 3, a
    green one on columns 5 to 7 and a green one on columns 9 to 11. *)
Definition pixel (x y : Z) : list Z :=
  if (1 <=? x) && (x <=? 3) && (4 <=? y) && (y <=? 7)
  then ImageSamples.red
  else if (5 <=? x) && (x <=? 7) && (3 <=? y) && (y <=? 6)
  then ImageSamples.green
  else if (9 <=? x) && (x <=? 11) && (1 <=? y) && (y <=? 5)
  then ImageSamples.green
  else ImageSamples.black.

Definition chart : ImageData :=
  {| data :=
       flat_map (fun y => flat_map (fun x => pixel x y) (Js.range 0 12))
         (Js.range 0 9);
     width := 13;
     height := 10 |}.

(** The analysis of [chart], evaluated. *)
Definition analysis : CandleAnalysis :=
  Eval vm_compute in
    match analyzeProfessionalCandlesticks chart with
    | Ok ca => ca
    | Throw _ => mkCandleAnalysis [] [] NoPattern
    end.

(** The result of the whole pipeline on [chart], evaluated, with the
    identity in the place of [Math.sqrt] and a run of 1.5 seconds. *)
Definition clock : Clock := mkClock 0 1500.

Definition output : AnalysisOutput :=
  Eval vm_compute in
    match performAdvancedAnalysis (fun x => x) clock chart with
    | Ok out => out
    | Throw _ =>
        mkAnalysisOutput
          (generateProfessionalRecommendation Samples.noPatterns
             Samples.quietTechnicalAnalysis)
          Samples.noPatterns Samples.quietTechnicalAnalysis 0
    end.

End ThreeCandleImage.

Module MaSamples.

(** Closes rising by one from 100. *)
Definition rising (n : nat) : list Candle :=
  map (fun k => RsiSamples.closing (100 + Z.of_nat k)) (seq 0 n).

End MaSamples.

(** ** Support and resistance: names for the parts of the result *)

(** The validated levels of a series of at least eight candles. *)
Definition srLevels (candles : list Candle) (imageHeight : Z)
  : list SR.Level :=
  validateLevels imageHeight
    (clusterLevels imageHeight (length candles)
       (Js.sortBy (fun a b => SR.y a <=? SR.y b) (collectPoints candles))).

(** The close of the latest candle. *)
Definition latestClose (candles : list Candle) : Z :=
  match nth_error candles (length candles - 1) with
  | Some lastCandle => close lastCandle
  | None => 0
  end.

(** What the clustering loop keeps true of [currentLevel]: it counts
    its touches, and every weight it has added lies between 1 and 3. *)
Definition GoodCluster (cl : SR.Cluster) : Prop :=
  1 <= SR.touches cl
  /\ (SR.touches cl <= SR.weightedSum cl)%Q
  /\ (SR.weightedSum cl <= 3 * SR.touches cl)%Q.

(** A level that was pushed: enough touches and a positive strength,
    at most 1.5. *)
Definition GoodLevel (l : SR.Level) : Prop :=
  2 <= SR.level_touches l
  /\ (0 < SR.level_strength l <= 1.5)%Q.

Module SrSamples.

(** Four candles between rows 50 and 60, then eight between rows 10
    and 20, the latest closing on row 15. *)
Definition series : list Candle :=
  repeat (PatternSamples.bar true 55 55 50 60) 4
  ++ repeat (PatternSamples.bar true 15 15 10 20) 8.

End SrSamples.

(** ** Signal fusion: the inputs the earlier stages produce *)

(** Every strength handed to the fusion stage is non-negative. *)
Definition NonNegativeStrengths (candleAnalysis : CandleAnalysis)
  (technicalAnalysis : TechnicalAnalysis) : Prop :=
  (forall p, In p (patterns candleAnalysis) -> (0 <= strength p)%Q)
  /\ (0 <= SR.strength (supportResistance technicalAnalysis))%Q
  /\ (0 <= Donchian.strength (donchianChannels technicalAnalysis))%Q
  /\ (0 <= MA.strength (movingAverages technicalAnalysis))%Q
  /\ (0 <= MACD.strength (macd technicalAnalysis))%Q
  /\ (forall q, quantitative technicalAnalysis = Some q ->
                (0 <= Quant.strength q)%Q).

(** Every signal handed to the fusion stage is HOLD. *)
Definition AllHold (candleAnalysis : CandleAnalysis)
  (technicalAnalysis : TechnicalAnalysis) : Prop :=
  (forall p, In p (patterns candleAnalysis) -> signal p = HOLD)
  /\ SR.signal (supportResistance technicalAnalysis) = HOLD
  /\ Donchian.signal (donchianChannels technicalAnalysis) = HOLD
  /\ MA.signal (movingAverages technicalAnalysis) = HOLD
  /\ MACD.signal (macd technicalAnalysis) = HOLD
  /\ (forall q, quantitative technicalAnalysis = Some q ->
                Quant.signal q = HOLD).


(** ** Image loading: [loadImageData], the size of the pixel buffer *)

Definition maxWidth : Z := 1400.
Definition maxHeight : Z := 900.

(** [width] and [height] after the scaling block of [img.onload], for
    an image of [width] by [height] pixels. *)
Definition scaledSize (width height : Z) : Q * Q :=
  if ((width >? maxWidth) || (height >? maxHeight))%Z then
    let ratio := Qmin (maxWidth / width) (maxHeight / height) in
    ((width * ratio)%Q, (height * ratio)%Q)
  else (inject_Z width, inject_Z height).

(** The size of the [ImageData] that is read back: [canvas.width =
    width] and [getImageData(0, 0, width, height)] take the integer
    part of their arguments. *)
Definition loadedSize (width height : Z) : Z * Z :=
  let '(w, h) := scaledSize width height in (Qfloor w, Qfloor h).

(** ** Accepting an upload: [analyzeImage] (js/script.js) *)

Module Upload.
Local Open Scope string_scope.

Record File : Type := mkFile {
  file_name : string;
  file_type : string;
  file_size : Z
}.

(** How a call ends: one of the three early returns, or the start of
    [performAdvancedAnalysis]. *)
Inductive Result : Type := Blocked | Unsupported | TooLarge | Started.

Definition allowedTypes : list string :=
  ["image/jpeg"; "image/jpg"; "image/png"; "image/webp"; "image/bmp"].

(** [analyzeImage(file)] on the global [analysisInProgress]: the way
    the call ends and the value of the global afterwards.  [None] is a
    missing file. *)
Definition analyzeImage (analysisInProgress : bool) (file : option File)
  : Result * bool :=
  match file with
  | None => (Blocked, analysisInProgress)
  | Some f =>
      if analysisInProgress then (Blocked, analysisInProgress)
      else if negb (existsb (String.eqb (file_type f)) allowedTypes)
      then (Unsupported, analysisInProgress)
      else if (file_size f >? 10 * 1024 * 1024)%Z
      then (TooLarge, analysisInProgress)
      else (Started, true)
  end.

Definition png (size : Z) : File := mkFile "chart.png" "image/png" size.
Definition gif (size : Z) : File := mkFile "chart.gif" "image/gif" size.

End Upload.

(** * Revision v6.0 of the engine (js/analysis.js, from line 1756)

    The functions of the earlier revision that are defined there in
    full: the false-breakout test, the simulated timeframes, the
    directional indicators and the result database. *)

Module V6.

(** The fields of a candle that these functions read. *)
Record Candle : Type := mkCandle {
  open : Q;
  close : Q;
  high : Q;
  low : Q
}.

Inductive LevelType : Type := resistance | support.

Record Level : Type := mkLevel {
  level : Q;
  touches : Z;
  strength : Q;
  type : LevelType
}.

Record Breakout : Type := mkBreakout {
  breakout_signal : Signal;
  breakout_strength : Q;
  breakout_type : string;
  breakout_description : string
}.

(** ** [detectFalseBreakouts] *)

(** An absent level ([undefined]) is [None]. *)
Definition detectFalseBreakouts (candles : list Candle)
  (nearestSupport nearestResistance : option Level) : option Breakout :=
  if (length candles <? 10)%nat then None
  else
    match nth_error candles (length candles - 1),
          nth_error candles (length candles - 2) with
    | Some lastCandle, Some prevCandle =>
        if match nearestResistance with
           | Some r =>
               ((close prevCandle <? level r)
                && (close lastCandle >? level r)
                && (close lastCandle <? close prevCandle))%Q
           | None => false
           end
        then Some (mkBreakout SELL 0.8 "False Resistance Breakout"
                     "Price broke resistance but quickly retreated")
        else if match nearestSupport with
                | Some s =>
                    ((close prevCandle >? level s)
                     && (close lastCandle <? level s)
                     && (close lastCandle >? close prevCandle))%Q
                | None => false
                end
        then Some (mkBreakout BUY 0.8 "False Support Breakout"
                     "Price broke support but quickly retreated")
        else None
    | _, _ => None
    end.

(** ** [simulateTimeframeData], [extractKeyLevels] and
       [performMultiTimeframeAnalysis] *)

(** [Math.max(...xs)] and [Math.min(...xs)] of a list that is not
    empty. *)
Definition Math_max (xs : list Q) : Q :=
  match xs with
  | [] => 0%Q
  | x :: rest => fold_left Qmax rest x
  end.

Definition Math_min (xs : list Q) : Q :=
  match xs with
  | [] => 0%Q
  | x :: rest => fold_left Qmin rest x
  end.

(** The candle that stands for a group of [timeframeMultiplier]
    candles. *)
Definition merge (first : Candle) (group : list Candle) : Candle :=
  {| open := open first;
     close := close (last group first);
     high := Math_max (map high group);
     low := Math_min (map low group) |}.

(** The loop [for (i = 0; i < candles.length; i += timeframeMultiplier)]
    from [i] on; it runs at most [candles.length] times. *)
Fixpoint simulateFrom (fuel : nat) (candles : list Candle)
  (timeframeMultiplier : positive) (i : nat) (simulated : list Candle)
  : list Candle :=
  match fuel with
  | O => simulated
  | S fuel =>
      if (i <? length candles)%nat then
        let simulated :=
          if (i + Pos.to_nat timeframeMultiplier <=? length candles)%nat
          then
            let group :=
              firstn (Pos.to_nat timeframeMultiplier) (skipn i candles) in
            match group with
            | first :: _ => simulated ++ [merge first group]
            | [] => simulated
            end
          else simulated in
        simulateFrom fuel candles timeframeMultiplier
          (i + Pos.to_nat timeframeMultiplier) simulated
      else simulated
  end.

Definition simulateTimeframeData (candles : list Candle)
  (timeframeMultiplier : positive) : list Candle :=
  simulateFrom (length candles) candles timeframeMultiplier 0 [].

(** The levels pushed for [candles[i]] between its two neighbours. *)
Definition swingLevels (weight : Q) (prev cur next : Candle) : list Level :=
  (if ((high cur >? high prev) && (high cur >? high next))%Q
   then [mkLevel (high cur) 1 weight resistance] else [])
  ++ (if ((low cur <? low prev) && (low cur <? low next))%Q
      then [mkLevel (low cur) 1 weight support] else []).

Definition extractKeyLevels (candles : list Candle) (imageHeight : Z)
  (weight : Q) : list Level :=
  if (length candles <? 3)%nat then []
  else
    flat_map
      (fun i =>
         match nth_error candles (i - 1), nth_error candles i,
               nth_error candles (i + 1) with
         | Some prev, Some cur, Some next => swingLevels weight prev cur next
         | _, _, _ => []
         end)
      (seq 1 (length candles - 2)).

(** The [levels] of the result. *)
Definition performMultiTimeframeAnalysis (candles : list Candle)
  (imageHeight : Z) : list Level :=
  let simulatedM5Candles := simulateTimeframeData candles 5 in
  let simulatedM15Candles := simulateTimeframeData candles 15 in
  let m5Levels := extractKeyLevels simulatedM5Candles imageHeight 0.7 in
  let m15Levels := extractKeyLevels simulatedM15Candles imageHeight 0.9 in
  m5Levels ++ m15Levels.

(** ** [calculateDI] and [calculateADX] *)

(** The first loop of [calculateDI]: for every candle after the first,
    [plusDM], [minusDM] and the true range. *)
Fixpoint movements (prevC : Candle) (rest : list Candle)
  : list (Q * Q * Q) :=
  match rest with
  | [] => []
  | c :: rest =>
      let upMove := (high c - high prevC)%Q in
      let downMove := (low prevC - low c)%Q in
      let plus :=
        if ((upMove >? downMove) && (upMove >? 0))%Q then upMove else 0%Q in
      let minus :=
        if ((downMove >? upMove) && (downMove >? 0))%Q
        then downMove else 0%Q in
      let tr1 := (high c - low c)%Q in
      let tr2 := Qabs (high c - close prevC) in
      let tr3 := Qabs (low c - close prevC) in
      (plus, minus, Qmax (Qmax tr1 tr2) tr3) :: movements c rest
  end.

Record Smoothed : Type := mkSmoothed {
  smoothPlusDM : Q;
  smoothMinusDM : Q;
  smoothTR : Q;
  plusDI : list Q;
  minusDI : list Q
}.

(** One round of the second loop of [calculateDI]. *)
Definition smoothStep (period : positive) (plusDM minusDM tr : list Q)
  (st : Smoothed) (i : nat) : Smoothed :=
  let p := inject_Z (Zpos period) in
  let '(sPlus, sMinus, sTR) :=
    if (Pos.to_nat period <=? i)%nat then
      (((smoothPlusDM st - smoothPlusDM st / p) + nth i plusDM 0)%Q,
       ((smoothMinusDM st - smoothMinusDM st / p) + nth i minusDM 0)%Q,
       ((smoothTR st - smoothTR st / p) + nth i tr 0)%Q)
    else (smoothPlusDM st, smoothMinusDM st, smoothTR st) in
  let plus :=
    if negb (Qeq_bool sTR 0) then (sPlus / sTR * 100)%Q else 0%Q in
  let minus :=
    if negb (Qeq_bool sTR 0) then (sMinus / sTR * 100)%Q else 0%Q in
  {| smoothPlusDM := sPlus;
     smoothMinusDM := sMinus;
     smoothTR := sTR;
     plusDI := plusDI st ++ [plus];
     minusDI := minusDI st ++ [minus] |}.

(** The pair [(plusDI, minusDI)], or [None] for [null]. *)
Definition calculateDI (candles : list Candle) (period : positive)
  : option (list Q * list Q) :=
  if (length candles <? Pos.to_nat period + 1)%nat then None
  else
    match candles with
    | [] => None
    | first :: rest =>
        let moves := movements first rest in
        let plusDM := map (fun m => fst (fst m)) moves in
        let minusDM := map (fun m => snd (fst m)) moves in
        let tr := map snd moves in
        let start :=
          {| smoothPlusDM := sumQ (firstn (Pos.to_nat period) plusDM);
             smoothMinusDM := sumQ (firstn (Pos.to_nat period) minusDM);
             smoothTR := sumQ (firstn (Pos.to_nat period) tr);
             plusDI := [];
             minusDI := [] |} in
        let final :=
          fold_left (smoothStep period plusDM minusDM tr)
            (seq (Pos.to_nat period - 1)
               (length plusDM - (Pos.to_nat period - 1)))
            start in
        Some (plusDI final, minusDI final)
    end.

Record Adx : Type := mkAdx {
  value : option Q;
  values : list Q
}.

(** [dx] of one pair of directional indicators. *)
Definition dxOf (pm : Q * Q) : Q :=
  let diff := Qabs (fst pm - snd pm) in
  let sum := (fst pm + snd pm)%Q in
  if negb (Qeq_bool sum 0) then (diff / sum * 100)%Q else 0%Q.

(** [value] is [None] when [adxValues] is empty and its last element
    is [undefined]. *)
Definition calculateADX (candles : list Candle) (period : positive)
  : option Adx :=
  if (length candles <? Pos.to_nat period + 14)%nat then None
  else
    match calculateDI candles period with
    | None => None
    | Some (plusDI, minusDI) =>
        let dxValues := map dxOf (combine plusDI minusDI) in
        let adxValues :=
          map (fun i =>
                 let slice :=
                   firstn (Pos.to_nat period)
                     (skipn (i + 1 - Pos.to_nat period) dxValues) in
                 (sumQ slice / inject_Z (Zpos period))%Q)
              (seq (Pos.to_nat period - 1)
                 (length dxValues - (Pos.to_nat period - 1))) in
        Some {| value := nth_error adxValues (length adxValues - 1);
                values := adxValues |}
    end.

(** ** The result database: [AnalysisDatabase] *)

Record Stats : Type := mkStats {
  occurrences : Z;
  correct : Z;
  accuracy : Q
}.

(** What [saveResult] reads of an analysis result: the confidence and
    the action of its recommendation, and the candlestick patterns. *)
Record AnalysisResult : Type := mkAnalysisResult {
  result_confidence : Q;
  result_action : Action;
  result_patterns : list Pattern
}.

(** A saved result; its time stamp text is left out. *)
Record SavedResult : Type := mkSavedResult {
  id : Z;
  saved_patterns : list Pattern;
  saved_confidence : Q;
  saved_action : Action
}.

(** The two fields of the database; [patternAccuracy] is a [Map], kept
    in the order of insertion. *)
Record AnalysisDatabase : Type := mkAnalysisDatabase {
  results : list SavedResult;
  patternAccuracy : list (string * Stats)
}.

(** The database of the constructor on an empty store, and of
    [clear()]. *)
Definition clear : AnalysisDatabase := mkAnalysisDatabase [] [].

(** [Map.get] and [Map.set]. *)
Fixpoint mapGet (key : string) (m : list (string * Stats)) : option Stats :=
  match m with
  | [] => None
  | (k, v) :: rest => if String.eqb key k then Some v else mapGet key rest
  end.

Fixpoint mapSet (key : string) (value : Stats) (m : list (string * Stats))
  : list (string * Stats) :=
  match m with
  | [] => [(key, value)]
  | (k, v) :: rest =>
      if String.eqb key k then (key, value) :: rest
      else (k, v) :: mapSet key value rest
  end.

(** The body of [patterns.forEach] in [updatePatternAccuracy]. *)
Definition updatePattern (confidence : Q) (m : list (string * Stats))
  (pattern : Pattern) : list (string * Stats) :=
  let m :=
    match mapGet (name pattern) m with
    | None => mapSet (name pattern) (mkStats 0 0 0.5) m
    | Some _ => m
    end in
  match mapGet (name pattern) m with
  | Some stats =>
      let occurrences := occurrences stats + 1 in
      let correct :=
        if (confidence >? 70)%Q then correct stats + 1 else correct stats in
      mapSet (name pattern)
        (mkStats occurrences correct
           (inject_Z correct / inject_Z occurrences))
        m
  | None => m
  end.

Definition updatePatternAccuracy (db : AnalysisDatabase)
  (analysisResult : AnalysisResult) : list (string * Stats) :=
  fold_left (updatePattern (result_confidence analysisResult))
    (result_patterns analysisResult) (patternAccuracy db).

(** What is pushed on [results]; [now] is the value of [Date.now()]. *)
Definition savedOf (now : Z) (analysisResult : AnalysisResult)
  : SavedResult :=
  {| id := now;
     saved_patterns := result_patterns analysisResult;
     saved_confidence := result_confidence analysisResult;
     saved_action := result_action analysisResult |}.

(** [saveResult]: the database afterwards and the returned id.  The
    copy that [saveToLocalStorage] writes leaves the database as it is. *)
Definition saveResult (db : AnalysisDatabase) (now : Z)
  (analysisResult : AnalysisResult) : AnalysisDatabase * Z :=
  let result := savedOf now analysisResult in
  let results := results db ++ [result] in
  let results :=
    if (1000 <? length results)%nat then tl results else results in
  ({| results := results;
      patternAccuracy := updatePatternAccuracy db analysisResult |},
   id result).

Definition getPatternAccuracy (db : AnalysisDatabase) (patternName : string)
  : Stats :=
  match mapGet patternName (patternAccuracy db) with
  | Some stats => stats
  | None => mkStats 0 0 0.5
  end.

(** [accuracyStats.accuracy || 0.5], the weight of a pattern in the
    scoring of this revision. *)
Definition accuracyWeight (db : AnalysisDatabase) (patternName : string)
  : Q :=
  let a := accuracy (getPatternAccuracy db patternName) in
  if Qeq_bool a 0 then 0.5%Q else a.

(** The database after the analyses [saves], each with its time, have
    been saved one after the other, starting from the empty one. *)
Definition afterSaving (saves : list (Z * AnalysisResult))
  : AnalysisDatabase :=
  fold_left (fun db s => fst (saveResult db (fst s) (snd s))) saves clear.

(** How often [patternName] occurs in the patterns of an analysis. *)
Definition occursIn (patternName : string) (analysisResult : AnalysisResult)
  : Z :=
  Z.of_nat
    (length (filter (fun p => String.eqb (name p) patternName)
               (result_patterns analysisResult))).

(** How often [patternName] was saved, and how often with a confidence
    above 70. *)
Definition timesSaved (patternName : string)
  (saves : list (Z * AnalysisResult)) : Z :=
  fold_right (fun s n => occursIn patternName (snd s) + n) 0 saves.

Definition timesConfident (patternName : string)
  (saves : list (Z * AnalysisResult)) : Z :=
  fold_right
    (fun s n =>
       (if (result_confidence (snd s) >? 70)%Q
        then occursIn patternName (snd s) else 0) + n)
    0 saves.

(** The group of candles behind the [k]-th simulated candle. *)
Definition groupAt (candles : list Candle) (timeframeMultiplier : positive)
  (k : nat) : list Candle :=
  firstn (Pos.to_nat timeframeMultiplier)
    (skipn (k * Pos.to_nat timeframeMultiplier) candles).

(** A series that rises by one with every candle. *)
Definition rising (n : nat) : list Candle :=
  map (fun k => let q := inject_Z (Z.of_nat k) in
                mkCandle q (q + 1) (q + 2) (q - 1))%Q
      (seq 0 n).

(** A series that climbs for twelve candles and starts again. *)
Definition zigzag (n : nat) : list Candle :=
  map (fun k => let q := inject_Z (Z.of_nat (k mod 12)) in
                mkCandle q (q + 1) (q + 2) (q - 1))%Q
      (seq 0 n).

End V6.

(** What [simulateTimeframeData] pushes for the [k]-th group. *)
Definition simulatedAt (candles : list V6.Candle)
  (timeframeMultiplier : positive) (k : nat) : list V6.Candle :=
  match V6.groupAt candles timeframeMultiplier k with
  | first :: _ =>
      [V6.merge first (V6.groupAt candles timeframeMultiplier k)]
  | [] => []
  end.

(** What the smoothing loop of [calculateDI] keeps true: nothing is
    negative, and the two lists grow together. *)
Definition GoodSmoothed (count : nat) (st : V6.Smoothed) : Prop :=
  (0 <= V6.smoothPlusDM st)%Q /\ (0 <= V6.smoothMinusDM st)%Q
  /\ (0 <= V6.smoothTR st)%Q
  /\ Forall (fun v => (0 <= v)%Q) (V6.plusDI st)
  /\ Forall (fun v => (0 <= v)%Q) (V6.minusDI st)
  /\ length (V6.plusDI st) = count
  /\ length (V6.minusDI st) = count.

(** What [patternAccuracy] holds for a pattern that was saved [n] times,
    [c] times of them with a confidence above 70. *)
Definition Tracked (m : list (string * V6.Stats)) (patternName : string)
  (n c : Z) : Prop :=
  match V6.mapGet patternName m with
  | None => n = 0 /\ c = 0
  | Some stats =>
      stats = V6.mkStats n c (inject_Z c / inject_Z n)
      /\ 1 <= n /\ 0 <= c <= n
  end.
(** * Properties *)

(** ** Comparisons and rounding *)

(** Linear arithmetic over [Q] after turning divisions by a constant
    into multiplications. *)
Ltac qlin :=
  unfold Qdiv in *;
  repeat match goal with
    | |- context [Qinv (Qmake ?n ?d)] =>
        let v := eval cbv in (Qinv (Qmake n d)) in
        change (Qinv (Qmake n d)) with v
    | H : context [Qinv (Qmake ?n ?d)] |- _ =>
        let v := eval cbv in (Qinv (Qmake n d)) in
        change (Qinv (Qmake n d)) with v in H
    end;
  lra.

Lemma ltb_lt (x y : Q) : (x <? y)%Q = true <-> (x < y)%Q.
Proof.
  unfold Js.ltb. rewrite negb_true_iff.
  split; intro H.
  - apply Qnot_le_lt. intro Hle. apply Qle_bool_iff in Hle. congruence.
  - destruct (Qle_bool y x) eqn:E; [|reflexivity].
    apply Qle_bool_iff in E. exfalso. apply (Qlt_not_le _ _ H E).
Qed.

Lemma ltb_ge (x y : Q) : (x <? y)%Q = false <-> (y <= x)%Q.
Proof.
  unfold Js.ltb. rewrite negb_false_iff. apply Qle_bool_iff.
Qed.

Lemma gtb_lt (x y : Q) : (x >? y)%Q = true <-> (y < x)%Q.
Proof. unfold Js.gtb. apply ltb_lt. Qed.

Lemma gtb_le (x y : Q) : (x >? y)%Q = false <-> (x <= y)%Q.
Proof. unfold Js.gtb. apply ltb_ge. Qed.

#[export] Instance ltb_compat : Proper (Qeq ==> Qeq ==> eq) Js.ltb.
Proof.
  intros a b Hab c d Hcd.
  destruct (Js.ltb b d) eqn:E.
  - apply ltb_lt. apply ltb_lt in E. now rewrite Hab, Hcd.
  - apply ltb_ge. apply ltb_ge in E. now rewrite Hab, Hcd.
Qed.

#[export] Instance Qeq_bool_compat : Proper (Qeq ==> Qeq ==> eq) Qeq_bool.
Proof.
  intros a b Hab c d Hcd.
  destruct (Qeq_bool b d) eqn:E.
  - apply Qeq_bool_iff. apply Qeq_bool_iff in E. now rewrite Hab, Hcd.
  - destruct (Qeq_bool a c) eqn:E'; [|reflexivity].
    apply Qeq_bool_iff in E'. rewrite Hab, Hcd in E'.
    apply Qeq_bool_iff in E'. congruence.
Qed.

Lemma toPercent_zero : (toPercent 0 == 0)%Q.
Proof. reflexivity. Qed.

(** ** The decision phase *)

(** The first decision is WAIT exactly on the no-clear-signal branch,
    which fixes confidence 40 and zero targets. *)
Lemma initialDecision_wait (b s : Q) (c : Z) (p r : Q) (col : string) :
  initialDecision b s = (ActWAIT, c, p, r, col) ->
  c = 40 /\ p = 0%Q /\ r = 0%Q.
Proof.
  unfold initialDecision.
  destruct (Qeq_bool (b + s) 0 || (Qabs (b - s) <? 1.5)%Q).
  - intros [= <- <- <- <-]. repeat split.
  - destruct (tierOf _) as [pt rl].
    destruct (b >? s)%Q; discriminate.
Qed.

(** C1.  For every pattern list and every set of indicator results, a
    computed confidence below 65 makes the returned action WAIT;
    equivalently, a returned BUY or SELL carries confidence at least 65. *)
Theorem confidence_threshold_forces_wait
  (candleAnalysis : CandleAnalysis) (technicalAnalysis : TechnicalAnalysis) :
  let r := generateProfessionalRecommendation candleAnalysis
             technicalAnalysis in
  (confidence r < 65 -> action r = ActWAIT)
  /\ (action r = ActBUY \/ action r = ActSELL -> 65 <= confidence r).
Proof.
  unfold generateProfessionalRecommendation, finalRecommendation.
  destruct (initialDecision _ _) as [[[[a c] p] rk] col].
  destruct (c <? 65) eqn:E; cbn [action confidence].
  - apply Z.ltb_lt in E. split; [reflexivity|].
    intros [H | H]; discriminate.
  - apply Z.ltb_ge in E. split; [lia | intros _; exact E].
Qed.

(** C10.  Whenever the returned action is WAIT, whichever branch
    produced it, the returned profitTarget and riskLevel are both 0. *)
Theorem wait_has_zero_targets
  (candleAnalysis : CandleAnalysis) (technicalAnalysis : TechnicalAnalysis) :
  action (generateProfessionalRecommendation candleAnalysis
            technicalAnalysis) = ActWAIT ->
  (profitTarget (generateProfessionalRecommendation candleAnalysis
                   technicalAnalysis) == 0
   /\ riskLevel (generateProfessionalRecommendation candleAnalysis
                   technicalAnalysis) == 0)%Q.
Proof.
  unfold generateProfessionalRecommendation, finalRecommendation.
  destruct (initialDecision _ _) as [[[[a c] p] rk] col] eqn:D.
  destruct (c <? 65) eqn:E; cbn [action profitTarget riskLevel].
  - intros _. cbn. split; reflexivity.
  - intros ->. apply initialDecision_wait in D. destruct D as (-> & -> & ->).
    discriminate.
Qed.

Lemma wait_has_zero_targets_witness :
  action (generateProfessionalRecommendation Samples.noPatterns
            Samples.quietTechnicalAnalysis) = ActWAIT
  /\ (profitTarget (generateProfessionalRecommendation Samples.noPatterns
                      Samples.quietTechnicalAnalysis) == 0
      /\ riskLevel (generateProfessionalRecommendation Samples.noPatterns
                      Samples.quietTechnicalAnalysis) == 0)%Q.
Proof.
  split.
  - reflexivity.
  - apply (wait_has_zero_targets Samples.noPatterns
             Samples.quietTechnicalAnalysis).
    reflexivity.
Defined.

(** A score separation below 1.5 takes the no-clear-signal branch. *)
Lemma initialDecision_narrow (b s : Q) :
  (Qabs (b - s) < 1.5)%Q ->
  initialDecision b s = (ActWAIT, 40, 0%Q, 0%Q, "var(--text-muted)"%string).
Proof.
  intro H. unfold initialDecision.
  apply ltb_lt in H. rewrite H. rewrite orb_true_r. reflexivity.
Qed.

(** With buy score 5.0 and sell score 4.0 the returned confidence is not
    the value 56 of the formula [round(50 + 1/9 * 50)]. *)
Lemma five_four_confidence_is_not_56 :
  let t := scoreSignals (fst Samples.fiveFour) (snd Samples.fiveFour) in
  let r := generateProfessionalRecommendation (fst Samples.fiveFour)
             (snd Samples.fiveFour) in
  (buyScore t == 5)%Q /\ (sellScore t == 4)%Q
  /\ Js.Math_round (50 + 1 / 9 * 50)%Q = 56
  /\ confidence r <> 56.
Proof.
  repeat split; try reflexivity.
  vm_compute. discriminate.
Qed.

(** C2, as the code has it.  With buy score 5.0 and sell score 4.0 the
    separation 1.0 is below the minimum separation 1.5, so the generator
    answers WAIT with the fixed confidence 40 and zero targets; the
    confidence formula is not evaluated. *)
Theorem five_four_waits_at_confidence_40
  (candleAnalysis : CandleAnalysis) (technicalAnalysis : TechnicalAnalysis) :
  (buyScore (scoreSignals candleAnalysis technicalAnalysis) == 5)%Q ->
  (sellScore (scoreSignals candleAnalysis technicalAnalysis) == 4)%Q ->
  let r := generateProfessionalRecommendation candleAnalysis
             technicalAnalysis in
  action r = ActWAIT /\ confidence r = 40
  /\ (profitTarget r == 0)%Q /\ (riskLevel r == 0)%Q.
Proof.
  intros Hb Hs.
  unfold generateProfessionalRecommendation, finalRecommendation.
  rewrite initialDecision_narrow.
  - cbn. repeat split; reflexivity.
  - rewrite Hb, Hs. reflexivity.
Qed.

Lemma five_four_waits_at_confidence_40_witness :
  let r := generateProfessionalRecommendation (fst Samples.fiveFour)
             (snd Samples.fiveFour) in
  action r = ActWAIT /\ confidence r = 40
  /\ (profitTarget r == 0)%Q /\ (riskLevel r == 0)%Q.
Proof.
  apply (five_four_waits_at_confidence_40 (fst Samples.fiveFour)
           (snd Samples.fiveFour)); reflexivity.
Defined.

(** A one-sided score passes the threshold: 5.0 against 0 gives BUY at
    confidence 95. *)
Example five_zero_buys :
  let r := generateProfessionalRecommendation (fst Samples.fiveZero)
             (snd Samples.fiveZero) in
  action r = ActBUY /\ confidence r = 95.
Proof. split; reflexivity. Qed.

(** ** RSI *)

(** C8.  [calculateRSI] returns exactly 50 when there are fewer candles
    than the period, and exactly 100 when, with more candles than the
    period, the average loss over the lookback window is 0. *)
Theorem calculateRSI_short_and_lossless
  (candles : list Candle) (period : positive) :
  ((length candles < Pos.to_nat period)%nat ->
   calculateRSI candles period = 50%Q)
  /\ ((Pos.to_nat period < length candles)%nat ->
      (snd (gainsLosses candles period) / Z.pos period == 0)%Q ->
      calculateRSI candles period = 100%Q).
Proof.
  unfold calculateRSI. split.
  - intro H.
    destruct (length candles <=? Pos.to_nat period)%nat eqn:E;
      [reflexivity|].
    apply Nat.leb_gt in E. lia.
  - intros H Hloss.
    destruct (length candles <=? Pos.to_nat period)%nat eqn:E.
    + apply Nat.leb_le in E. lia.
    + destruct (gainsLosses candles period) as [gains losses].
      cbn [snd] in Hloss. apply Qeq_bool_iff in Hloss.
      rewrite Hloss. reflexivity.
Qed.

Lemma calculateRSI_short_and_lossless_witness :
  calculateRSI RsiSamples.rising 14 = 50%Q
  /\ calculateRSI RsiSamples.rising 3 = 100%Q.
Proof.
  split.
  - apply (calculateRSI_short_and_lossless RsiSamples.rising 14).
    vm_compute. lia.
  - apply (calculateRSI_short_and_lossless RsiSamples.rising 3).
    + vm_compute. lia.
    + reflexivity.
Defined.

(** With as many candles as the period the answer is still 50, and a
    window with losses gives a value strictly between 0 and 100. *)
Example calculateRSI_samples :
  calculateRSI RsiSamples.rising 4 = 50%Q
  /\ (calculateRSI RsiSamples.mixed 3 == 250 / 3)%Q.
Proof. split; reflexivity. Qed.

(** ** Pattern detection *)

Lemma In_insertBy {A : Type} (le : A -> A -> bool) (a x : A) (l : list A) :
  In a (Js.insertBy le x l) <-> a = x \/ In a l.
Proof.
  induction l as [|y ys IH]; cbn.
  - intuition congruence.
  - destruct (le x y); cbn; rewrite ?IH; intuition congruence.
Qed.

Lemma In_sortBy {A : Type} (le : A -> A -> bool) (a : A) (l : list A) :
  In a (Js.sortBy le l) <-> In a l.
Proof.
  unfold Js.sortBy. induction l as [|y ys IH]; cbn.
  - reflexivity.
  - rewrite In_insertBy, IH. intuition congruence.
Qed.

Lemma length_sortBy {A : Type} (le : A -> A -> bool) (l : list A) :
  length (Js.sortBy le l) = length l.
Proof.
  unfold Js.sortBy. induction l as [|y ys IH]; cbn; [reflexivity|].
  rewrite <- IH. generalize (fold_right (Js.insertBy le) [] ys).
  intro s. induction s as [|z zs IHs]; cbn; [reflexivity|].
  destruct (le y z); cbn; [reflexivity|]. now rewrite IHs.
Qed.

(** The guard at the head of the detector. *)
Lemma detect_needs_three (candles : list Candle) :
  (length candles < 3)%nat -> detectAllCandlestickPatterns candles = [].
Proof.
  intro H. unfold detectAllCandlestickPatterns.
  apply Nat.ltb_lt in H. now rewrite H.
Qed.

(** The three most recent candles of a series that ends with them. *)
Lemma detect_recent (older : list Candle) (c2 c1 c0 : Candle) :
  detectAllCandlestickPatterns (older ++ [c2; c1; c0]) =
  Js.sortBy byStrengthDesc
    (singleCandlePatterns (Some c0)
     ++ twoCandlePatterns (Some c0) (Some c1)
     ++ threeCandlePatterns (Some c0) (Some c1) (Some c2)
     ++ gapPatterns (Some c0) (Some c1)).
Proof.
  unfold detectAllCandlestickPatterns.
  set (n := length older).
  assert (Hlen : length (older ++ [c2; c1; c0]) = (n + 3)%nat)
    by (rewrite length_app; reflexivity).
  rewrite Hlen.
  replace (n + 3 <? 3)%nat with false by (symmetry; apply Nat.ltb_ge; lia).
  replace (2 <=? n + 3)%nat with true by (symmetry; apply Nat.leb_le; lia).
  replace (3 <=? n + 3)%nat with true by (symmetry; apply Nat.leb_le; lia).
  assert (H0 : nth_error (older ++ [c2; c1; c0]) (n + 3 - 1) = Some c0).
  { rewrite nth_error_app2 by (fold n; lia). fold n.
    replace (n + 3 - 1 - n)%nat with 2%nat by lia. reflexivity. }
  assert (H1 : nth_error (older ++ [c2; c1; c0]) (n + 3 - 2) = Some c1).
  { rewrite nth_error_app2 by (fold n; lia). fold n.
    replace (n + 3 - 2 - n)%nat with 1%nat by lia. reflexivity. }
  assert (H2 : nth_error (older ++ [c2; c1; c0]) (n + 3 - 3) = Some c2).
  { rewrite nth_error_app2 by (fold n; lia). fold n.
    replace (n + 3 - 3 - n)%nat with 0%nat by lia. reflexivity. }
  rewrite H0, H1, H2. reflexivity.
Qed.

(** Two candles that satisfy the engulfing predicate, and nothing
    before them: the detector reports no pattern at all. *)
Lemma engulfing_pair_alone_is_not_reported :
  let c1 := PatternSamples.bearishBar in
  let c0 := PatternSamples.engulfingBar in
  isGreen c0 = true /\ isRed c1 = true
  /\ close c0 > open c1 /\ open c0 < close c1
  /\ bodyHeight c0 > bodyHeight c1
  /\ ~ (exists p, In p (detectAllCandlestickPatterns [c1; c0])
                  /\ name p = "Bullish Engulfing"%string /\ signal p = BUY).
Proof.
  cbn zeta. repeat split; try reflexivity.
  intros (p & Hin & _). rewrite detect_needs_three in Hin by (cbn; lia).
  destruct Hin.
Qed.

(** C5, as the code has it.  In a series of at least three candles
    whose latest candle is bullish, whose previous candle is bearish,
    with [close[N] > open[N-1]], [open[N] < close[N-1]] and
    [bodyHeight[N] > bodyHeight[N-1]], the detector reports
    'Bullish Engulfing' with signal BUY. *)
Theorem bullish_engulfing_reported
  (older : list Candle) (c2 c1 c0 : Candle) :
  isGreen c0 = true -> isRed c1 = true ->
  close c0 > open c1 -> open c0 < close c1 ->
  bodyHeight c0 > bodyHeight c1 ->
  exists p, In p (detectAllCandlestickPatterns (older ++ [c2; c1; c0]))
            /\ name p = "Bullish Engulfing"%string /\ signal p = BUY.
Proof.
  intros Hg Hr Hco Hoc Hb.
  exists Patterns.BullishEngulfing. split; [|split; reflexivity].
  rewrite detect_recent. apply In_sortBy.
  apply in_or_app. right. apply in_or_app. left.
  cbn [twoCandlePatterns]. apply in_or_app. left.
  rewrite Hg, Hr.
  replace (close c0 >? open c1) with true by (symmetry; apply Z.gtb_lt; lia).
  replace (open c0 <? close c1) with true by (symmetry; apply Z.ltb_lt; lia).
  replace (bodyHeight c0 >? bodyHeight c1) with true
    by (symmetry; apply Z.gtb_lt; lia).
  cbn. left. reflexivity.
Qed.

Lemma bullish_engulfing_reported_witness :
  exists p,
    In p (detectAllCandlestickPatterns
            ([] ++ [PatternSamples.earlierBar; PatternSamples.bearishBar;
                    PatternSamples.engulfingBar]))
    /\ name p = "Bullish Engulfing"%string /\ signal p = BUY.
Proof.
  apply (bullish_engulfing_reported [] PatternSamples.earlierBar
           PatternSamples.bearishBar PatternSamples.engulfingBar);
    vm_compute; reflexivity.
Defined.

(** ** Short series *)

(** The quantitative module answers a short series with [null], which
    is not a HOLD result of strength zero. *)
Lemma quantitative_short_series_is_absent :
  ~ (forall (Math_sqrt : Q -> Q) (candles : list Candle),
        (length candles < 14)%nat ->
        exists r, performQuantitativeAnalysis Math_sqrt candles = Some r
                  /\ Quant.signal r = HOLD /\ (Quant.strength r == 0)%Q).
Proof.
  intro H. destruct (H (fun q => q) [] ltac:(cbn; lia)) as (r & Hr & _).
  discriminate Hr.
Qed.

(** C6, as the code has it.  On a series shorter than it requires, the
    support/resistance (8), Donchian (20), moving-average (50) and MACD
    (26) modules return signal HOLD with strength 0, and the quantitative
    module (14) returns [null]. *)
Theorem short_series_results
  (Math_sqrt : Q -> Q) (candles : list Candle) (imageHeight : Z) :
  ((length candles < 8)%nat ->
   analyzeSupportResistance candles imageHeight
   = SR.mkResult [] [] HOLD 0 None)
  /\ ((length candles < 20)%nat ->
      analyzeDonchianChannels candles
      = Donchian.mkResult HOLD 0 (Some Donchian.middle) None)
  /\ ((length candles < 50)%nat ->
      analyzeMovingAverages candles = MA.mkResult HOLD 0 None)
  /\ ((length candles < 26)%nat ->
      analyzeMACD candles = MACD.mkResult HOLD 0 None)
  /\ ((length candles < 14)%nat ->
      performQuantitativeAnalysis Math_sqrt candles = None).
Proof.
  unfold analyzeSupportResistance, analyzeDonchianChannels,
    analyzeMovingAverages, analyzeMACD, performQuantitativeAnalysis.
  repeat split; intro H; apply Nat.ltb_lt in H; rewrite H; reflexivity.
Qed.

Lemma short_series_results_witness :
  let candles := RsiSamples.rising in
  analyzeSupportResistance candles 100 = SR.mkResult [] [] HOLD 0 None
  /\ analyzeDonchianChannels candles
     = Donchian.mkResult HOLD 0 (Some Donchian.middle) None
  /\ analyzeMovingAverages candles = MA.mkResult HOLD 0 None
  /\ analyzeMACD candles = MACD.mkResult HOLD 0 None
  /\ performQuantitativeAnalysis (fun q => q) candles = None.
Proof.
  pose proof (short_series_results (fun q => q) RsiSamples.rising 100)
    as (Hsr & Hdc & Hma & Hmacd & Hq).
  cbn zeta. split; [|split; [|split; [|split]]].
  - apply Hsr. vm_compute. lia.
  - apply Hdc. vm_compute. lia.
  - apply Hma. vm_compute. lia.
  - apply Hmacd. vm_compute. lia.
  - apply Hq. vm_compute. lia.
Defined.

(** ** Donchian channels *)

Lemma length_lastn {A : Type} (n : nat) (l : list A) :
  (n <= length l)%nat -> length (Js.lastn n l) = n.
Proof. intro H. unfold Js.lastn. rewrite length_skipn. lia. Qed.

(** What a period reports, in terms of the last three closes. *)
Lemma donchianPeriod_signal (candles : list Candle) (period : nat) :
  (3 <= length candles)%nat ->
  let p := donchianPeriod candles period in
  (Donchian.period_signal p = BUY ->
   forallb (aboveUpperBand (Donchian.highest p) (Donchian.lowest p))
     (Js.lastn 3 candles) = true)
  /\ (Donchian.period_signal p = SELL ->
      forallb (belowLowerBand (Donchian.highest p) (Donchian.lowest p))
        (Js.lastn 3 candles) = true).
Proof.
  intro Hlen. apply Nat.leb_le in Hlen.
  unfold donchianPeriod. rewrite Hlen.
  set (hi := maxOf _). set (lo := minOf _).
  destruct (_ >? _)%Q.
  - destruct (forallb (aboveUpperBand hi lo) _) eqn:E; cbn;
      split; intro H; try discriminate; exact E.
  - destruct (_ <? _)%Q; [|cbn; split; discriminate].
    destruct (forallb (belowLowerBand hi lo) _) eqn:E; cbn;
      split; intro H; try discriminate; exact E.
Qed.

Lemma donchianResults_are_periods (candles : list Candle)
  (p : Donchian.PeriodResult) :
  In p (donchianResults candles) ->
  exists period, In period config.donchian.periods
                 /\ (period <= length candles)%nat
                 /\ p = donchianPeriod candles period.
Proof.
  unfold donchianResults. intro H. apply in_flat_map in H.
  destruct H as (period & Hin & Hp). exists period.
  destruct (period <=? length candles)%nat eqn:E; [|destruct Hp].
  apply Nat.leb_le in E. destruct Hp as [<- | []]. auto.
Qed.

(** The reduction keeps the seed or the report of one of the periods. *)
Lemma strongestSignal_origin (results : list Donchian.PeriodResult) :
  strongestSignal results = (HOLD, 0%Q, None)
  \/ exists p, In p results
               /\ strongestSignal results
                  = (Donchian.period_signal p, Donchian.period_strength p,
                     Some (Donchian.period_position p)).
Proof.
  unfold strongestSignal.
  set (step := fun (best : Signal * Q * option Donchian.Position) current => _).
  assert (G : forall rs acc,
             (acc = (HOLD, 0%Q, None)
              \/ exists p, In p results
                           /\ acc = (Donchian.period_signal p,
                                     Donchian.period_strength p,
                                     Some (Donchian.period_position p))) ->
             (forall p, In p rs -> In p results) ->
             let out := fold_left step rs acc in
             out = (HOLD, 0%Q, None)
             \/ exists p, In p results
                          /\ out = (Donchian.period_signal p,
                                    Donchian.period_strength p,
                                    Some (Donchian.period_position p))).
  { induction rs as [|r rs IH]; intros acc Hacc Hsub; cbn; [exact Hacc|].
    apply IH; [|intros p Hp; apply Hsub; now right].
    unfold step. destruct acc as [[sg st] ps].
    destruct (_ >? _)%Q; [|exact Hacc].
    right. exists r. split; [apply Hsub; now left | reflexivity]. }
  apply G; [now left | auto].
Qed.

(** C7.  For a series long enough for Donchian analysis, BUY is emitted
    only when the last 3 closes all lie above the upper threshold band
    of a channel, and SELL only when they all lie below the lower band;
    whenever, for every channel, some of the last 3 closes is not above
    the upper band and some is not below the lower band (as after a
    single-bar spike that retraces on the next two bars), no breakout
    signal is emitted. *)
Theorem donchian_breakout_needs_three_closes (candles : list Candle) :
  (20 <= length candles)%nat ->
  let r := analyzeDonchianChannels candles in
  let recent := Js.lastn 3 candles in
  let upper p :=
    (Donchian.highest p
     - breakoutBand (Donchian.highest p) (Donchian.lowest p))%Q in
  let lower p :=
    (Donchian.lowest p
     + breakoutBand (Donchian.highest p) (Donchian.lowest p))%Q in
  length recent = 3%nat
  /\ (Donchian.signal r = BUY ->
      exists p, In p (donchianResults candles)
                /\ forall c, In c recent -> (upper p < close c)%Q)
  /\ (Donchian.signal r = SELL ->
      exists p, In p (donchianResults candles)
                /\ forall c, In c recent -> (close c < lower p)%Q)
  /\ ((forall p, In p (donchianResults candles) ->
         (exists c, In c recent /\ ~ (upper p < close c)%Q)
         /\ (exists c, In c recent /\ ~ (close c < lower p)%Q)) ->
      Donchian.signal r = HOLD).
Proof.
  intros Hlen r recent upper lower.
  assert (H3 : (3 <= length candles)%nat) by lia.
  assert (Hper : forall p, In p (donchianResults candles) ->
            (Donchian.period_signal p = BUY ->
             forall c, In c recent -> (upper p < close c)%Q)
            /\ (Donchian.period_signal p = SELL ->
                forall c, In c recent -> (close c < lower p)%Q)).
  { intros p Hp. apply donchianResults_are_periods in Hp.
    destruct Hp as (period & _ & _ & ->).
    destruct (donchianPeriod_signal candles period H3) as [Hb Hs].
    split; intros Hsig c Hc.
    - specialize (Hb Hsig). rewrite forallb_forall in Hb.
      apply gtb_lt. exact (Hb c Hc).
    - specialize (Hs Hsig). rewrite forallb_forall in Hs.
      apply ltb_lt. exact (Hs c Hc). }
  assert (Hr : Donchian.signal r = HOLD
               \/ exists p, In p (donchianResults candles)
                            /\ Donchian.signal r = Donchian.period_signal p).
  { subst r. unfold analyzeDonchianChannels.
    replace (length candles <? 20)%nat with false
      by (symmetry; apply Nat.ltb_ge; lia).
    destruct (strongestSignal_origin (donchianResults candles))
      as [E | (p & Hp & E)]; rewrite E; cbn.
    - now left.
    - right. exists p. auto. }
  split; [apply length_lastn; exact H3|].
  split; [|split].
  - intro Hbuy. destruct Hr as [Hr | (p & Hp & Hr)]; [congruence|].
    exists p. split; [exact Hp|]. apply (Hper p Hp). congruence.
  - intro Hsell. destruct Hr as [Hr | (p & Hp & Hr)]; [congruence|].
    exists p. split; [exact Hp|]. apply (Hper p Hp). congruence.
  - intro Hnone. destruct Hr as [Hr | (p & Hp & Hr)]; [exact Hr|].
    rewrite Hr. destruct (Hnone p Hp) as [(c & Hc & Hup) (d & Hd & Hlo)].
    destruct (Hper p Hp) as [Hb Hs].
    destruct (Donchian.period_signal p); [| |reflexivity].
    + exfalso. apply Hup. now apply Hb.
    + exfalso. apply Hlo. now apply Hs.
Qed.

Lemma donchian_breakout_needs_three_closes_witness :
  Donchian.signal (analyzeDonchianChannels DonchianSamples.sustained) = BUY
  /\ exists p, In p (donchianResults DonchianSamples.sustained)
               /\ forall c, In c (Js.lastn 3 DonchianSamples.sustained) ->
                    (Donchian.highest p
                     - breakoutBand (Donchian.highest p) (Donchian.lowest p)
                     < close c)%Q.
Proof.
  split; [reflexivity|].
  apply (donchian_breakout_needs_three_closes DonchianSamples.sustained).
  - vm_compute. lia.
  - reflexivity.
Defined.

(** One close at the top of the channel followed by two closes back
    inside it: no signal.  Three closes at the top: BUY. *)
Example donchian_spike_and_sustained :
  Donchian.signal (analyzeDonchianChannels DonchianSamples.spike) = HOLD
  /\ Donchian.signal (analyzeDonchianChannels DonchianSamples.sustained) = BUY.
Proof. split; reflexivity. Qed.

(** ** Candle extraction *)

Lemma below_In (bound : Q) (y : Z) :
  In y (Js.below bound) -> 0 <= y /\ (y < bound)%Q.
Proof.
  unfold Js.below. intro H. apply in_map_iff in H.
  destruct H as (k & <- & Hk). apply in_seq in Hk.
  split; [lia|].
  apply Qle_lt_trans with (y := inject_Z (Qceiling bound - 1)).
  - rewrite <- Zle_Qle. lia.
  - apply Qceiling_lt.
Qed.

Lemma range_In (lo hi y : Z) : In y (Js.range lo hi) <-> lo <= y <= hi.
Proof.
  unfold Js.range. rewrite in_map_iff. split.
  - intros (k & <- & Hk). apply in_seq in Hk. lia.
  - intro H. exists (Z.to_nat (y - lo)). split; [lia|].
    apply in_seq. lia.
Qed.

(** The rows of the chart area lie above the bottom of the image. *)
Lemma chart_row_bounds (img : ImageData) (y : Z) :
  In y (Js.below (chartAreaHeight img)) -> 0 <= y < height img.
Proof.
  intro H. apply below_In in H. destruct H as [H0 Hlt].
  split; [exact H0|].
  unfold chartAreaHeight, config.candles.chartAreaRatio in Hlt.
  destruct (Z_lt_le_dec y (height img)) as [Hy | Hy]; [exact Hy|].
  exfalso. rewrite Zle_Qle in Hy, H0. change (inject_Z 0) with 0%Q in H0.
  lra.
Qed.

(** The state of [scanHighLow] after the first [n] rows. *)
Lemma scanHighLow_prefix (img : ImageData) (midX : Z) (n : nat) :
  (forall k, (k < n)%nat -> Z.of_nat k <> height img) ->
  let rows := map Z.of_nat (seq 0 n) in
  let st :=
    fold_left
      (fun (hl : Z * Z) (y : Z) =>
         let '(hi, lo) := hl in
         if isCandlePixel img midX y
         then ((if hi =? height img then y else hi), y)
         else hl)
      rows (height img, 0) in
  (existsb (isCandlePixel img midX) rows = false /\ st = (height img, 0))
  \/ (exists hi lo, st = (hi, lo) /\ 0 <= hi <= lo /\ lo < Z.of_nat n
                    /\ isCandlePixel img midX hi = true
                    /\ isCandlePixel img midX lo = true).
Proof.
  induction n as [|n IH]; intro Hne; cbn zeta.
  - left. split; reflexivity.
  - rewrite seq_S, map_app, fold_left_app, existsb_app. cbn [Nat.add map].
    cbn [fold_left existsb].
    destruct IH as [[Hnone ->] | (hi & lo & -> & Hle & Hlt & Hhi & Hlo)].
    + intros k Hk. apply Hne. lia.
    + rewrite Hnone. cbn [orb].
      destruct (isCandlePixel img midX (Z.of_nat n)) eqn:E.
      * right. exists (Z.of_nat n), (Z.of_nat n).
        rewrite Z.eqb_refl. repeat split; try lia; exact E.
      * left. split; reflexivity.
    + right.
      destruct (isCandlePixel img midX (Z.of_nat n)) eqn:E.
      * exists hi, (Z.of_nat n).
        assert (Hh : hi <> height img).
        { intro Heq. apply (Hne (Z.to_nat hi)); lia. }
        apply Z.eqb_neq in Hh. rewrite Hh.
        repeat split; try lia; assumption.
      * exists hi, lo. repeat split; try lia; assumption.
Qed.

(** On a candle column the first pass finds [high <= low], both on
    candle pixels. *)
Lemma scanHighLow_found (img : ImageData) (midX : Z) :
  isCandleColumn img midX = true ->
  exists hi lo, scanHighLow img midX = (hi, lo) /\ 0 <= hi <= lo
                /\ isCandlePixel img midX hi = true
                /\ isCandlePixel img midX lo = true.
Proof.
  unfold isCandleColumn, scanHighLow, Js.below. intro Hcol.
  set (n := Z.to_nat (Qceiling (chartAreaHeight img))) in *.
  destruct (scanHighLow_prefix img midX n)
    as [[Hnone _] | (hi & lo & Hst & Hle & _ & Hhi & Hlo)].
  - intros k Hk Heq.
    assert (Hin : In (Z.of_nat k) (Js.below (chartAreaHeight img))).
    { unfold Js.below. apply in_map. apply in_seq. fold n. lia. }
    apply chart_row_bounds in Hin. lia.
  - congruence.
  - exists hi, lo. auto.
Qed.

Lemma countPixels_fold (test : Z -> bool) (rows : list Z) (a : Z) :
  let n := fold_left (fun n y => if test y then n + 1 else n) rows a in
  a <= n /\ (a < n <-> existsb test rows = true).
Proof.
  revert a. induction rows as [|y ys IH]; intro a; cbn.
  - split; [lia|]. split; [lia | discriminate].
  - destruct (test y); cbn.
    + destruct (IH (a + 1)) as [Hle _]. split; [lia|].
      split; [reflexivity | lia].
    + apply IH.
Qed.

Lemma countPixels_nonneg (test : Z -> bool) (hi lo : Z) :
  0 <= countPixels test hi lo.
Proof. apply (countPixels_fold test (Js.range hi lo) 0). Qed.

Lemma countPixels_pos (test : Z -> bool) (hi lo : Z) :
  0 < countPixels test hi lo <-> existsb test (Js.range hi lo) = true.
Proof. apply (countPixels_fold test (Js.range hi lo) 0). Qed.

(** The state of [scanBody] after the first [m] rows from [hi]. *)
Lemma scanBody_prefix (img : ImageData) (midX : Z) (green red : bool)
  (hi : Z) (m : nat) :
  let isColorMatch y :=
    (green && isGreenPixel img midX y) || (red && isRedPixel img midX y) in
  let rows := map (fun k => hi + Z.of_nat k) (seq 0 m) in
  let st :=
    fold_left
      (fun (st : Z * Z * bool) (y : Z) =>
         let '(bh, bl, inBody) := st in
         if isColorMatch y
         then ((if inBody then bh else y), y, true)
         else st)
      rows (height img, 0, false) in
  (existsb isColorMatch rows = false /\ st = (height img, 0, false))
  \/ (exists bh bl, st = (bh, bl, true) /\ hi <= bh <= bl
                    /\ bl < hi + Z.of_nat m).
Proof.
  induction m as [|m IH]; cbn zeta.
  - left. split; reflexivity.
  - rewrite seq_S, map_app, fold_left_app, existsb_app. cbn [Nat.add map].
    cbn [fold_left existsb]. cbn zeta in IH.
    set (b := (green && isGreenPixel img midX (hi + Z.of_nat m))
              || (red && isRedPixel img midX (hi + Z.of_nat m))).
    destruct IH as [[Hnone ->] | (bh & bl & -> & Hle & Hlt)].
    + rewrite Hnone. cbn [orb]. rewrite orb_false_r.
      destruct b.
      * right. exists (hi + Z.of_nat m), (hi + Z.of_nat m).
        split; [reflexivity | lia].
      * left. split; reflexivity.
    + right. destruct b.
      * exists bh, (hi + Z.of_nat m). split; [reflexivity | lia].
      * exists bh, bl. split; [reflexivity | lia].
Qed.

(** When some pixel between [high] and [low] has the candle's colour,
    the body lies between [high] and [low]. *)
Lemma scanBody_found (img : ImageData) (midX : Z) (green red : bool)
  (hi lo : Z) :
  existsb
    (fun y => (green && isGreenPixel img midX y)
              || (red && isRedPixel img midX y))
    (Js.range hi lo) = true ->
  exists bh bl, scanBody img midX green red hi lo = (bh, bl)
                /\ hi <= bh <= bl /\ bl <= lo.
Proof.
  unfold scanBody, Js.range. intro Hex.
  destruct (scanBody_prefix img midX green red hi (Z.to_nat (lo - hi + 1)))
    as [[Hnone _] | (bh & bl & Hst & Hle & Hlt)].
  - cbn zeta in Hnone. congruence.
  - cbn zeta in Hst. rewrite Hst. exists bh, bl.
    split; [reflexivity|]. split; [exact Hle|].
    destruct (Z_le_gt_dec hi lo); [lia|].
    replace (Z.to_nat (lo - hi + 1)) with 0%nat in Hex by lia.
    discriminate Hex.
Qed.

Lemma measureCandle_geometry (img : ImageData) (c : Run) :
  isCandleColumn img (midColumn c) = true ->
  WellMeasured (measureCandle img c).
Proof.
  intro Hcol. unfold measureCandle.
  set (midX := midColumn c) in *.
  destruct (scanHighLow_found img midX Hcol)
    as (hi & lo & -> & Hle & Hhi & Hlo).
  set (gp := countPixels (isGreenPixel img midX) hi lo).
  set (rp := countPixels (isRedPixel img midX) hi lo).
  assert (Hin : In hi (Js.range hi lo)) by (apply range_In; lia).
  assert (Hbody :
            existsb
              (fun y => ((gp >? rp) && isGreenPixel img midX y)
                        || (negb (gp >? rp) && isRedPixel img midX y))
              (Js.range hi lo) = true).
  { apply existsb_exists.
    destruct (gp >? rp) eqn:E; cbn [negb andb orb].
    - apply Z.gtb_lt in E.
      pose proof (countPixels_nonneg (isRedPixel img midX) hi lo) as Hr.
      fold rp in Hr.
      assert (Hg : 0 < gp) by lia.
      apply countPixels_pos in Hg. apply existsb_exists in Hg.
      destruct Hg as (y & Hy & Hgy). exists y. rewrite Hgy. auto.
    - assert (Hrp : gp <= rp).
      { destruct (Z_le_gt_dec gp rp) as [H | H]; [exact H|].
        apply Z.gt_lt, Z.gtb_lt in H. congruence. }
      unfold isCandlePixel in Hhi. apply orb_true_iff in Hhi.
      destruct Hhi as [Hg | Hr].
      + assert (Hgp : 0 < gp).
        { apply countPixels_pos. apply existsb_exists. eauto. }
        assert (Hr : 0 < rp) by lia.
        apply countPixels_pos in Hr. apply existsb_exists in Hr.
        destruct Hr as (y & Hy & Hry). exists y. rewrite Hry. auto.
      + exists hi. rewrite Hr. auto. }
  destruct (scanBody_found img midX (gp >? rp) (negb (gp >? rp)) hi lo Hbody)
    as (bh & bl & -> & Hb1 & Hb2).
  destruct (gp >? rp); constructor; cbn; try lia; try reflexivity.
Qed.

Lemma downto_cons (hi lo : Z) :
  lo < hi -> Js.downto hi lo = hi :: Js.downto (hi - 1) lo.
Proof.
  intro H. unfold Js.downto.
  replace (Z.to_nat (hi - lo)) with (S (Z.to_nat (hi - 1 - lo))) by lia.
  cbn [seq map]. f_equal; [lia|].
  rewrite <- seq_shift, map_map. apply map_ext. intro k. lia.
Qed.

Lemma downto_nil (hi lo : Z) : hi <= lo -> Js.downto hi lo = [].
Proof.
  intro H. unfold Js.downto.
  replace (Z.to_nat (hi - lo)) with 0%nat by lia. reflexivity.
Qed.

(** The column loop only ever builds runs of adjacent candle columns. *)
Lemma scanColumns_runs (img : ImageData) (lo : Z) (m : nat) :
  forall (hi : Z) (acc : list Run) (cur : option Run),
    Z.to_nat (hi - lo) = m ->
    Forall (CandleRun img) acc ->
    (forall c, cur = Some c -> CandleRun img c /\ run_x_start c = hi + 1) ->
    Forall (CandleRun img) (fst (scanColumns img (Js.downto hi lo) acc cur))
    /\ (forall c, snd (scanColumns img (Js.downto hi lo) acc cur) = Some c ->
                  CandleRun img c).
Proof.
  induction m as [|m IH]; intros hi acc cur Hm Hacc Hcur.
  - rewrite downto_nil by lia. cbn. split; [exact Hacc|].
    intros c Hc. apply (Hcur c Hc).
  - rewrite downto_cons by lia. cbn [scanColumns].
    destruct (isCandleColumn img hi) eqn:Ecol.
    + apply IH; [lia | exact Hacc|].
      intros c [= <-]. cbn. split; [|lia].
      unfold CandleRun. destruct cur as [c0|]; cbn.
      * destruct (Hcur c0 eq_refl) as [[Hle Hall] Hst].
        split; [lia|]. intros x Hx.
        destruct (Z.eq_dec x hi) as [-> | Hne]; [exact Ecol|].
        apply Hall. lia.
      * split; [lia|]. intros x Hx.
        replace x with hi by lia. exact Ecol.
    + destruct cur as [c0|].
      * destruct (Hcur c0 eq_refl) as [Hrun _].
        destruct (wideEnough c0).
        -- destruct (_ <=? _)%nat.
           ++ cbn. split.
              ** apply Forall_app. split; [exact Hacc | now constructor].
              ** intros c [= <-]. exact Hrun.
           ++ apply IH; [lia | | discriminate].
              apply Forall_app. split; [exact Hacc | now constructor].
        -- apply IH; [lia | exact Hacc | discriminate].
      * apply IH; [lia | exact Hacc | discriminate].
Qed.

Lemma detectRuns_runs (img : ImageData) :
  Forall (CandleRun img) (detectRuns img).
Proof.
  unfold detectRuns.
  destruct (scanColumns_runs img 0 (Z.to_nat (width img - 1 - 0))
              (width img - 1) [] None eq_refl (Forall_nil _))
    as [Hacc Hcur]; [discriminate|].
  destruct (scanColumns img _ [] None) as [acc cur]. cbn in Hacc, Hcur.
  destruct cur as [c|]; [|exact Hacc].
  destruct (_ && _); [|exact Hacc].
  apply Forall_app. split; [exact Hacc|]. constructor; auto.
Qed.

(** The rounded midpoint of a run is one of its columns. *)
Lemma Math_round_mid (s e : Z) :
  s <= e -> s <= Js.Math_round ((s + e) / 2)%Q <= e.
Proof.
  intro H. unfold Js.Math_round.
  assert (Hq : (inject_Z s <= inject_Z e)%Q) by (now rewrite <- Zle_Qle).
  split.
  - rewrite <- (Qfloor_Z s) at 1. apply Qfloor_resp_le. qlin.
  - apply Z.lt_succ_r. rewrite Zlt_Qlt.
    apply Qle_lt_trans with (y := ((s + e) / 2 + 0.5)%Q).
    + apply Qfloor_le.
    + unfold Z.succ. rewrite inject_Z_plus. change (inject_Z 1) with 1%Q.
      qlin.
Qed.

Lemma run_mid_is_candle_column (img : ImageData) (c : Run) :
  CandleRun img c -> isCandleColumn img (midColumn c) = true.
Proof.
  intros [Hle Hall]. apply Hall. unfold midColumn.
  apply Math_round_mid. exact Hle.
Qed.

(** Every candle returned by the extraction stage was measured on a
    candle column. *)
Lemma extracted_candles_measured (img : ImageData) (ca : CandleAnalysis) :
  analyzeProfessionalCandlesticks img = Ok ca ->
  forall c, In c (candles ca) -> WellMeasured c.
Proof.
  unfold analyzeProfessionalCandlesticks.
  destruct (length (detectRuns img) =? 0)%nat; [discriminate|].
  destruct (length (filter _ _) =? 0)%nat; [discriminate|].
  intros [= <-] c Hc. cbn [candles] in Hc.
  apply filter_In in Hc. destruct Hc as [Hc _].
  apply in_rev in Hc. apply in_map_iff in Hc.
  destruct Hc as (run & <- & Hrun).
  apply measureCandle_geometry, run_mid_is_candle_column.
  pose proof (detectRuns_runs img) as Hall.
  rewrite Forall_forall in Hall. auto.
Qed.

Lemma ratio_unit_interval (a b : Z) :
  0 <= a <= b -> 1 <= b -> (0 <= a / b <= 1)%Q.
Proof.
  intros [Ha Hab] Hb.
  assert (Hbq : (0 < inject_Z b)%Q).
  { change 0%Q with (inject_Z 0). rewrite <- Zlt_Qlt. lia. }
  rewrite Zle_Qle in Ha, Hab. change (inject_Z 0) with 0%Q in Ha.
  split.
  - apply Qle_shift_div_l; [exact Hbq | lra].
  - apply Qle_shift_div_r; [exact Hbq | lra].
Qed.

Example chart_is_read :
  analyzeProfessionalCandlesticks ImageSamples.chart
  = Ok ImageSamples.analysis.
Proof. vm_compute. reflexivity. Qed.

(** C3.  For every candle produced by the extraction stage, bodyRatio,
    upperWickRatio and lowerWickRatio lie in [0, 1], and the
    denominator of each ratio is floored at 1: it is
    [max(1, low - high)], hence never zero. *)
Theorem extracted_ratios_in_unit_interval
  (img : ImageData) (ca : CandleAnalysis) (c : Candle) :
  analyzeProfessionalCandlesticks img = Ok ca ->
  In c (candles ca) ->
  (0 <= bodyRatio c <= 1)%Q
  /\ (0 <= upperWickRatio c <= 1)%Q
  /\ (0 <= lowerWickRatio c <= 1)%Q
  /\ bodyRatio c = (bodyHeight c / totalHeight c)%Q
  /\ upperWickRatio c = (upperWick c / Z.max 1 (totalHeight c))%Q
  /\ lowerWickRatio c = (lowerWick c / Z.max 1 (totalHeight c))%Q
  /\ totalHeight c = Z.max 1 (low c - high c)
  /\ 1 <= totalHeight c.
Proof.
  intros Hok Hin.
  destruct (extracted_candles_measured img ca Hok c Hin).
  rewrite wm_bodyRatio0, wm_upperRatio0, wm_lowerRatio0.
  repeat split; try reflexivity; try lia;
    apply ratio_unit_interval; lia.
Qed.

Lemma extracted_ratios_in_unit_interval_witness :
  (0 <= bodyRatio ImageSamples.candle <= 1)%Q
  /\ (0 <= upperWickRatio ImageSamples.candle <= 1)%Q
  /\ (0 <= lowerWickRatio ImageSamples.candle <= 1)%Q
  /\ bodyRatio ImageSamples.candle
     = (bodyHeight ImageSamples.candle / totalHeight ImageSamples.candle)%Q
  /\ upperWickRatio ImageSamples.candle
     = (upperWick ImageSamples.candle
        / Z.max 1 (totalHeight ImageSamples.candle))%Q
  /\ lowerWickRatio ImageSamples.candle
     = (lowerWick ImageSamples.candle
        / Z.max 1 (totalHeight ImageSamples.candle))%Q
  /\ totalHeight ImageSamples.candle
     = Z.max 1 (low ImageSamples.candle - high ImageSamples.candle)
  /\ 1 <= totalHeight ImageSamples.candle.
Proof.
  apply (extracted_ratios_in_unit_interval ImageSamples.chart
           ImageSamples.analysis ImageSamples.candle).
  - vm_compute. reflexivity.
  - left. reflexivity.
Defined.

(** C4.  For every candle returned by the extraction stage, the row
    recorded as high is not below the row recorded as low:
    [high <= low]. *)
Theorem extracted_high_le_low
  (img : ImageData) (ca : CandleAnalysis) (c : Candle) :
  analyzeProfessionalCandlesticks img = Ok ca ->
  In c (candles ca) ->
  high c <= low c.
Proof.
  intros Hok Hin.
  destruct (extracted_candles_measured img ca Hok c Hin). lia.
Qed.

Lemma extracted_high_le_low_witness :
  high ImageSamples.candle <= low ImageSamples.candle.
Proof.
  apply (extracted_high_le_low ImageSamples.chart ImageSamples.analysis
           ImageSamples.candle).
  - vm_compute. reflexivity.
  - left. reflexivity.
Defined.

(** The body bounds are found between [high] and [low] as well: the
    column that is measured always holds a pixel of the candle's own
    colour. *)
Lemma extracted_body_within_range
  (img : ImageData) (ca : CandleAnalysis) (c : Candle) :
  analyzeProfessionalCandlesticks img = Ok ca ->
  In c (candles ca) ->
  high c <= bodyTop c /\ bodyTop c <= bodyBottom c /\ bodyBottom c <= low c.
Proof.
  intros Hok Hin.
  destruct (extracted_candles_measured img ca Hok c Hin). lia.
Qed.

(** ** The pipeline *)

(** The clock reaches the output, through the analysis time only. *)
Example clock_reaches_analysis_time :
  performAdvancedAnalysis (fun q => q) (mkClock 0 250) ImageSamples.chart
  <> performAdvancedAnalysis (fun q => q) (mkClock 0 900) ImageSamples.chart.
Proof. vm_compute. intros [= H]. Qed.


Example chart_recommendation :
  match recommendationOf (fun q => q) (mkClock 0 250) ImageSamples.chart with
  | Ok r => action r = ActWAIT /\ confidence r = 40
  | Throw _ => False
  end.
Proof. vm_compute. split; reflexivity. Qed.

(** * Further properties of the engine *)

(** ** Sorting *)

Lemma leb_le (x y : Q) : (x <=? y)%Q = true <-> (x <= y)%Q.
Proof. unfold Js.leb. apply Qle_bool_iff. Qed.

Lemma leb_gt (x y : Q) : (x <=? y)%Q = false <-> (y < x)%Q.
Proof.
  unfold Js.leb. split; intro H.
  - apply Qnot_le_lt. intro Hle. apply Qle_bool_iff in Hle. congruence.
  - destruct (Qle_bool x y) eqn:E; [|reflexivity].
    apply Qle_bool_iff in E. exfalso. apply (Qlt_not_le _ _ H E).
Qed.

Section SortBy.

Context {A : Type} (le : A -> A -> bool).
Hypothesis le_total : forall a b, le a b = false -> le b a = true.
Hypothesis le_trans :
  forall a b c, le a b = true -> le b c = true -> le a c = true.

Lemma insertBy_sorted (x : A) (l : list A) :
  StronglySorted (fun a b => le a b = true) l ->
  StronglySorted (fun a b => le a b = true) (Js.insertBy le x l).
Proof.
  induction 1 as [|y ys Hs IH Hall]; cbn.
  - constructor; constructor.
  - destruct (le x y) eqn:E.
    + constructor; [constructor; assumption|].
      constructor; [exact E|].
      rewrite Forall_forall in *. intros z Hz.
      apply le_trans with (b := y); auto.
    + constructor; [exact IH|].
      rewrite Forall_forall in *. intros z Hz.
      apply In_insertBy in Hz. destruct Hz as [-> | Hz]; auto.
Qed.

Lemma sortBy_sorted (l : list A) :
  StronglySorted (fun a b => le a b = true) (Js.sortBy le l).
Proof.
  unfold Js.sortBy. induction l as [|x xs IH]; cbn.
  - constructor.
  - apply insertBy_sorted. exact IH.
Qed.

End SortBy.

Lemma byStrengthDesc_total (a b : Pattern) :
  byStrengthDesc a b = false -> byStrengthDesc b a = true.
Proof.
  unfold byStrengthDesc. intro H. apply leb_gt in H. apply leb_le.
  apply Qlt_le_weak. exact H.
Qed.

Lemma byStrengthDesc_trans (a b c : Pattern) :
  byStrengthDesc a b = true -> byStrengthDesc b c = true ->
  byStrengthDesc a c = true.
Proof.
  unfold byStrengthDesc. rewrite !leb_le. intros H1 H2.
  apply Qle_trans with (y := strength b); assumption.
Qed.

(** The detector lists its patterns from the strongest to the weakest. *)
Theorem detected_patterns_sorted_by_strength (candles : list Candle) :
  StronglySorted (fun a b => (strength b <= strength a)%Q)
    (detectAllCandlestickPatterns candles).
Proof.
  assert (H : StronglySorted (fun a b => byStrengthDesc a b = true)
                (detectAllCandlestickPatterns candles)).
  { unfold detectAllCandlestickPatterns.
    destruct (length candles <? 3)%nat; [constructor|].
    apply sortBy_sorted.
    - exact byStrengthDesc_total.
    - exact byStrengthDesc_trans. }
  induction H as [|p ps Hs IH Hall]; constructor; [exact IH|].
  rewrite Forall_forall in *. intros q Hq.
  apply leb_le. exact (Hall q Hq).
Qed.

(** ** Extraction: the column runs *)

Lemma StronglySorted_snoc {A : Type} (R : A -> A -> Prop) (l : list A)
  (x : A) :
  StronglySorted R l -> Forall (fun a => R a x) l ->
  StronglySorted R (l ++ [x]).
Proof.
  induction 1 as [|y ys Hs IH Hall]; intro Hx; cbn.
  - constructor; constructor.
  - inversion Hx as [|? ? Hy Hys]; subst.
    constructor; [apply IH; exact Hys|].
    apply Forall_app. split; [exact Hall | constructor; [exact Hy | constructor]].
Qed.

Lemma StronglySorted_rev {A : Type} (R : A -> A -> Prop) (l : list A) :
  StronglySorted R l -> StronglySorted (fun a b => R b a) (rev l).
Proof.
  induction 1 as [|y ys Hs IH Hall]; cbn.
  - constructor.
  - apply StronglySorted_snoc; [exact IH|].
    apply Forall_rev. exact Hall.
Qed.

Lemma StronglySorted_map {A B : Type} (f : A -> B) (R : B -> B -> Prop)
  (l : list A) :
  StronglySorted (fun a b => R (f a) (f b)) l -> StronglySorted R (map f l).
Proof.
  induction 1 as [|y ys Hs IH Hall]; cbn; constructor; [exact IH|].
  rewrite Forall_forall in *. intros b Hb. apply in_map_iff in Hb.
  destruct Hb as (a & <- & Ha). auto.
Qed.

Lemma scanColumns_pushed (img : ImageData) (lo top : Z) (m : nat) :
  forall (hi : Z) (acc : list Run) (cur : option Run),
    Z.to_nat (hi - lo) = m -> lo <= hi -> hi <= top ->
    PushedRuns lo top acc ->
    (length acc < config.candles.scanCount)%nat ->
    Forall (fun a => hi + 1 < run_x_start a) acc ->
    (forall c, cur = Some c ->
               run_x_start c = hi + 1 /\ run_x_end c <= top
               /\ Forall (fun a => run_x_end c < run_x_start a) acc) ->
    let out := scanColumns img (Js.downto hi lo) acc cur in
    PushedRuns lo top (fst out)
    /\ ((length (fst out) < config.candles.scanCount)%nat ->
        forall c, snd out = Some c ->
                  lo < run_x_start c /\ run_x_end c <= top
                  /\ Forall (fun a => run_x_end c < run_x_start a) (fst out)).
Proof.
  induction m as [|m IH]; intros hi acc cur Hm Hlo Htop Hacc Hlen Hgap Hcur.
  - rewrite downto_nil by lia. cbn. split; [exact Hacc|].
    intros _ c Hc. destruct (Hcur c Hc) as (Hs & He & Hall).
    repeat split; [lia | exact He | exact Hall].
  - rewrite downto_cons by lia. cbn [scanColumns].
    assert (Hgap' : Forall (fun a => hi - 1 + 1 < run_x_start a) acc).
    { rewrite Forall_forall in *. intros a Ha. specialize (Hgap a Ha). lia. }
    destruct (isCandleColumn img hi) eqn:Ecol.
    + apply IH; try assumption; try lia.
      intros c [= <-]. cbn. split; [lia|].
      destruct cur as [c0|]; cbn.
      * destruct (Hcur c0 eq_refl) as (Hs & He & Hall). auto.
      * split; [lia|]. rewrite Forall_forall in *.
        intros a Ha. specialize (Hgap a Ha). lia.
    + destruct cur as [c0|].
      * destruct (Hcur c0 eq_refl) as (Hs & He & Hall).
        destruct (wideEnough c0) eqn:Ewide.
        -- assert (Hpush : PushedRuns lo top (acc ++ [c0])).
           { destruct Hacc as (Hf & Hsorted & _). split; [|split].
             - apply Forall_app. split; [exact Hf|].
               constructor; [|constructor]. repeat split; [exact Ewide|lia|lia].
             - apply StronglySorted_snoc; assumption.
             - rewrite length_app. cbn. lia. }
           destruct (_ <=? _)%nat eqn:Efull.
           ++ cbn. split; [exact Hpush|].
              intro Hlt. apply Nat.leb_le in Efull. lia.
           ++ apply Nat.leb_gt in Efull.
              apply IH; try assumption; try lia; [|discriminate].
              apply Forall_app. split; [exact Hgap'|].
              constructor; [lia | constructor].
        -- apply IH; try assumption; try lia. discriminate.
      * apply IH; try assumption; try lia. discriminate.
Qed.

(** The runs found in an image: at most [scanCount] of them, each at
    least [minWidth] wide, within columns 1 to [width - 1], listed from
    right to left without overlap. *)
Lemma detectRuns_pushed (img : ImageData) :
  PushedRuns 0 (width img - 1) (detectRuns img).
Proof.
  unfold detectRuns.
  destruct (Z_le_gt_dec 0 (width img - 1)) as [Hw | Hw].
  - assert (Hnil : PushedRuns 0 (width img - 1) []).
    { repeat split; [constructor | constructor | cbn; lia]. }
    assert (Hlen : (length (@nil Run) < config.candles.scanCount)%nat).
    { unfold config.candles.scanCount. cbn. lia. }
    assert (Hcur0 : forall c, @None Run = Some c ->
              run_x_start c = width img - 1 + 1
              /\ run_x_end c <= width img - 1
              /\ Forall (fun a => run_x_end c < run_x_start a) []).
    { discriminate. }
    pose proof (scanColumns_pushed img 0 (width img - 1)
                  (Z.to_nat (width img - 1 - 0)) (width img - 1) [] None
                  eq_refl Hw (Z.le_refl _) Hnil Hlen (Forall_nil _) Hcur0)
      as [Hacc Hcur].
    destruct (scanColumns img _ [] None) as [acc cur]. cbn in Hacc, Hcur.
    destruct cur as [c|]; [|exact Hacc].
    destruct (wideEnough c) eqn:Ewide; [|exact Hacc]. cbn [andb].
    destruct (length acc <? config.candles.scanCount)%nat eqn:Elt;
      [|exact Hacc].
    apply Nat.ltb_lt in Elt.
    destruct (Hcur Elt c eq_refl) as (Hs & He & Hall).
    destruct Hacc as (Hf & Hsorted & _). split; [|split].
    + apply Forall_app. split; [exact Hf|].
      constructor; [|constructor]. auto.
    + apply StronglySorted_snoc; assumption.
    + rewrite length_app. cbn. unfold config.candles.scanCount in *. lia.
  - rewrite downto_nil by lia. cbn.
    repeat split; [constructor | constructor | cbn; lia].
Qed.

(** ** Extraction: the returned candles *)

(** Fields that [measureCandle] fixes whatever the pixels are. *)
Lemma measureCandle_fields (img : ImageData) (c : Run) :
  let k := measureCandle img c in
  x_end k = run_x_end c /\ x_start k = run_x_start c
  /\ isRed k = negb (isGreen k)
  /\ open k = (if isGreen k then bodyBottom k else bodyTop k)
  /\ close k = (if isGreen k then bodyTop k else bodyBottom k)
  /\ (totalHeight k >? 0) = true.
Proof.
  unfold measureCandle.
  destruct (scanHighLow img (midColumn c)) as [hi lo].
  destruct (scanBody img (midColumn c) _ _ hi lo) as [bh bl].
  cbn. repeat split; try reflexivity.
  apply Z.gtb_lt. lia.
Qed.

Lemma filter_all {A : Type} (f : A -> bool) (l : list A) :
  (forall x, In x l -> f x = true) -> filter f l = l.
Proof.
  induction l as [|x xs IH]; intro H; cbn; [reflexivity|].
  rewrite (H x (or_introl eq_refl)). f_equal. apply IH.
  intros y Hy. apply H. now right.
Qed.

(** No measured candle is filtered out. *)
Lemma measured_all_valid (img : ImageData) (runs : list Run) :
  filter (fun c => totalHeight c >? 0) (rev (map (measureCandle img) runs))
  = rev (map (measureCandle img) runs).
Proof.
  apply filter_all. intros k Hk. apply in_rev in Hk.
  apply in_map_iff in Hk. destruct Hk as (c & <- & _).
  apply measureCandle_fields.
Qed.

(** The shape of a successful extraction. *)
Lemma extraction_shape (img : ImageData) (ca : CandleAnalysis) :
  analyzeProfessionalCandlesticks img = Ok ca ->
  detectRuns img <> []
  /\ candles ca = rev (map (measureCandle img) (detectRuns img))
  /\ patterns ca = detectAllCandlestickPatterns (candles ca).
Proof.
  unfold analyzeProfessionalCandlesticks. rewrite measured_all_valid.
  destruct (length (detectRuns img) =? 0)%nat eqn:E; [discriminate|].
  destruct (length (rev _) =? 0)%nat; [discriminate|].
  intros [= <-]. cbn. split; [|split; reflexivity].
  intro Hnil. rewrite Hnil in E. discriminate E.
Qed.

(** The extraction stage fails in one way only: with the message
    'No candles detected ...', exactly when the column scan finds no
    run that is wide enough.  The message 'No valid candles found
    after processing' is never produced. *)
Theorem extraction_only_fails_without_runs
  (img : ImageData) (message : string) :
  analyzeProfessionalCandlesticks img = Throw message
  <-> detectRuns img = [] /\ message = noCandlesMessage.
Proof.
  unfold analyzeProfessionalCandlesticks. rewrite measured_all_valid.
  destruct (detectRuns img) as [|r rs] eqn:E; cbn [length Nat.eqb].
  - split.
    + intros [= <-]. split; reflexivity.
    + intros [_ ->]. reflexivity.
  - rewrite length_rev, length_map. cbn [length Nat.eqb].
    split; [discriminate | intros [H _]; discriminate H].
Qed.

(** The candles are returned in chronological order: from left to
    right, each candle ending strictly before the next one starts. *)
Theorem extracted_candles_left_to_right
  (img : ImageData) (ca : CandleAnalysis) :
  analyzeProfessionalCandlesticks img = Ok ca ->
  StronglySorted (fun a b => x_end a < x_start b) (candles ca).
Proof.
  intro Hok. apply extraction_shape in Hok. destruct Hok as (_ & -> & _).
  apply (StronglySorted_rev (fun a b => x_end b < x_start a)).
  apply StronglySorted_map.
  destruct (detectRuns_pushed img) as (_ & Hsorted & _).
  induction Hsorted as [|r rs Hs IH Hall]; constructor; [exact IH|].
  rewrite Forall_forall in *. intros b Hb.
  destruct (measureCandle_fields img r) as (_ & -> & _).
  destruct (measureCandle_fields img b) as (-> & _).
  auto.
Qed.

(** Between 1 and [scanCount] = 150 candles are returned; each spans
    at least [minWidth] = 2 columns beyond its first and lies within
    columns 1 to [width - 1]. *)
Theorem extracted_candles_bounded
  (img : ImageData) (ca : CandleAnalysis) :
  analyzeProfessionalCandlesticks img = Ok ca ->
  (1 <= length (candles ca) <= 150)%nat
  /\ forall c, In c (candles ca) ->
               1 <= x_start c /\ x_start c + 2 <= x_end c
               /\ x_end c <= width img - 1.
Proof.
  intro Hok. apply extraction_shape in Hok.
  destruct Hok as (Hne & -> & _).
  destruct (detectRuns_pushed img) as (Hall & _ & Hlen).
  rewrite length_rev, length_map. split.
  - split; [|exact Hlen].
    destruct (detectRuns img); [congruence | cbn; lia].
  - intros k Hk. apply in_rev in Hk. apply in_map_iff in Hk.
    destruct Hk as (r & <- & Hr).
    rewrite Forall_forall in Hall. destruct (Hall r Hr) as (Hw & Hs & He).
    destruct (measureCandle_fields img r) as (-> & -> & _).
    unfold wideEnough, config.candles.minWidth in Hw.
    apply Z.leb_le in Hw. lia.
Qed.

Example two_candle_chart_is_read :
  analyzeProfessionalCandlesticks TwoCandleImage.chart
  = Ok TwoCandleImage.analysis
  /\ map (fun c => (x_start c, x_end c, isGreen c, high c, low c))
       (candles TwoCandleImage.analysis)
     = [(1, 3, true, 2, 5); (6, 8, false, 4, 7)].
Proof. split; vm_compute; reflexivity. Qed.

Lemma extracted_candles_left_to_right_witness :
  StronglySorted (fun a b => x_end a < x_start b)
    (candles TwoCandleImage.analysis).
Proof.
  apply (extracted_candles_left_to_right TwoCandleImage.chart).
  vm_compute. reflexivity.
Defined.

Lemma extracted_candles_bounded_witness :
  (1 <= length (candles TwoCandleImage.analysis) <= 150)%nat
  /\ forall c, In c (candles TwoCandleImage.analysis) ->
               1 <= x_start c /\ x_start c + 2 <= x_end c
               /\ x_end c <= width TwoCandleImage.chart - 1.
Proof.
  apply (extracted_candles_bounded TwoCandleImage.chart).
  vm_compute. reflexivity.
Defined.

Lemma oriented_candles
  (img : ImageData) (ca : CandleAnalysis) (c : Candle) :
  analyzeProfessionalCandlesticks img = Ok ca ->
  In c (candles ca) ->
  isRed c = negb (isGreen c)
  /\ (isGreen c = true ->
      close c = bodyTop c /\ open c = bodyBottom c /\ close c <= open c)
  /\ (isRed c = true ->
      open c = bodyTop c /\ close c = bodyBottom c /\ open c <= close c).
Proof.
  intros Hok Hin.
  destruct (extracted_candles_measured img ca Hok c Hin).
  apply extraction_shape in Hok. destruct Hok as (_ & Hc & _).
  rewrite Hc in Hin. apply in_rev in Hin. apply in_map_iff in Hin.
  destruct Hin as (r & <- & _).
  destruct (measureCandle_fields img r) as (_ & _ & Hred & Hop & Hcl & _).
  rewrite Hred, Hop, Hcl.
  destruct (isGreen (measureCandle img r)); cbn;
    repeat split; try discriminate; lia.
Qed.

(** Colour and orientation of an extracted candle: exactly one of
    isGreen and isRed holds; a green candle has its close on the top
    row of the body and its open on the bottom row, a red candle the
    reverse, so in pixel rows [close <= open] for green and
    [open <= close] for red. *)
Theorem extracted_candle_orientation
  (img : ImageData) (ca : CandleAnalysis) (c : Candle) :
  analyzeProfessionalCandlesticks img = Ok ca ->
  In c (candles ca) ->
  isRed c = negb (isGreen c)
  /\ (isGreen c = true ->
      close c = bodyTop c /\ open c = bodyBottom c /\ close c <= open c)
  /\ (isRed c = true ->
      open c = bodyTop c /\ close c = bodyBottom c /\ open c <= close c).
Proof. exact (oriented_candles img ca c). Qed.

Lemma extracted_candle_orientation_witness :
  isRed ImageSamples.candle = negb (isGreen ImageSamples.candle)
  /\ (isGreen ImageSamples.candle = true ->
      close ImageSamples.candle = bodyTop ImageSamples.candle
      /\ open ImageSamples.candle = bodyBottom ImageSamples.candle
      /\ close ImageSamples.candle <= open ImageSamples.candle)
  /\ (isRed ImageSamples.candle = true ->
      open ImageSamples.candle = bodyTop ImageSamples.candle
      /\ close ImageSamples.candle = bodyBottom ImageSamples.candle
      /\ open ImageSamples.candle <= close ImageSamples.candle).
Proof.
  apply (extracted_candle_orientation ImageSamples.chart
           ImageSamples.analysis ImageSamples.candle).
  - vm_compute. reflexivity.
  - left. reflexivity.
Defined.

(** ** Pattern detection: what is reported *)

Lemma In_pushIf (cond : bool) (p q : Pattern) :
  In p (pushIf cond q) <-> cond = true /\ p = q.
Proof.
  unfold pushIf. destruct cond; cbn; intuition congruence.
Qed.

Lemma last_three {A : Type} (l : list A) :
  (3 <= length l)%nat ->
  exists older c2 c1 c0, l = older ++ [c2; c1; c0].
Proof.
  intro H. rewrite <- (rev_involutive l). rewrite <- length_rev in H.
  destruct (rev l) as [|c0 [|c1 [|c2 r]]]; cbn in H; try lia.
  exists (rev r), c2, c1, c0. cbn. rewrite <- !app_assoc. reflexivity.
Qed.

(** Membership in the detector's output, pattern by pattern. *)
Ltac split_patterns H :=
  repeat (apply in_app_or in H; destruct H as [H | H]);
  apply In_pushIf in H; destruct H as [H ->].

Lemma detected_pattern_profile
  (candles : list Candle) (p : Pattern) :
  In p (detectAllCandlestickPatterns candles) ->
  (0.7 <= strength p <= 0.98)%Q
  /\ config.lookup (removeWhitespace (name p)) config.scores = None
  /\ baseScoreOf (name p) = 2.0%Q.
Proof.
  intro Hin.
  destruct (Nat.lt_ge_cases (length candles) 3) as [Hlt | Hge].
  - rewrite detect_needs_three in Hin by exact Hlt. destruct Hin.
  - destruct (last_three candles Hge) as (older & c2 & c1 & c0 & ->).
    rewrite detect_recent in Hin. apply In_sortBy in Hin.
    unfold singleCandlePatterns, twoCandlePatterns, threeCandlePatterns,
      gapPatterns in Hin.
    split_patterns Hin;
      (split; [split; apply Qle_bool_iff; reflexivity
              | split; reflexivity]).
Qed.

(** Whatever the detector reports is one of its 25 named patterns: its
    strength lies between 0.7 and 0.98, and the fusion stage scores it
    from the fallback base score 2.0, because no reported name, with
    its spaces removed, is a key of [config.scores]. *)
Theorem detected_patterns_use_fallback_score
  (candles : list Candle) (p : Pattern) :
  In p (detectAllCandlestickPatterns candles) ->
  (0.7 <= strength p <= 0.98)%Q
  /\ config.lookup (removeWhitespace (name p)) config.scores = None
  /\ baseScoreOf (name p) = 2.0%Q.
Proof. exact (detected_pattern_profile candles p). Qed.

Lemma detected_patterns_use_fallback_score_witness :
  (0.7 <= strength Patterns.BullishEngulfing <= 0.98)%Q
  /\ config.lookup (removeWhitespace (name Patterns.BullishEngulfing))
       config.scores = None
  /\ baseScoreOf (name Patterns.BullishEngulfing) = 2.0%Q.
Proof.
  apply (detected_patterns_use_fallback_score
           [PatternSamples.earlierBar; PatternSamples.bearishBar;
            PatternSamples.engulfingBar]).
  vm_compute. left. reflexivity.
Defined.

(** A pattern whose name only differs from a key by its capital, under
    the key itself, does find its configured score. *)
Example configured_score_needs_the_key :
  baseScoreOf "bullish Engulfing" = 4.0%Q
  /\ baseScoreOf "Bullish Engulfing" = 2.0%Q.
Proof. split; reflexivity. Qed.

(** The bearish single-candle patterns never come alone: the test of
    'Shooting Star' is the test of 'Inverted Hammer' plus redness, and
    the test of 'Hanging Man' is the test of 'Hammer' plus redness, so
    each SELL pattern is reported together with a BUY pattern. *)
Theorem bearish_single_patterns_come_with_bullish_ones
  (candles : list Candle) :
  (In Patterns.ShootingStar (detectAllCandlestickPatterns candles) ->
   In Patterns.InvertedHammer (detectAllCandlestickPatterns candles))
  /\ (In Patterns.HangingMan (detectAllCandlestickPatterns candles) ->
      In Patterns.Hammer (detectAllCandlestickPatterns candles)).
Proof.
  destruct (Nat.lt_ge_cases (length candles) 3) as [Hlt | Hge].
  - rewrite detect_needs_three by exact Hlt. split; intros [].
  - destruct (last_three candles Hge) as (older & c2 & c1 & c0 & ->).
    rewrite detect_recent. rewrite !In_sortBy.
    split; intro Hin;
      unfold singleCandlePatterns, twoCandlePatterns,
        threeCandlePatterns, gapPatterns in Hin;
      repeat (apply in_app_or in Hin; destruct Hin as [Hin | Hin]);
      apply In_pushIf in Hin; destruct Hin as [Hc Heq];
      try (vm_compute in Heq; discriminate Heq);
      clear Heq; apply in_or_app; left; cbn [singleCandlePatterns];
      apply andb_prop in Hc; destruct Hc as [Hc _].
    + apply in_or_app; right. apply in_or_app; right.
      apply in_or_app; left. apply In_pushIf. split; [exact Hc | reflexivity].
    + apply in_or_app; right.
      apply in_or_app; left. apply In_pushIf. split; [exact Hc | reflexivity].
Qed.

Lemma bearish_single_patterns_come_with_bullish_ones_witness :
  In Patterns.ShootingStar (detectAllCandlestickPatterns StarSamples.series)
  /\ In Patterns.InvertedHammer
       (detectAllCandlestickPatterns StarSamples.series).
Proof.
  assert (H : In Patterns.ShootingStar
                (detectAllCandlestickPatterns StarSamples.series)).
  { vm_compute. left. reflexivity. }
  split; [exact H|].
  apply (bearish_single_patterns_come_with_bullish_ones StarSamples.series).
  exact H.
Defined.

(** On the candles of the extraction stage the two engulfing patterns
    are never reported.  In pixel rows a green candle has
    [close <= open] and a red one [open <= close], so the tests
    [close[N] > open[N-1]] and [open[N] < close[N-1]] place the latest
    body strictly inside the previous one, which contradicts
    [bodyHeight[N] > bodyHeight[N-1]]. *)
Theorem extraction_never_reports_engulfing
  (img : ImageData) (ca : CandleAnalysis) (p : Pattern) :
  analyzeProfessionalCandlesticks img = Ok ca ->
  In p (patterns ca) ->
  name p <> "Bullish Engulfing"%string
  /\ name p <> "Bearish Engulfing"%string.
Proof.
  intros Hok Hin.
  pose proof (extraction_shape img ca Hok) as (_ & _ & Hpat).
  rewrite Hpat in Hin.
  destruct (Nat.lt_ge_cases (length (candles ca)) 3) as [Hlt | Hge].
  - rewrite detect_needs_three in Hin by exact Hlt. destruct Hin.
  - destruct (last_three (candles ca) Hge) as (older & c2 & c1 & c0 & Hcs).
    assert (Hin0 : In c0 (candles ca))
      by (rewrite Hcs; apply in_or_app; right; cbn; auto).
    assert (Hin1 : In c1 (candles ca))
      by (rewrite Hcs; apply in_or_app; right; cbn; auto).
    pose proof (oriented_candles img ca c0 Hok Hin0) as (Hred0 & Hg0 & Hr0).
    pose proof (oriented_candles img ca c1 Hok Hin1) as (Hred1 & Hg1 & Hr1).
    destruct (extracted_candles_measured img ca Hok c0 Hin0).
    destruct (extracted_candles_measured img ca Hok c1 Hin1).
    rewrite Hcs, detect_recent in Hin. apply In_sortBy in Hin.
    unfold singleCandlePatterns, twoCandlePatterns, threeCandlePatterns,
      gapPatterns in Hin.
    split_patterns Hin;
      try (split; intro Hn; vm_compute in Hn; discriminate Hn);
      exfalso;
      repeat (apply andb_prop in Hin; destruct Hin as [Hin ?]);
      repeat match goal with
        | H : (_ >? _) = true |- _ => apply Z.gtb_lt in H
        | H : (_ <? _) = true |- _ => apply Z.ltb_lt in H
        end.
    + destruct (Hg0 Hin) as (? & ? & ?).
      destruct Hr1 as (? & ? & ?); [assumption|]. lia.
    + destruct Hr0 as (? & ? & ?); [assumption|].
      destruct (Hg1 ltac:(assumption)) as (? & ? & ?). lia.
Qed.

Example three_candle_chart_is_read :
  analyzeProfessionalCandlesticks ThreeCandleImage.chart
  = Ok ThreeCandleImage.analysis
  /\ map (fun c => (x_start c, x_end c, isGreen c))
       (candles ThreeCandleImage.analysis)
     = [(1, 3, false); (5, 7, true); (9, 11, true)]
  /\ map name (patterns ThreeCandleImage.analysis)
     = ["Bullish Marubozu"; "Gap Up"; "Gap Down"]%string.
Proof. repeat split; vm_compute; reflexivity. Qed.

Lemma extraction_never_reports_engulfing_witness :
  name Patterns.BullishMarubozu <> "Bullish Engulfing"%string
  /\ name Patterns.BullishMarubozu <> "Bearish Engulfing"%string.
Proof.
  apply (extraction_never_reports_engulfing ThreeCandleImage.chart
           ThreeCandleImage.analysis Patterns.BullishMarubozu).
  - vm_compute. reflexivity.
  - vm_compute. left. reflexivity.
Defined.

(** In pixel rows [high <= low] for every extracted candle, so the gap
    tests [c0.low > c1.high] and [c0.high < c1.low] do not exclude each
    other: when the two latest candles share more than one row both
    'Gap Up' and 'Gap Down' are reported, and one of the two is reported
    unless both candles are the same single row. *)
Theorem extraction_reports_gaps_for_overlapping_candles
  (img : ImageData) (ca : CandleAnalysis) (older : list Candle)
  (c2 c1 c0 : Candle) :
  analyzeProfessionalCandlesticks img = Ok ca ->
  candles ca = older ++ [c2; c1; c0] ->
  (high c1 < low c0 -> high c0 < low c1 ->
   In Patterns.GapUp (patterns ca) /\ In Patterns.GapDown (patterns ca))
  /\ (~ (high c0 = low c0 /\ high c1 = low c1 /\ high c0 = high c1) ->
      In Patterns.GapUp (patterns ca) \/ In Patterns.GapDown (patterns ca)).
Proof.
  intros Hok Hcs.
  pose proof (extraction_shape img ca Hok) as (_ & _ & Hpat).
  assert (H0 : high c0 <= low c0).
  { destruct (extracted_candles_measured img ca Hok c0); [|lia].
    rewrite Hcs. apply in_or_app. right. cbn. auto. }
  assert (H1 : high c1 <= low c1).
  { destruct (extracted_candles_measured img ca Hok c1); [|lia].
    rewrite Hcs. apply in_or_app. right. cbn. auto. }
  rewrite Hpat, Hcs, detect_recent. rewrite !In_sortBy.
  assert (Hup : high c1 < low c0 ->
                In Patterns.GapUp
                  (singleCandlePatterns (Some c0)
                   ++ twoCandlePatterns (Some c0) (Some c1)
                   ++ threeCandlePatterns (Some c0) (Some c1) (Some c2)
                   ++ gapPatterns (Some c0) (Some c1))).
  { intro H. do 3 (apply in_or_app; right). cbn [gapPatterns].
    apply in_or_app. left. apply In_pushIf. split; [|reflexivity].
    apply Z.gtb_lt. lia. }
  assert (Hdown : high c0 < low c1 ->
                  In Patterns.GapDown
                    (singleCandlePatterns (Some c0)
                     ++ twoCandlePatterns (Some c0) (Some c1)
                     ++ threeCandlePatterns (Some c0) (Some c1) (Some c2)
                     ++ gapPatterns (Some c0) (Some c1))).
  { intro H. do 3 (apply in_or_app; right). cbn [gapPatterns].
    apply in_or_app. right. apply In_pushIf. split; [|reflexivity].
    apply Z.ltb_lt. lia. }
  split.
  - intros Ha Hb. split; auto.
  - intro Hne.
    destruct (Z_lt_le_dec (high c1) (low c0)) as [Ha | Ha]; [left; auto|].
    destruct (Z_lt_le_dec (high c0) (low c1)) as [Hb | Hb]; [right; auto|].
    exfalso. apply Hne. lia.
Qed.

Lemma extraction_reports_gaps_for_overlapping_candles_witness :
  In Patterns.GapUp (patterns ThreeCandleImage.analysis)
  /\ In Patterns.GapDown (patterns ThreeCandleImage.analysis).
Proof.
  set (cs := candles ThreeCandleImage.analysis).
  apply (extraction_reports_gaps_for_overlapping_candles
           ThreeCandleImage.chart ThreeCandleImage.analysis []
           (nth 0 cs ImageSamples.candle) (nth 1 cs ImageSamples.candle)
           (nth 2 cs ImageSamples.candle)).
  - vm_compute. reflexivity.
  - vm_compute. reflexivity.
  - vm_compute. reflexivity.
  - vm_compute. reflexivity.
Defined.

(** ** Indicators: ranges *)

Lemma inject_Z_nonneg (z : Z) : 0 <= z -> (0 <= inject_Z z)%Q.
Proof. intro H. change 0%Q with (inject_Z 0). now rewrite <- Zle_Qle. Qed.

Lemma inject_Z_pos (z : Z) : 0 < z -> (0 < inject_Z z)%Q.
Proof. intro H. change 0%Q with (inject_Z 0). now rewrite <- Zlt_Qlt. Qed.

Lemma Qdiv_nonneg (a b : Q) : (0 <= a -> 0 < b -> 0 <= a / b)%Q.
Proof.
  intros Ha Hb. apply Qle_shift_div_l; [exact Hb|]. lra.
Qed.

(** Gains and losses accumulate non-negative amounts. *)
Lemma gainsLosses_nonneg (candles : list Candle) (period : positive) :
  0 <= fst (gainsLosses candles period)
  /\ 0 <= snd (gainsLosses candles period).
Proof.
  unfold gainsLosses.
  generalize (seq (length candles - Pos.to_nat period) (Pos.to_nat period)).
  intro idx.
  assert (G : forall (l : list nat) (g s : Z), 0 <= g -> 0 <= s ->
             let out :=
               fold_left
                 (fun (gl : Z * Z) (i : nat) =>
                    let '(gains, losses) := gl in
                    match nth_error candles i, nth_error candles (i - 1) with
                    | Some ci, Some cp =>
                        let change := close ci - close cp in
                        if change >? 0 then (gains + change, losses)
                        else (gains, losses - change)
                    | _, _ => gl
                    end) l (g, s) in
             0 <= fst out /\ 0 <= snd out).
  { induction l as [|i l IH]; intros g s Hg Hs; cbn; [auto|].
    destruct (nth_error candles i) as [ci|]; [|apply IH; assumption].
    destruct (nth_error candles (i - 1)) as [cp|]; [|apply IH; assumption].
    destruct (close ci - close cp >? 0) eqn:E.
    - apply Z.gtb_lt in E. apply IH; lia.
    - assert (close ci - close cp <= 0).
      { destruct (Z_le_gt_dec (close ci - close cp) 0) as [H | H]; [exact H|].
        apply Z.gt_lt, Z.gtb_lt in H. congruence. }
      apply IH; lia. }
  apply G; lia.
Qed.

Lemma rsi_range (candles : list Candle) (period : positive) :
  (0 <= calculateRSI candles period <= 100)%Q.
Proof.
  unfold calculateRSI.
  destruct (length candles <=? Pos.to_nat period)%nat; [split; lra|].
  pose proof (gainsLosses_nonneg candles period) as [Hg Hl].
  destruct (gainsLosses candles period) as [gains losses]. cbn in Hg, Hl.
  destruct (Qeq_bool (losses / Z.pos period) 0) eqn:E; [split; lra|].
  assert (Hp : (0 < inject_Z (Z.pos period))%Q) by (apply inject_Z_pos; lia).
  assert (Hloss : 0 < losses).
  { destruct (Z.eq_dec losses 0) as [-> | Hne]; [|lia].
    exfalso. apply Qeq_bool_neq in E. apply E. reflexivity. }
  assert (Havg : (0 < losses / Z.pos period)%Q).
  { apply Qlt_shift_div_l; [exact Hp|].
    apply inject_Z_pos in Hloss. lra. }
  assert (Hgain : (0 <= gains / Z.pos period)%Q).
  { apply Qdiv_nonneg; [apply inject_Z_nonneg; exact Hg | exact Hp]. }
  set (rs := (gains / Z.pos period / (losses / Z.pos period))%Q).
  assert (Hrs : (0 <= rs)%Q) by (apply Qdiv_nonneg; assumption).
  assert (H1 : (0 < 1 + rs)%Q) by lra.
  assert (Hq : (0 <= 100 / (1 + rs) <= 100)%Q).
  { split.
    - apply Qdiv_nonneg; [lra | exact H1].
    - apply Qle_shift_div_r; [exact H1 | nra]. }
  split; lra.
Qed.

(** The RSI is a percentage: it lies between 0 and 100 for every
    series and every period. *)
Theorem calculateRSI_between_0_and_100
  (candles : list Candle) (period : positive) :
  (0 <= calculateRSI candles period <= 100)%Q.
Proof. exact (rsi_range candles period). Qed.





Lemma trend_range (candles : list Candle) :
  (- 0.9 <= calculateTrendStrength candles <= 0.9)%Q.
Proof.
  unfold calculateTrendStrength.
  destruct (length candles <? 10)%nat eqn:E; [split; lra|].
  apply Nat.ltb_ge in E.
  set (recent := Js.lastn 10 candles).
  assert (Hlen : length recent = 10%nat) by (apply length_lastn; exact E).
  clearbody recent.
  set (pairs := combine recent (tl recent)).
  assert (Hpairs : (length pairs <= 9)%nat).
  { unfold pairs. rewrite length_combine.
    destruct recent as [|r rs]; cbn [length tl] in *; lia. }
  assert (G : forall (l : list (Candle * Candle)) (u d : Z),
             0 <= u -> 0 <= d ->
             let out :=
               fold_left
                 (fun (ud : Z * Z) (pc : Candle * Candle) =>
                    let '(up, down) := ud in
                    let '(prev, cur) := pc in
                    if close cur >? close prev then (up + 1, down)
                    else if close cur <? close prev then (up, down + 1)
                    else ud) l (u, d) in
             0 <= fst out /\ 0 <= snd out
             /\ fst out + snd out <= u + d + Z.of_nat (length l)).
  { induction l as [|[prev cur] l IH]; intros u d Hu Hd; cbn [fold_left length].
    - cbn. lia.
    - destruct (close cur >? close prev).
      + specialize (IH (u + 1) d ltac:(lia) Hd). cbn zeta in IH. lia.
      + destruct (close cur <? close prev).
        * specialize (IH u (d + 1) Hu ltac:(lia)). cbn zeta in IH. lia.
        * specialize (IH u d Hu Hd). cbn zeta in IH. lia. }
  specialize (G pairs 0 0 (Z.le_refl 0) (Z.le_refl 0)). cbn zeta in G.
  destruct (fold_left _ pairs (0, 0)) as [up down]. cbn [fst snd] in G.
  destruct G as (Hu & Hd & Hsum).
  assert (H1 : -9 <= up - down <= 9) by lia.
  destruct H1 as [Ha Hb]. rewrite Zle_Qle in Ha, Hb.
  change (inject_Z (-9)) with (-9)%Q in Ha.
  change (inject_Z 9) with 9%Q in Hb.
  split; qlin.
Qed.

(** The trend strength counts rising against falling closes among
    nine consecutive pairs: it lies between -0.9 and 0.9. *)
Theorem calculateTrendStrength_bounds (candles : list Candle) :
  (- 0.9 <= calculateTrendStrength candles <= 0.9)%Q.
Proof. exact (trend_range candles). Qed.

(** ** Donchian channels: the shape of the result *)

(** The three reports a period can make. *)
Lemma donchianPeriod_report (candles : list Candle) (period : nat) :
  let p := donchianPeriod candles period in
  (Donchian.period_signal p, Donchian.period_strength p,
   Donchian.period_position p)
  = (BUY, 0.9%Q, Donchian.upper_breakout)
  \/ (Donchian.period_signal p, Donchian.period_strength p,
      Donchian.period_position p)
     = (SELL, 0.9%Q, Donchian.lower_breakout)
  \/ (Donchian.period_signal p, Donchian.period_strength p,
      Donchian.period_position p)
     = (HOLD, 0%Q, Donchian.middle).
Proof.
  unfold donchianPeriod.
  destruct (_ >? _)%Q.
  - destruct (if (3 <=? length candles)%nat then _ else true); cbn; auto.
  - destruct (_ <? _)%Q; [|cbn; auto].
    destruct (if (3 <=? length candles)%nat then _ else true); cbn; auto.
Qed.

(** The reduction returns the first report that is not HOLD. *)
Lemma strongestSignal_first (results : list Donchian.PeriodResult) :
  (forall p, In p results ->
     (Donchian.period_signal p, Donchian.period_strength p,
      Donchian.period_position p) = (BUY, 0.9%Q, Donchian.upper_breakout)
     \/ (Donchian.period_signal p, Donchian.period_strength p,
         Donchian.period_position p)
        = (SELL, 0.9%Q, Donchian.lower_breakout)
     \/ (Donchian.period_signal p, Donchian.period_strength p,
         Donchian.period_position p) = (HOLD, 0%Q, Donchian.middle)) ->
  strongestSignal results =
  match filter (fun p => negb (Signal_eqb (Donchian.period_signal p) HOLD))
          results with
  | [] => (HOLD, 0%Q, None)
  | p :: _ => (Donchian.period_signal p, 0.9%Q,
               Some (Donchian.period_position p))
  end.
Proof.
  unfold strongestSignal.
  set (step := fun (best : Signal * Q * option Donchian.Position) current => _).
  intro Hall.
  assert (Hkeep : forall rs sg ps,
             (forall p, In p rs -> In p results) ->
             fold_left step rs (sg, 0.9%Q, ps) = (sg, 0.9%Q, ps)).
  { induction rs as [|r rs IH]; intros sg ps Hsub; cbn; [reflexivity|].
    destruct (Hall r (Hsub r (or_introl eq_refl))) as [E | [E | E]];
      injection E as _ E _; rewrite E; cbn;
      apply IH; intros p Hp; apply Hsub; now right. }
  assert (G : forall rs,
             (forall p, In p rs -> In p results) ->
             fold_left step rs (HOLD, 0%Q, None) =
             match filter
                     (fun p => negb (Signal_eqb (Donchian.period_signal p)
                                       HOLD)) rs with
             | [] => (HOLD, 0%Q, None)
             | p :: _ => (Donchian.period_signal p, 0.9%Q,
                          Some (Donchian.period_position p))
             end).
  { induction rs as [|r rs IH]; intro Hsub; cbn; [reflexivity|].
    assert (Hsub' : forall p, In p rs -> In p results)
      by (intros p Hp; apply Hsub; now right).
    destruct (Hall r (Hsub r (or_introl eq_refl))) as [E | [E | E]];
      injection E as E1 E2 E3; rewrite E1, E2; cbn; rewrite ?E1.
    - apply Hkeep. exact Hsub'.
    - apply Hkeep. exact Hsub'.
    - apply IH. exact Hsub'. }
  apply G. auto.
Qed.

Lemma donchian_shapes (candles : list Candle) :
  (20 <= length candles)%nat ->
  let r := analyzeDonchianChannels candles in
  ((Donchian.signal r, Donchian.strength r, Donchian.position r)
   = (BUY, 0.9%Q, Some Donchian.upper_breakout)
   \/ (Donchian.signal r, Donchian.strength r, Donchian.position r)
      = (SELL, 0.9%Q, Some Donchian.lower_breakout)
   \/ (Donchian.signal r, Donchian.strength r, Donchian.position r)
      = (HOLD, 0%Q, None))
  /\ (Donchian.period_signal (donchianPeriod candles 20) <> HOLD ->
      Donchian.signal r = Donchian.period_signal (donchianPeriod candles 20)).
Proof.
  intro Hlen. cbn zeta. unfold analyzeDonchianChannels.
  replace (length candles <? 20)%nat with false
    by (symmetry; apply Nat.ltb_ge; exact Hlen).
  rewrite strongestSignal_first.
  2:{ intros p Hp. apply donchianResults_are_periods in Hp.
      destruct Hp as (period & _ & _ & ->). apply donchianPeriod_report. }
  split.
  - destruct (filter _ (donchianResults candles)) as [|p ps] eqn:E; cbn;
      [auto|].
    assert (Hp : In p (filter
                         (fun p => negb (Signal_eqb
                                           (Donchian.period_signal p) HOLD))
                         (donchianResults candles)))
      by (rewrite E; now left).
    apply filter_In in Hp. destruct Hp as [Hp Hsig].
    apply donchianResults_are_periods in Hp.
    destruct Hp as (period & _ & _ & ->).
    destruct (donchianPeriod_report candles period) as [H | [H | H]];
      injection H as H1 H2 H3; rewrite H1, H3; auto.
    rewrite H1 in Hsig. discriminate Hsig.
  - intro Hne. unfold donchianResults, config.donchian.periods.
    cbn [flat_map].
    replace (20 <=? length candles)%nat with true
      by (symmetry; apply Nat.leb_le; exact Hlen).
    cbn [app filter].
    destruct (Donchian.period_signal (donchianPeriod candles 20)) eqn:E20;
      cbn; [exact E20 | exact E20 | congruence].
Qed.

(** For a series of at least 20 candles the Donchian result is one of
    three shapes: BUY with strength 0.9 at 'upper_breakout', SELL with
    strength 0.9 at 'lower_breakout', or HOLD with strength 0 and no
    position at all (the position 'middle' is only reported for a
    series that is too short).  The 20-candle channel comes first: when
    it reports a breakout, that is the result. *)
Theorem donchian_result_shapes (candles : list Candle) :
  (20 <= length candles)%nat ->
  let r := analyzeDonchianChannels candles in
  ((Donchian.signal r, Donchian.strength r, Donchian.position r)
   = (BUY, 0.9%Q, Some Donchian.upper_breakout)
   \/ (Donchian.signal r, Donchian.strength r, Donchian.position r)
      = (SELL, 0.9%Q, Some Donchian.lower_breakout)
   \/ (Donchian.signal r, Donchian.strength r, Donchian.position r)
      = (HOLD, 0%Q, None))
  /\ (Donchian.period_signal (donchianPeriod candles 20) <> HOLD ->
      Donchian.signal r = Donchian.period_signal (donchianPeriod candles 20)).
Proof. exact (donchian_shapes candles). Qed.

Lemma donchian_result_shapes_witness :
  (Donchian.signal (analyzeDonchianChannels DonchianSamples.spike),
   Donchian.strength (analyzeDonchianChannels DonchianSamples.spike),
   Donchian.position (analyzeDonchianChannels DonchianSamples.spike))
  = (BUY, 0.9%Q, Some Donchian.upper_breakout)
  \/ (Donchian.signal (analyzeDonchianChannels DonchianSamples.spike),
      Donchian.strength (analyzeDonchianChannels DonchianSamples.spike),
      Donchian.position (analyzeDonchianChannels DonchianSamples.spike))
     = (SELL, 0.9%Q, Some Donchian.lower_breakout)
  \/ (Donchian.signal (analyzeDonchianChannels DonchianSamples.spike),
      Donchian.strength (analyzeDonchianChannels DonchianSamples.spike),
      Donchian.position (analyzeDonchianChannels DonchianSamples.spike))
     = (HOLD, 0%Q, None).
Proof.
  apply (donchian_result_shapes DonchianSamples.spike).
  vm_compute. lia.
Defined.

(** ** Moving averages and MACD *)

Lemma calculateSMA_defined (candles : list Candle) (period : positive)
  (v : Q) :
  calculateSMA candles period = Some v ->
  (Pos.to_nat period <= length candles)%nat.
Proof.
  unfold calculateSMA.
  destruct (length candles <? Pos.to_nat period)%nat eqn:E; [discriminate|].
  intros _. apply Nat.ltb_ge in E. exact E.
Qed.

Lemma length_dropLast {A : Type} (n : nat) (l : list A) :
  length (Js.dropLast n l) = (length l - n)%nat.
Proof. unfold Js.dropLast. rewrite length_firstn. lia. Qed.

Lemma ma_profile (candles : list Candle) :
  let r := analyzeMovingAverages candles in
  ((MA.signal r = HOLD /\ MA.strength r = 0%Q)
   \/ (MA.signal r <> HOLD
       /\ (MA.strength r = 0.7%Q \/ MA.strength r = 0.85%Q)
       /\ (51 <= length candles)%nat))
  /\ (length candles = 50%nat ->
      MA.signal r = HOLD /\ MA.indicators r <> None).
Proof.
  cbn zeta.
  assert (Hprev : forall v, calculateSMA (Js.dropLast 1 candles) 50 = Some v ->
                            (51 <= length candles)%nat).
  { intros v Hv. apply calculateSMA_defined in Hv.
    rewrite length_dropLast in Hv. lia. }
  unfold analyzeMovingAverages.
  destruct (length candles <? 50)%nat eqn:E50.
  { apply Nat.ltb_lt in E50. cbn. split; [auto | lia]. }
  destruct (calculateSMA candles 9) as [s9|];
    [|cbn; split; [auto | intros _; split; [reflexivity | discriminate]]].
  destruct (calculateSMA candles 20) as [s20|];
    [|cbn; split; [auto | intros _; split; [reflexivity | discriminate]]].
  destruct (calculateSMA candles 50) as [s50|];
    [|cbn; split; [auto | intros _; split; [reflexivity | discriminate]]].
  destruct (Js.truthy (Some s20) && Js.truthy (Some s50) && Js.truthy (Some s9));
    [|cbn; split; [auto | intros _; split; [reflexivity | discriminate]]].
  destruct (0 <? length (Js.dropLast 1 (Js.lastn 2 candles)))%nat;
    [|cbn; split; [auto | intros _; split; [reflexivity | discriminate]]].
  destruct (calculateSMA (Js.dropLast 1 candles) 9) as [p9|];
    [|cbn; split; [auto | intros _; split; [reflexivity | discriminate]]].
  destruct (calculateSMA (Js.dropLast 1 candles) 20) as [p20|];
    [|cbn; split; [auto | intros _; split; [reflexivity | discriminate]]].
  destruct (calculateSMA (Js.dropLast 1 candles) 50) as [p50|] eqn:Ep50;
    [|cbn; split; [auto | intros _; split; [reflexivity | discriminate]]].
  specialize (Hprev p50 eq_refl).
  destruct (Js.truthy (Some p20) && Js.truthy (Some p50) && Js.truthy (Some p9));
    [|cbn; split; [auto | lia]].
  destruct ((s20 >? s50) && (p20 <=? p50))%Q;
    [cbn; split; [right; repeat split; [discriminate | auto | exact Hprev]
                 | lia]|].
  destruct ((s20 <? s50) && (p20 >=? p50))%Q;
    [cbn; split; [right; repeat split; [discriminate | auto | exact Hprev]
                 | lia]|].
  destruct ((s9 >? s20) && (s20 >? s50))%Q;
    [cbn; split; [right; repeat split; [discriminate | auto | exact Hprev]
                 | lia]|].
  destruct ((s9 <? s20) && (s20 <? s50))%Q;
    [cbn; split; [right; repeat split; [discriminate | auto | exact Hprev]
                 | lia]|].
  cbn. split; [auto | lia].
Qed.

(** A moving-average signal compares today's averages with
    yesterday's, and yesterday's 50-candle average needs 50 candles
    before the latest one: the signal is HOLD with strength 0 unless
    there are at least 51 candles, and otherwise its strength is 0.7
    (alignment) or 0.85 (cross).  With exactly 50 candles the averages
    are computed and returned, but the signal is HOLD. *)
Theorem moving_average_signal_needs_51_candles (candles : list Candle) :
  let r := analyzeMovingAverages candles in
  ((MA.signal r = HOLD /\ MA.strength r = 0%Q)
   \/ (MA.signal r <> HOLD
       /\ (MA.strength r = 0.7%Q \/ MA.strength r = 0.85%Q)
       /\ (51 <= length candles)%nat))
  /\ (length candles = 50%nat ->
      MA.signal r = HOLD /\ MA.indicators r <> None).
Proof. exact (ma_profile candles). Qed.

Lemma moving_average_signal_needs_51_candles_witness :
  MA.signal (analyzeMovingAverages (MaSamples.rising 50)) = HOLD
  /\ MA.indicators (analyzeMovingAverages (MaSamples.rising 50)) <> None.
Proof.
  apply (moving_average_signal_needs_51_candles (MaSamples.rising 50)).
  vm_compute. reflexivity.
Defined.

Example moving_average_samples :
  MA.signal (analyzeMovingAverages (MaSamples.rising 50)) = HOLD
  /\ MA.signal (analyzeMovingAverages (MaSamples.rising 51)) = BUY
  /\ MA.strength (analyzeMovingAverages (MaSamples.rising 51)) = 0.7%Q.
Proof. repeat split; vm_compute; reflexivity. Qed.

Lemma Qmin_pos_unit (x : Q) : (0 < x -> 0 < Qmin x 1 <= 1)%Q.
Proof.
  intro H. split; [apply Q.min_glb_lt; lra | apply Q.le_min_r].
Qed.

Lemma Qmin_nonneg_unit (x : Q) : (0 <= x -> 0 <= Qmin x 1 <= 1)%Q.
Proof.
  intro H. split; [apply Q.min_glb; lra | apply Q.le_min_r].
Qed.

Lemma macd_profile (candles : list Candle) :
  let r := analyzeMACD candles in
  match MACD.signal r with
  | HOLD => MACD.strength r = 0%Q
  | BUY =>
      (0 < MACD.strength r <= 1)%Q /\ (26 <= length candles)%nat
      /\ exists i, MACD.indicators r = Some i
                   /\ (0 < MACD.macdLine i)%Q /\ (0 < MACD.histogram i)%Q
  | SELL =>
      (0 < MACD.strength r <= 1)%Q /\ (26 <= length candles)%nat
      /\ exists i, MACD.indicators r = Some i
                   /\ (MACD.macdLine i < 0)%Q /\ (MACD.histogram i < 0)%Q
  end.
Proof.
  cbn zeta. unfold analyzeMACD.
  destruct (length candles <? 26)%nat eqn:Elen; [reflexivity|].
  apply Nat.ltb_ge in Elen.
  destruct (macdOf candles) as [macdLine|]; [|reflexivity].
  set (signalLine := if (0 <? length _)%nat then _ else 0%Q).
  set (histogram := (macdLine - signalLine)%Q).
  set (prevHistogram :=
         if (0 <? length (map _ _))%nat then _ else 0%Q).
  clearbody histogram prevHistogram.
  assert (Hs : forall h : Q, ~ (h == 0)%Q -> (0 < Qmin (Qabs h * 10) 1 <= 1)%Q).
  { intros h Hh. apply Qmin_pos_unit.
    assert (0 < Qabs h)%Q; [|lra].
    destruct (Qlt_le_dec 0 (Qabs h)) as [H | H]; [exact H|].
    exfalso. apply Hh. apply Qabs_Qle_condition in H.
    destruct H as [H1 H2]. apply Qle_antisym; lra. }
  destruct (3 <=? length candles)%nat;
    destruct ((macdLine >? 0) && (histogram >? 0))%Q eqn:Ebuy;
    try (destruct ((macdLine <? 0) && (histogram <? 0))%Q eqn:Esell);
    cbn; rewrite ?andb_false_r, ?andb_true_r; cbn;
    repeat match goal with
      | |- context [if ?c then _ else _] => destruct c
      end;
    cbn; try reflexivity;
    try (apply andb_prop in Ebuy; destruct Ebuy as [Hm Hh];
         apply gtb_lt in Hm, Hh);
    try (apply andb_prop in Esell; destruct Esell as [Hm Hh];
         apply ltb_lt in Hm, Hh);
    (assert (Hne : ~ (histogram == 0)%Q) by (intro Hz; rewrite Hz in Hh; lra));
    pose proof (Hs histogram Hne) as Hb;
    (split; [ try exact Hb; apply Qmin_pos_unit; lra
            | split; [exact Elen | eexists; split; [reflexivity | split; assumption]]]).
Qed.

(** The MACD result: HOLD comes with strength 0; BUY comes with a
    positive MACD line and histogram, SELL with both negative, and in
    both cases the strength is positive and at most 1 and the series
    has at least 26 candles. *)
Theorem macd_signal_and_strength (candles : list Candle) :
  let r := analyzeMACD candles in
  match MACD.signal r with
  | HOLD => MACD.strength r = 0%Q
  | BUY =>
      (0 < MACD.strength r <= 1)%Q /\ (26 <= length candles)%nat
      /\ exists i, MACD.indicators r = Some i
                   /\ (0 < MACD.macdLine i)%Q /\ (0 < MACD.histogram i)%Q
  | SELL =>
      (0 < MACD.strength r <= 1)%Q /\ (26 <= length candles)%nat
      /\ exists i, MACD.indicators r = Some i
                   /\ (MACD.macdLine i < 0)%Q /\ (MACD.histogram i < 0)%Q
  end.
Proof. exact (macd_profile candles). Qed.

(** ** Quantitative analysis *)

Lemma quant_ranges
  (Math_sqrt : Q -> Q) (candles : list Candle) (r : Quant.Result) :
  performQuantitativeAnalysis Math_sqrt candles = Some r ->
  (0 <= Quant.strength r <= 0.9)%Q
  /\ (Quant.signal r = HOLD -> (Quant.strength r == 0)%Q)
  /\ (0 <= Quant.rsi (Quant.indicators r) <= 100)%Q
  /\ (- 0.9 <= Quant.trendStrength (Quant.indicators r) <= 0.9)%Q
  /\ (14 <= length candles)%nat.
Proof.
  unfold performQuantitativeAnalysis.
  destruct (length candles <? 14)%nat eqn:Elen; [discriminate|].
  apply Nat.ltb_ge in Elen.
  pose proof (rsi_range candles 14) as Hrsi.
  pose proof (trend_range candles) as Htrend.
  set (rsi := calculateRSI candles 14) in *.
  set (a := Qmin ((rsi - 75) / 25) 1).
  set (b := Qmin ((25 - rsi) / 25) 1).
  assert (Ha : (75 < rsi -> 0 < a <= 1)%Q)
    by (intro H; apply Qmin_pos_unit; qlin).
  assert (Hb : (rsi < 25 -> 0 < b <= 1)%Q)
    by (intro H; apply Qmin_pos_unit; qlin).
  clearbody a b rsi.
  set (vol := calculateVolatility Math_sqrt candles 14). clearbody vol.
  assert (Hstep : forall (sig : Signal) (s : Q),
             (0 <= s <= 0.9)%Q -> (sig = HOLD -> (s == 0)%Q) ->
             forall (sig' : Signal) (s' : Q),
               (sig', s') =
               match calculateSMA candles 9, calculateSMA candles 20,
                     calculateSMA candles 50 with
               | Some s9, Some s20, Some s50 =>
                   if Js.truthy (calculateSMA candles 9)
                      && Js.truthy (calculateSMA candles 20)
                      && Js.truthy (calculateSMA candles 50) then
                     let maDiff := ((s9 - s20) / s20)%Q in
                     if (maDiff >? 0.005)%Q then
                       let newStrength := (Qmin (maDiff * 100) 1 * 0.7)%Q in
                       if (newStrength >? s)%Q
                       then (BUY, newStrength) else (sig, s)
                     else if (maDiff <? - 0.005)%Q then
                       let newStrength :=
                         (Qmin (Qabs maDiff * 100) 1 * 0.7)%Q in
                       if (newStrength >? s)%Q
                       then (SELL, newStrength) else (sig, s)
                     else (sig, s)
                   else (sig, s)
               | _, _, _ => (sig, s)
               end ->
               (0 <= s' <= 0.9)%Q /\ (sig' = HOLD -> (s' == 0)%Q)).
  { intros sig s Hs Hhold sig' s'.
    destruct (calculateSMA candles 9) as [s9|];
      [|intros [= -> ->]; auto].
    destruct (calculateSMA candles 20) as [s20|];
      [|intros [= -> ->]; auto].
    destruct (calculateSMA candles 50) as [s50|];
      [|intros [= -> ->]; auto].
    destruct (_ && _); [|intros [= -> ->]; auto].
    cbn zeta. set (maDiff := ((s9 - s20) / s20)%Q). clearbody maDiff.
    pose proof (Q.le_min_r (maDiff * 100) 1) as Hc.
    pose proof (Q.le_min_r (Qabs maDiff * 100) 1) as Hd.
    destruct (maDiff >? 0.005)%Q.
    - destruct (_ >? s)%Q eqn:E; intros [= -> ->]; [|auto].
      apply gtb_lt in E. split; [lra | discriminate].
    - destruct (maDiff <? - 0.005)%Q; [|intros [= -> ->]; auto].
      destruct (_ >? s)%Q eqn:E; intros [= -> ->]; [|auto].
      apply gtb_lt in E. split; [lra | discriminate]. }
  assert (H0 : forall sig s,
             (sig, s) =
             (if (rsi >? 75)%Q then (SELL, (a * 0.9)%Q)
              else if (rsi <? 25)%Q then (BUY, (b * 0.9)%Q)
              else (HOLD, 0%Q)) ->
             (0 <= s <= 0.9)%Q /\ (sig = HOLD -> (s == 0)%Q)).
  { intros sig s.
    destruct (rsi >? 75)%Q eqn:E1.
    - apply gtb_lt in E1. intros [= -> ->]. split; [lra | discriminate].
    - destruct (rsi <? 25)%Q eqn:E2; intros [= -> ->].
      + apply ltb_lt in E2. split; [lra | discriminate].
      + split; [lra | reflexivity]. }
  destruct (if (rsi >? 75)%Q then _ else _) as [sig0 s0] eqn:E0.
  destruct (H0 sig0 s0 eq_refl) as [Hs0 Hh0]. clear H0 E0.
  match goal with
  | |- context [let '(signal, strength) := ?m in _] =>
      destruct m as [sig1 s1] eqn:E1
  end.
  destruct (Hstep sig0 s0 Hs0 Hh0 sig1 s1 (eq_sym E1)) as [Hs1 Hh1].
  intros [= <-]. cbn.
  destruct (Js.num_gtb vol 0.03); repeat split; try lra; try assumption.
  intro H. rewrite (Hh1 H). reflexivity.
Qed.

(** When the quantitative module answers, its strength lies between 0
    and 0.9 and is 0 for HOLD, the RSI it reports lies between 0 and
    100 and the trend strength between -0.9 and 0.9, whatever
    [Math.sqrt] returns. *)
Theorem quantitative_result_ranges
  (Math_sqrt : Q -> Q) (candles : list Candle) (r : Quant.Result) :
  performQuantitativeAnalysis Math_sqrt candles = Some r ->
  (0 <= Quant.strength r <= 0.9)%Q
  /\ (Quant.signal r = HOLD -> (Quant.strength r == 0)%Q)
  /\ (0 <= Quant.rsi (Quant.indicators r) <= 100)%Q
  /\ (- 0.9 <= Quant.trendStrength (Quant.indicators r) <= 0.9)%Q
  /\ (14 <= length candles)%nat.
Proof. exact (quant_ranges Math_sqrt candles r). Qed.

Lemma quantitative_result_ranges_witness :
  match performQuantitativeAnalysis (fun q => q) (MaSamples.rising 30) with
  | Some r => (0 <= Quant.strength r <= 0.9)%Q
  | None => False
  end.
Proof.
  destruct (performQuantitativeAnalysis (fun q => q) (MaSamples.rising 30))
    as [r|] eqn:E.
  - apply (quantitative_result_ranges (fun q => q) (MaSamples.rising 30) r).
    exact E.
  - vm_compute in E. discriminate E.
Defined.

(** ** Support and resistance *)

Lemma nat_ratio_unit (i n : nat) :
  (i < n)%nat -> (0 <= nat_ratio i n <= 1)%Q.
Proof.
  intro H. unfold nat_ratio. apply ratio_unit_interval; lia.
Qed.

Lemma collectPoints_weights (candles : list Candle) (p : SR.Point) :
  In p (collectPoints candles) -> (1 <= SR.weight p <= 3)%Q.
Proof.
  unfold collectPoints. intro H. apply in_flat_map in H.
  destruct H as ([i c] & Hic & Hp).
  apply in_combine_l in Hic. apply in_seq in Hic.
  pose proof (nat_ratio_unit i (length candles) ltac:(lia)) as Hr.
  destruct Hp as [<- | [<- | []]]; cbn; lra.
Qed.

Lemma startCluster_good (p : SR.Point) :
  (1 <= SR.weight p <= 3)%Q -> GoodCluster (startCluster p).
Proof.
  intro H. unfold GoodCluster, startCluster. cbn.
  change (inject_Z 1) with 1%Q. repeat split; try lia; lra.
Qed.

Lemma extendCluster_good (cl : SR.Cluster) (p : SR.Point) :
  GoodCluster cl -> (1 <= SR.weight p <= 3)%Q ->
  GoodCluster (extendCluster cl p).
Proof.
  intros (Ht & Hlo & Hhi) Hw. unfold GoodCluster, extendCluster. cbn.
  rewrite inject_Z_plus. change (inject_Z 1) with 1%Q.
  repeat split; try lia; lra.
Qed.

Lemma flushCluster_good (lv : list SR.Level) (cl : SR.Cluster) :
  Forall GoodLevel lv -> GoodCluster cl ->
  Forall GoodLevel (flushCluster lv cl).
Proof.
  intros Hlv (Ht & Hlo & Hhi). unfold flushCluster.
  destruct (SR.touches cl >=? config.supportResistance.minTouches) eqn:E;
    [|exact Hlv].
  apply Forall_app. split; [exact Hlv|]. constructor; [|constructor].
  unfold config.supportResistance.minTouches in E. apply Z.geb_le in E.
  unfold GoodLevel. cbn. split; [exact E|].
  set (t := inject_Z (SR.touches cl)) in *.
  assert (Ht2 : (2 <= t)%Q).
  { unfold t. change 2%Q with (inject_Z 2). rewrite <- Zle_Qle. exact E. }
  set (w := SR.weightedSum cl) in *. clearbody t w.
  assert (Hm : (0 < Qmin (t / 6) 1 <= 1)%Q) by (apply Qmin_pos_unit; qlin).
  assert (Havg : (1 <= w / t <= 3)%Q).
  { split.
    - apply Qle_shift_div_l; lra.
    - apply Qle_shift_div_r; lra. }
  set (m := Qmin (t / 6) 1) in *. set (avg := (w / t)%Q) in *.
  clearbody m avg.
  unfold Qdiv. change (/ 2)%Q with (1 # 2)%Q. split; nra.
Qed.

Lemma clusterLevels_good (imageHeight : Z) (n : nat)
  (points : list SR.Point) :
  (forall p, In p points -> (1 <= SR.weight p <= 3)%Q) ->
  Forall GoodLevel (clusterLevels imageHeight n points).
Proof.
  unfold clusterLevels. destruct points as [|p0 rest]; [constructor|].
  intro Hw.
  assert (G : forall (l : list SR.Point) (lv : list SR.Level)
                     (cl : SR.Cluster),
             (forall p, In p l -> (1 <= SR.weight p <= 3)%Q) ->
             Forall GoodLevel lv -> GoodCluster cl ->
             Forall GoodLevel
               (fst (fold_left (clusterStep imageHeight n) l (lv, cl)))
             /\ GoodCluster
                  (snd (fold_left (clusterStep imageHeight n) l (lv, cl)))).
  { induction l as [|p l IH]; intros lv cl Hl Hlv Hcl; cbn [fold_left];
      [cbn; auto|].
    assert (Hp : (1 <= SR.weight p <= 3)%Q) by (apply Hl; now left).
    assert (Hl' : forall q, In q l -> (1 <= SR.weight q <= 3)%Q)
      by (intros q Hq; apply Hl; now right).
    assert (Hst : Forall GoodLevel (fst (clusterStep imageHeight n (lv, cl) p))
                  /\ GoodCluster (snd (clusterStep imageHeight n (lv, cl) p))).
    { unfold clusterStep. destruct (_ <? _)%Q; cbn; split;
        auto using extendCluster_good, flushCluster_good, startCluster_good. }
    destruct (clusterStep imageHeight n (lv, cl) p) as [lv' cl'].
    cbn in Hst. destruct Hst. apply IH; assumption. }
  destruct (G rest [] (startCluster p0))
    as [Hlv Hcl]; [intros p Hp; apply Hw; now right | constructor
                  | apply startCluster_good; apply Hw; now left|].
  destruct (fold_left _ rest _) as [lv cl]. cbn in Hlv, Hcl.
  apply flushCluster_good; assumption.
Qed.

Lemma validateLevels_subset (imageHeight : Z) (lvls : list SR.Level)
  (l : SR.Level) :
  In l (validateLevels imageHeight lvls) -> In l lvls.
Proof.
  unfold validateLevels. intro H. apply in_map_iff in H.
  destruct H as ([i l'] & <- & H). apply filter_In in H.
  destruct H as [H _]. apply in_combine_r in H. exact H.
Qed.

Lemma srLevels_good (candles : list Candle) (imageHeight : Z) :
  Forall GoodLevel (srLevels candles imageHeight).
Proof.
  apply Forall_forall. intros l Hl. unfold srLevels in Hl.
  apply validateLevels_subset in Hl.
  pose proof (clusterLevels_good imageHeight (length candles)
                (Js.sortBy (fun a b => SR.y a <=? SR.y b)
                   (collectPoints candles))) as H.
  rewrite Forall_forall in H. apply H; [|exact Hl].
  intros p Hp. apply In_sortBy in Hp.
  apply collectPoints_weights with (candles := candles). exact Hp.
Qed.

(** The parts of the result for a series of at least eight candles. *)
Lemma analyzeSupportResistance_parts (candles : list Candle)
  (imageHeight : Z) :
  (8 <= length candles)%nat ->
  let r := analyzeSupportResistance candles imageHeight in
  SR.levels r = Some (srLevels candles imageHeight)
  /\ SR.supports r
     = Js.sortBy (fun a b => SR.level a <=? SR.level b)
         (filter (fun l => SR.level l >? latestClose candles)
            (srLevels candles imageHeight))
  /\ SR.resistances r
     = Js.sortBy (fun a b => SR.level b <=? SR.level a)
         (filter (fun l => SR.level l <? latestClose candles)
            (srLevels candles imageHeight))
  /\ ((SR.signal r = HOLD /\ SR.strength r = 0%Q)
      \/ (exists l, nth_error (SR.resistances r) 0 = Some l
                    /\ SR.signal r = SELL
                    /\ SR.strength r = Qmin (SR.level_strength l * 1.2) 1)
      \/ (exists l, nth_error (SR.supports r) 0 = Some l
                    /\ SR.signal r = BUY
                    /\ SR.strength r = Qmin (SR.level_strength l * 1.2) 1)).
Proof.
  intro Hlen. cbn zeta. unfold analyzeSupportResistance.
  replace (length candles <? 8)%nat with false
    by (symmetry; apply Nat.ltb_ge; exact Hlen).
  fold (latestClose candles). fold (srLevels candles imageHeight).
  set (supports := Js.sortBy (fun a b => SR.level a <=? SR.level b) _).
  set (resistances := Js.sortBy (fun a b => SR.level b <=? SR.level a) _).
  cbv zeta.
  destruct (nth_error resistances 0) as [lr|] eqn:Er;
    destruct (nth_error supports 0) as [ls|] eqn:Es;
    cbv beta iota; cbn [andb];
    repeat match goal with
      | |- context [if ?c then (_, _) else _] => destruct c
      end;
    cbv beta iota;
    cbn [SR.levels SR.supports SR.resistances SR.signal SR.strength];
    rewrite ?Er, ?Es; repeat split; eauto 10.
Qed.

Lemma StronglySorted_impl {A : Type} (R R' : A -> A -> Prop)
  (l : list A) :
  (forall a b, R a b -> R' a b) ->
  StronglySorted R l -> StronglySorted R' l.
Proof.
  intros Himp H. induction H as [|x xs Hx IH Hall]; constructor;
    [exact IH|].
  rewrite Forall_forall in *. auto.
Qed.

Lemma Zleb_total (a b : Z) : (a <=? b) = false -> (b <=? a) = true.
Proof. intro H. apply Z.leb_gt in H. apply Z.leb_le. lia. Qed.

Lemma Zleb_trans (a b c : Z) :
  (a <=? b) = true -> (b <=? c) = true -> (a <=? c) = true.
Proof. rewrite !Z.leb_le. lia. Qed.

Lemma sr_ranges
  (candles : list Candle) (imageHeight : Z) :
  let r := analyzeSupportResistance candles imageHeight in
  (0 <= SR.strength r <= 1)%Q
  /\ (SR.signal r = HOLD <-> SR.strength r = 0%Q)
  /\ (forall l, In l (SR.supports r) -> latestClose candles < SR.level l)
  /\ (forall l, In l (SR.resistances r) -> SR.level l < latestClose candles)
  /\ StronglySorted (fun a b => SR.level a <= SR.level b) (SR.supports r)
  /\ StronglySorted (fun a b => SR.level b <= SR.level a) (SR.resistances r)
  /\ (forall l, In l (SR.supports r ++ SR.resistances r) ->
                2 <= SR.level_touches l
                /\ (0 < SR.level_strength l <= 1.5)%Q).
Proof.
  cbn zeta.
  destruct (Nat.lt_ge_cases (length candles) 8) as [Hlt | Hge].
  { unfold analyzeSupportResistance. apply Nat.ltb_lt in Hlt. rewrite Hlt.
    cbn. repeat split; try lra; try constructor; intros l []. }
  destruct (analyzeSupportResistance_parts candles imageHeight Hge)
    as (_ & Hsup & Hres & Hsig).
  pose proof (srLevels_good candles imageHeight) as Hgood.
  rewrite Forall_forall in Hgood.
  assert (Hs : forall l, In l (SR.supports
                                 (analyzeSupportResistance candles imageHeight)) ->
                         latestClose candles < SR.level l
                         /\ GoodLevel l).
  { intros l Hl. rewrite Hsup in Hl. apply In_sortBy, filter_In in Hl.
    destruct Hl as [Hin Hgt]. apply Z.gtb_lt in Hgt. auto. }
  assert (Hr : forall l, In l (SR.resistances
                                 (analyzeSupportResistance candles imageHeight)) ->
                         SR.level l < latestClose candles
                         /\ GoodLevel l).
  { intros l Hl. rewrite Hres in Hl. apply In_sortBy, filter_In in Hl.
    destruct Hl as [Hin Hgt]. apply Z.ltb_lt in Hgt. auto. }
  assert (Hstr : forall l, GoodLevel l ->
                           (0 < Qmin (SR.level_strength l * 1.2) 1 <= 1)%Q).
  { intros l (_ & Hl). apply Qmin_pos_unit. lra. }
  assert (Hnz : forall q : Q, (0 < q)%Q -> q <> 0%Q).
  { intros q Hq ->. lra. }
  split; [|split; [|split; [|split; [|split; [|split]]]]].
  - destruct Hsig as [[_ ->] | [(l & Hn & _ & ->) | (l & Hn & _ & ->)]];
      [lra | |];
      apply nth_error_In in Hn;
      [destruct (Hr l Hn) as [_ Hg] | destruct (Hs l Hn) as [_ Hg]];
      pose proof (Hstr l Hg); lra.
  - destruct Hsig as [[-> ->] | [(l & Hn & -> & ->) | (l & Hn & -> & ->)]];
      [split; reflexivity | |];
      apply nth_error_In in Hn;
      [destruct (Hr l Hn) as [_ Hg] | destruct (Hs l Hn) as [_ Hg]];
      pose proof (Hstr l Hg) as [Hpos _];
      (split; [discriminate | intro H0; exfalso; exact (Hnz _ Hpos H0)]).
  - intros l Hl. apply Hs. exact Hl.
  - intros l Hl. apply Hr. exact Hl.
  - rewrite Hsup.
    assert (H : StronglySorted
                  (fun a b => (SR.level a <=? SR.level b) = true)
                  (Js.sortBy (fun a b => SR.level a <=? SR.level b)
                     (filter (fun l => SR.level l >? latestClose candles)
                        (srLevels candles imageHeight)))).
    { apply sortBy_sorted.
      - intros a b. apply Zleb_total.
      - intros a b c. apply Zleb_trans. }
    revert H. apply StronglySorted_impl. intros a b. apply Z.leb_le.
  - rewrite Hres.
    assert (H : StronglySorted
                  (fun a b => (SR.level b <=? SR.level a) = true)
                  (Js.sortBy (fun a b => SR.level b <=? SR.level a)
                     (filter (fun l => SR.level l <? latestClose candles)
                        (srLevels candles imageHeight)))).
    { apply sortBy_sorted.
      - intros a b. apply Zleb_total.
      - intros a b c H1 H2.
        apply Zleb_trans with (b := SR.level b); assumption. }
    revert H. apply StronglySorted_impl. intros a b. apply Z.leb_le.
  - intros l Hl. apply in_app_or in Hl.
    destruct Hl as [Hl | Hl]; [apply Hs in Hl | apply Hr in Hl];
      destruct Hl as [_ Hg]; exact Hg.
Qed.

(** The support/resistance result.  Its strength lies between 0 and 1
    and is 0 exactly for HOLD.  Every support lies strictly above the
    latest close (a larger pixel row) and every resistance strictly
    below; supports are listed by increasing row and resistances by
    decreasing row, so the first of each list is the nearest.  Every
    level has at least [minTouches] = 2 touches and a positive
    strength, which can exceed 1 but not 1.5. *)
Theorem support_resistance_result_ranges
  (candles : list Candle) (imageHeight : Z) :
  let r := analyzeSupportResistance candles imageHeight in
  (0 <= SR.strength r <= 1)%Q
  /\ (SR.signal r = HOLD <-> SR.strength r = 0%Q)
  /\ (forall l, In l (SR.supports r) -> latestClose candles < SR.level l)
  /\ (forall l, In l (SR.resistances r) -> SR.level l < latestClose candles)
  /\ StronglySorted (fun a b => SR.level a <= SR.level b) (SR.supports r)
  /\ StronglySorted (fun a b => SR.level b <= SR.level a) (SR.resistances r)
  /\ (forall l, In l (SR.supports r ++ SR.resistances r) ->
                2 <= SR.level_touches l
                /\ (0 < SR.level_strength l <= 1.5)%Q).
Proof. exact (sr_ranges candles imageHeight). Qed.

(** A level touched by the eight latest candles: its strength is
    9/8, above 1, and the SELL signal it gives has strength 1. *)
Example support_resistance_sample :
  let r := analyzeSupportResistance SrSamples.series 500 in
  SR.signal r = SELL /\ (SR.strength r == 1)%Q
  /\ map (fun l => (SR.level l, SR.level_touches l))
       (SR.resistances r ++ SR.supports r)
     = [(10, 8); (20, 8); (50, 4); (60, 4)]
  /\ exists l, In l (SR.resistances r) /\ (SR.level_strength l == 9 # 8)%Q.
Proof.
  cbn zeta. split; [vm_compute; reflexivity|].
  split; [vm_compute; reflexivity|].
  split; [vm_compute; reflexivity|].
  eexists. split; [vm_compute; left; reflexivity | vm_compute; reflexivity].
Qed.

(** ** Signal fusion: scores *)

Lemma config_scores_positive (key : string) (v : Q) :
  config.lookup key config.scores = Some v -> (0 < v)%Q.
Proof.
  unfold config.scores. cbn [config.lookup].
  repeat (destruct (String.eqb key _);
          [intros [= <-]; reflexivity|]).
  discriminate.
Qed.

Lemma baseScoreOf_positive (patternName : string) :
  (0 < baseScoreOf patternName)%Q.
Proof.
  unfold baseScoreOf.
  destruct (config.lookup _ config.scores) as [v|] eqn:E; [|reflexivity].
  apply config_scores_positive in E.
  destruct (Qeq_bool v 0); [reflexivity | exact E].
Qed.

Lemma scorePattern_nonneg (t : Tally) (p : Pattern) :
  (0 <= buyScore t)%Q -> (0 <= sellScore t)%Q -> (0 <= strength p)%Q ->
  (0 <= buyScore (scorePattern t p))%Q
  /\ (0 <= sellScore (scorePattern t p))%Q.
Proof.
  intros Hb Hs Hp. unfold scorePattern.
  pose proof (baseScoreOf_positive (name p)) as Hbase.
  destruct (signal p); cbn; split; try assumption; nra.
Qed.

Lemma scoreIndicator_nonneg (t : Tally) (sig : Signal) (buy sell : Q)
  (buyText sellText : Q -> list Fragment) :
  (0 <= buyScore t)%Q -> (0 <= sellScore t)%Q ->
  (0 <= buy)%Q -> (0 <= sell)%Q ->
  (0 <= buyScore (scoreIndicator t sig buy sell buyText sellText))%Q
  /\ (0 <= sellScore (scoreIndicator t sig buy sell buyText sellText))%Q.
Proof.
  intros Hb Hs Hbuy Hsell. unfold scoreIndicator.
  destruct sig; cbn; split; try assumption; lra.
Qed.

(** Non-negative strengths give non-negative scores. *)
Lemma scoreSignals_nonneg (ca : CandleAnalysis) (ta : TechnicalAnalysis) :
  NonNegativeStrengths ca ta ->
  (0 <= buyScore (scoreSignals ca ta))%Q
  /\ (0 <= sellScore (scoreSignals ca ta))%Q.
Proof.
  intros (Hp & Hsr & Hdc & Hma & Hmacd & Hq). unfold scoreSignals.
  assert (H0 : (0 <= buyScore (fold_left scorePattern (patterns ca)
                                 (mkTally 0 0 [])))%Q
               /\ (0 <= sellScore (fold_left scorePattern (patterns ca)
                                     (mkTally 0 0 [])))%Q).
  { assert (G : forall ps t,
               (forall p, In p ps -> (0 <= strength p)%Q) ->
               (0 <= buyScore t)%Q -> (0 <= sellScore t)%Q ->
               (0 <= buyScore (fold_left scorePattern ps t))%Q
               /\ (0 <= sellScore (fold_left scorePattern ps t))%Q).
    { induction ps as [|p ps IH]; intros t Hps Hb Hs; cbn; [auto|].
      destruct (scorePattern_nonneg t p Hb Hs (Hps p (or_introl eq_refl))).
      apply IH; [intros q Hq'; apply Hps; now right | assumption..]. }
    apply G; [exact Hp | cbn; lra | cbn; lra]. }
  destruct H0 as [Hb0 Hs0].
  set (t0 := fold_left scorePattern (patterns ca) (mkTally 0 0 [])) in *.
  clearbody t0.
  change (scoreOf "strongSupport") with 5.0%Q.
  change (scoreOf "strongResistance") with 5.0%Q.
  change (scoreOf "upperBreakout") with 4.5%Q.
  change (scoreOf "lowerBreakout") with 4.5%Q.
  change (scoreOf "macdBullish") with 3.5%Q.
  change (scoreOf "macdBearish") with 3.5%Q.
  match goal with
  | |- context [scoreIndicator t0 ?s ?b ?c ?f ?g] =>
      destruct (scoreIndicator_nonneg t0 s b c f g Hb0 Hs0) as [Hb1 Hs1];
      [lra | lra |]; set (t1 := scoreIndicator t0 s b c f g) in *;
      clearbody t1
  end.
  match goal with
  | |- context [scoreIndicator t1 ?s ?b ?c ?f ?g] =>
      destruct (scoreIndicator_nonneg t1 s b c f g Hb1 Hs1) as [Hb2 Hs2];
      [lra | lra |]; set (t2 := scoreIndicator t1 s b c f g) in *;
      clearbody t2
  end.
  match goal with
  | |- context [scoreIndicator t2 ?s ?b ?c ?f ?g] =>
      destruct (scoreIndicator_nonneg t2 s b c f g Hb2 Hs2) as [Hb3 Hs3];
      [lra | lra |]; set (t3 := scoreIndicator t2 s b c f g) in *;
      clearbody t3
  end.
  match goal with
  | |- context [scoreIndicator t3 ?s ?b ?c ?f ?g] =>
      destruct (scoreIndicator_nonneg t3 s b c f g Hb3 Hs3) as [Hb4 Hs4];
      [lra | lra |]; set (t4 := scoreIndicator t3 s b c f g) in *;
      clearbody t4
  end.
  destruct (quantitative ta) as [q|]; [|auto].
  specialize (Hq q eq_refl).
  apply scoreIndicator_nonneg; try assumption; lra.
Qed.

(** ** Signal fusion: the decision *)

Lemma Qfloor_ge_iff (z : Z) (x : Q) : z <= Qfloor x <-> (inject_Z z <= x)%Q.
Proof.
  split; intro H.
  - apply Qle_trans with (y := inject_Z (Qfloor x)).
    + rewrite <- Zle_Qle. exact H.
    + apply Qfloor_le.
  - rewrite <- (Qfloor_Z z). apply Qfloor_resp_le. exact H.
Qed.

Lemma Math_round_ge_iff (z : Z) (x : Q) :
  z <= Js.Math_round x <-> (inject_Z z - 0.5 <= x)%Q.
Proof.
  unfold Js.Math_round. rewrite Qfloor_ge_iff. split; intro H; lra.
Qed.

Lemma Math_round_le_iff (z : Z) (x : Q) :
  Js.Math_round x <= z <-> (x < inject_Z z + 0.5)%Q.
Proof.
  split; intro H.
  - destruct (Qlt_le_dec x (inject_Z z + 0.5)) as [Hlt | Hge]; [exact Hlt|].
    exfalso. assert (Hz : z + 1 <= Js.Math_round x).
    { apply Math_round_ge_iff. rewrite inject_Z_plus.
      change (inject_Z 1) with 1%Q. lra. }
    lia.
  - destruct (Z_le_gt_dec (Js.Math_round x) z) as [Hle | Hgt]; [exact Hle|].
    exfalso. assert (Hz : z + 1 <= Js.Math_round x) by lia.
    apply Math_round_ge_iff in Hz. rewrite inject_Z_plus in Hz.
    change (inject_Z 1) with 1%Q in Hz. lra.
Qed.

(** The first decision, for non-negative scores: either the scores are
    less than 1.5 apart and the answer is WAIT at confidence 40, or the
    answer is BUY or SELL with a confidence between 50 and 95 that
    reaches 65 exactly when the difference is at least 29% of the
    total. *)
Lemma initialDecision_cases (b s : Q) :
  (0 <= b)%Q -> (0 <= s)%Q ->
  ((Qabs (b - s) < 1.5)%Q
   /\ initialDecision b s
      = (ActWAIT, 40, 0%Q, 0%Q, "var(--text-muted)"%string))
  \/ ((1.5 <= Qabs (b - s))%Q /\ (0 < b + s)%Q
      /\ exists c col,
           50 <= c <= 95
           /\ (65 <= c <-> (0.29 * (b + s) <= Qabs (b - s))%Q)
           /\ initialDecision b s
              = ((if (b >? s)%Q then ActBUY else ActSELL), c,
                 fst (tierOf c), snd (tierOf c), col)).
Proof.
  intros Hb Hs.
  assert (Hd : (Qabs (b - s) <= b + s)%Q).
  { apply Qabs_Qle_condition. split; lra. }
  destruct (Qlt_le_dec (Qabs (b - s)) 1.5) as [Hlt | Hge].
  - left. split; [exact Hlt|]. apply initialDecision_narrow. exact Hlt.
  - right. assert (Ht : (0 < b + s)%Q) by lra.
    split; [exact Hge|]. split; [exact Ht|].
    unfold initialDecision.
    replace (Qeq_bool (b + s) 0) with false.
    2:{ symmetry. destruct (Qeq_bool (b + s) 0) eqn:E; [|reflexivity].
        apply Qeq_bool_iff in E. lra. }
    replace (Qabs (b - s) <? 1.5)%Q with false
      by (symmetry; apply ltb_ge; exact Hge).
    cbn [orb].
    set (d := Qabs (b - s)) in *. set (t := (b + s)%Q) in *.
    assert (Hx : (t * (d / t) == d)%Q) by (apply Qmult_div_r; lra).
    set (x := (d / t)%Q) in *. clearbody x d t.
    assert (Hx0 : (0 < x <= 1)%Q) by (split; nra).
    set (c := Z.min 95 (Js.Math_round (50 + x * 50))).
    assert (Hr : 50 <= Js.Math_round (50 + x * 50) <= 100).
    { split.
      - apply Math_round_ge_iff. change (inject_Z 50) with 50%Q. lra.
      - apply Math_round_le_iff. change (inject_Z 100) with 100%Q. lra. }
    assert (Hc65 : 65 <= c <-> (0.29 * t <= d)%Q).
    { unfold c. split; intro H.
      - assert (H' : 65 <= Js.Math_round (50 + x * 50)) by lia.
        apply Math_round_ge_iff in H'.
        change (inject_Z 65) with 65%Q in H'. nra.
      - assert (H' : 65 <= Js.Math_round (50 + x * 50)).
        { apply Math_round_ge_iff. change (inject_Z 65) with 65%Q. nra. }
        lia. }
    assert (Hc : 50 <= c <= 95) by (unfold c; lia).
    clearbody c.
    destruct (b >? s)%Q; eexists c, _; (split; [exact Hc|]);
      (split; [exact Hc65 | destruct (tierOf c); reflexivity]).
Qed.

Lemma StronglySorted_firstn {A : Type} (R : A -> A -> Prop) (n : nat)
  (l : list A) :
  StronglySorted R l -> StronglySorted R (firstn n l).
Proof.
  intro H. revert n. induction H as [|x xs Hx IH Hall]; intro n.
  - rewrite firstn_nil. constructor.
  - destruct n as [|n]; cbn; constructor; [apply IH|].
    rewrite Forall_forall in *. intros y Hy. apply Hall.
    rewrite <- (firstn_skipn n xs). apply in_or_app. now left.
Qed.

(** The returned summary holds at most ten factors, ordered from the
    largest impact to the smallest. *)
Theorem summary_is_top_ten_by_impact
  (candleAnalysis : CandleAnalysis) (technicalAnalysis : TechnicalAnalysis) :
  let r := generateProfessionalRecommendation candleAnalysis
             technicalAnalysis in
  (length (summary r) <= 10)%nat
  /\ StronglySorted (fun a b => (impact b <= impact a)%Q) (summary r).
Proof.
  cbn zeta. unfold generateProfessionalRecommendation, finalRecommendation.
  destruct (initialDecision _ _) as [[[[a c] p] rk] col].
  destruct (c <? 65); cbn [summary];
    (split; [rewrite length_firstn; lia|]);
    apply StronglySorted_firstn;
    apply StronglySorted_impl
      with (R := fun a b => (impact b <=? impact a)%Q = true);
    try (intros x y; apply leb_le);
    (apply sortBy_sorted;
     [ intros x y H; apply leb_gt in H; apply leb_le; lra
     | intros x y z H1 H2; apply leb_le in H1, H2; apply leb_le; lra ]).
Qed.

(** With every signal on HOLD nothing is scored. *)
Lemma scoreSignals_all_hold (ca : CandleAnalysis) (ta : TechnicalAnalysis) :
  AllHold ca ta -> scoreSignals ca ta = mkTally 0 0 [].
Proof.
  intros (Hp & Hsr & Hdc & Hma & Hmacd & Hq). unfold scoreSignals.
  assert (H0 : fold_left scorePattern (patterns ca) (mkTally 0 0 [])
               = mkTally 0 0 []).
  { assert (G : forall ps t, (forall p, In p ps -> signal p = HOLD) ->
                             fold_left scorePattern ps t = t).
    { induction ps as [|p ps IH]; intros t H; cbn; [reflexivity|].
      unfold scorePattern at 2. rewrite (H p (or_introl eq_refl)).
      apply IH. intros q Hq'. apply H. now right. }
    apply G. exact Hp. }
  rewrite H0, Hsr, Hdc, Hma, Hmacd. cbn [scoreIndicator].
  destruct (quantitative ta) as [q|]; [|reflexivity].
  rewrite (Hq q eq_refl). reflexivity.
Qed.

(** No matched BUY or SELL pattern and every indicator on HOLD: the
    answer is WAIT at confidence 40 with zero targets, and the only
    factor listed is the notice that the confidence is below the
    threshold. *)
Theorem all_hold_gives_wait
  (candleAnalysis : CandleAnalysis) (technicalAnalysis : TechnicalAnalysis) :
  AllHold candleAnalysis technicalAnalysis ->
  let r := generateProfessionalRecommendation candleAnalysis
             technicalAnalysis in
  action r = ActWAIT /\ confidence r = 40
  /\ profitTarget r = 0%Q /\ (riskLevel r == 0)%Q
  /\ summary r = [mkSummaryItem neutral Texts.belowThreshold 0].
Proof.
  intro H. cbn zeta. unfold generateProfessionalRecommendation.
  rewrite (scoreSignals_all_hold _ _ H). cbn. repeat split.
Qed.

Lemma all_hold_gives_wait_witness :
  let r := generateProfessionalRecommendation
             (Samples.withPatterns [Patterns.Doji])
             Samples.quietTechnicalAnalysis in
  action r = ActWAIT /\ confidence r = 40
  /\ profitTarget r = 0%Q /\ (riskLevel r == 0)%Q
  /\ summary r = [mkSummaryItem neutral Texts.belowThreshold 0].
Proof.
  apply (all_hold_gives_wait (Samples.withPatterns [Patterns.Doji])
           Samples.quietTechnicalAnalysis).
  repeat split; try discriminate.
  intros p [<- | []]. reflexivity.
Defined.

(** ** Signal fusion: targets and risk *)

Lemma tierOf_cases (c : Z) :
  (85 <= c /\ tierOf c = (0.045, 0.0225)%Q)
  \/ (75 <= c < 85 /\ tierOf c = (0.03, 0.015)%Q)
  \/ (c < 75 /\ tierOf c = (0.015, 0.0075)%Q).
Proof.
  unfold tierOf.
  destruct (Z.geb_spec c 85) as [H|H]; [left; split; [lia | reflexivity]|].
  destruct (Z.geb_spec c 75) as [H'|H'].
  - right; left. split; [lia | reflexivity].
  - right; right. split; [lia | reflexivity].
Qed.

Lemma adjustByQuant_bounds (quantData : option Quant.Result) (p : Q) :
  (0 < p)%Q ->
  (0.51 * p <= adjustByQuant quantData p <= 1.25 * p)%Q.
Proof.
  intro Hp. unfold adjustByQuant. destruct quantData as [q|]; [|lra].
  cbv zeta.
  destruct (Js.num_gtb _ 0.04); [|destruct (Js.num_gtb _ 0.03);
                                   [|destruct (Js.num_gtb _ 0.02)]];
    (destruct (Qabs _ >? 0.6)%Q; [|destruct (Qabs _ >? 0.4)%Q]);
    destruct (_ || _); lra.
Qed.

Lemma adjustByMA_bounds (maData : MA.Result) (a : Action) (p : Q) :
  (0 < p)%Q ->
  (0.85 * p <= adjustByMA maData a p <= 1.1 * p)%Q.
Proof.
  intro Hp. unfold adjustByMA.
  destruct (MA.indicators maData) as [ind|]; [|lra].
  destruct (MA.sma9 ind) as [s9|]; [|lra].
  destruct (MA.sma20 ind) as [s20|]; [|lra].
  destruct (MA.sma50 ind) as [s50|]; [|lra].
  destruct (_ && _ && _); [|lra].
  destruct (Action_eqb a ActBUY && _); [lra|].
  destruct (Action_eqb a ActSELL && _); [lra|].
  destruct (_ || _); lra.
Qed.

Lemma toPercent_bounds (lo hi : Z) (x : Q) :
  (inject_Z lo - 0.5 <= x * 1000)%Q -> (x * 1000 < inject_Z hi + 0.5)%Q ->
  (inject_Z lo / 10 <= toPercent x <= inject_Z hi / 10)%Q.
Proof.
  intros Hlo Hhi. unfold toPercent.
  assert (H1 : lo <= Js.Math_round (x * 100 * 10))
    by (apply Math_round_ge_iff; lra).
  assert (H2 : Js.Math_round (x * 100 * 10) <= hi)
    by (apply Math_round_le_iff; lra).
  rewrite Zle_Qle in H1, H2.
  set (r := inject_Z (Js.Math_round (x * 100 * 10))) in *. clearbody r.
  split; qlin.
Qed.

(** The decision phase for non-negative scores: either no trade is
    recommended, or the action follows the larger score, the confidence
    is between 65 and 95, the risk level is the one of the confidence
    tier and the profit target is within 0.7 and 6.2 percent. *)
Lemma finalRecommendation_cases (t : Tally)
  (technicalAnalysis : TechnicalAnalysis) :
  (0 <= buyScore t)%Q -> (0 <= sellScore t)%Q ->
  let r := finalRecommendation t technicalAnalysis in
  let d := Qabs (buyScore t - sellScore t) in
  (action r = ActWAIT
   /\ (confidence r = 40 \/ 50 <= confidence r < 65)
   /\ profitTarget r = 0%Q /\ (riskLevel r == 0)%Q
   /\ ~ ((1.5 <= d)%Q /\ (0.29 * (buyScore t + sellScore t) <= d)%Q))
  \/ (action r = (if (buyScore t >? sellScore t)%Q then ActBUY else ActSELL)
      /\ 65 <= confidence r <= 95
      /\ (1.5 <= d)%Q /\ (0.29 * (buyScore t + sellScore t) <= d)%Q
      /\ ((85 <= confidence r /\ (riskLevel r == 2.3)%Q)
          \/ (75 <= confidence r < 85 /\ (riskLevel r == 1.5)%Q)
          \/ (confidence r < 75 /\ (riskLevel r == 0.8)%Q))
      /\ (0.7 <= profitTarget r <= 6.2)%Q).
Proof.
  intros Hb Hs. cbv zeta. unfold finalRecommendation.
  destruct (initialDecision_cases _ _ Hb Hs)
    as [[Hlt ->] | (Hge & Ht & c & col & Hc & Hc65 & ->)].
  - left. split; [reflexivity|]. split; [now left|].
    split; [reflexivity|]. split; [reflexivity|]. intros [H _]. lra.
  - destruct (Z.ltb_spec c 65) as [Hlow | Hhigh].
    + left. destruct (tierOf c) as [pt rl].
      cbn [fst snd action confidence profitTarget riskLevel].
      destruct (buyScore t >? sellScore t)%Q;
        (split; [reflexivity|]); (split; [right; lia|]);
        (split; [reflexivity|]); (split; [reflexivity|]);
        intros [_ H]; apply Hc65 in H; lia.
    + right.
      assert (Hact : negb (Action_eqb
                (if (buyScore t >? sellScore t)%Q then ActBUY else ActSELL)
                ActWAIT) = true)
        by (destruct (buyScore t >? sellScore t)%Q; reflexivity).
      destruct (tierOf_cases c) as [[H85 E] | [[H75 E] | [H65 E]]];
        rewrite E; cbn [fst snd action confidence profitTarget riskLevel];
        rewrite Hact; cbn [andb];
        match goal with
        | |- context [(?p >? 0)%Q] =>
            replace (p >? 0)%Q with true by reflexivity;
            pose proof (adjustByQuant_bounds
                          (quantitative technicalAnalysis) p eq_refl) as Hq;
            set (p1 := adjustByQuant (quantitative technicalAnalysis) p)
              in *;
            assert (Hp1 : (0 < p1)%Q) by lra;
            pose proof (adjustByMA_bounds
                          (movingAverages technicalAnalysis)
                          (if (buyScore t >? sellScore t)%Q
                           then ActBUY else ActSELL) p1 Hp1) as Hm;
            set (p2 := adjustByMA (movingAverages technicalAnalysis) _ p1)
              in *
        end;
        clearbody p2 p1;
        (split; [reflexivity|]); (split; [lia|]);
        (split; [exact Hge|]); (split; [apply Hc65; lia|]);
        (split;
         [ first [ left; split; [lia | reflexivity]
                 | right; left; split; [lia | reflexivity]
                 | right; right; split; [lia | reflexivity] ]
         | change 0.7%Q with (inject_Z 7 / 10)%Q;
           change 6.2%Q with (inject_Z 62 / 10)%Q;
           apply toPercent_bounds;
           [ change (inject_Z 7) with 7%Q | change (inject_Z 62) with 62%Q ];
           lra ]).
Qed.

(** ** Signal fusion: one-sided evidence *)










(** The confidence is 40 or lies between 50 and 95.  A recommended
    trade has a confidence of at least 65, the risk level of its tier
    (2.3 from 85, 1.5 from 75, 0.8 below) and a profit target between
    0.7 and 6.2 percent. *)
Theorem trade_confidence_risk_and_target
  (candleAnalysis : CandleAnalysis) (technicalAnalysis : TechnicalAnalysis) :
  NonNegativeStrengths candleAnalysis technicalAnalysis ->
  let r := generateProfessionalRecommendation candleAnalysis
             technicalAnalysis in
  (confidence r = 40 \/ 50 <= confidence r <= 95)
  /\ (action r <> ActWAIT ->
      65 <= confidence r <= 95
      /\ ((85 <= confidence r /\ (riskLevel r == 2.3)%Q)
          \/ (75 <= confidence r < 85 /\ (riskLevel r == 1.5)%Q)
          \/ (confidence r < 75 /\ (riskLevel r == 0.8)%Q))
      /\ (0.7 <= profitTarget r <= 6.2)%Q).
Proof.
  intro H. cbv zeta. unfold generateProfessionalRecommendation.
  destruct (scoreSignals_nonneg _ _ H) as [Hb Hs].
  set (t := scoreSignals candleAnalysis technicalAnalysis) in *.
  destruct (finalRecommendation_cases t technicalAnalysis Hb Hs)
    as [(Ha & Hc & _) | (Ha & Hc & _ & _ & Hr & Hp)]; cbv zeta in *.
  - split; [destruct Hc; [now left | right; lia]|].
    intro Hn. congruence.
  - split; [right; lia|]. intros _. auto.
Qed.

Lemma trade_confidence_risk_and_target_witness :
  let r := generateProfessionalRecommendation (fst Samples.fiveZero)
             (snd Samples.fiveZero) in
  (confidence r = 40 \/ 50 <= confidence r <= 95)
  /\ (action r <> ActWAIT ->
      65 <= confidence r <= 95
      /\ ((85 <= confidence r /\ (riskLevel r == 2.3)%Q)
          \/ (75 <= confidence r < 85 /\ (riskLevel r == 1.5)%Q)
          \/ (confidence r < 75 /\ (riskLevel r == 0.8)%Q))
      /\ (0.7 <= profitTarget r <= 6.2)%Q).
Proof.
  apply (trade_confidence_risk_and_target (fst Samples.fiveZero)
           (snd Samples.fiveZero)).
  split; [intros p []|].
  repeat split; try (vm_compute; discriminate).
Defined.

(** ** The pipeline as a whole *)

(** The strengths that the indicator modules hand to the fusion stage
    are never negative. *)
Lemma pipeline_strengths (Math_sqrt : Q -> Q) (img : ImageData)
  (ca : CandleAnalysis) :
  analyzeProfessionalCandlesticks img = Ok ca ->
  NonNegativeStrengths ca
    (performTechnicalAnalysis Math_sqrt (candles ca) img).
Proof.
  intro Hok. destruct (extraction_shape img ca Hok) as (_ & _ & Hpat).
  unfold NonNegativeStrengths, performTechnicalAnalysis.
  cbn [supportResistance donchianChannels movingAverages macd quantitative].
  split; [|split; [|split; [|split; [|split]]]].
  - intros p Hp. rewrite Hpat in Hp.
    destruct (detected_pattern_profile _ _ Hp) as [H _]. lra.
  - destruct (sr_ranges (candles ca) (height img)) as [H _]. lra.
  - destruct (Nat.lt_ge_cases (length (candles ca)) 20) as [Hlt | Hge].
    + unfold analyzeDonchianChannels. apply Nat.ltb_lt in Hlt.
      rewrite Hlt. cbn. lra.
    + destruct (donchian_shapes (candles ca) Hge) as [H _].
      cbv zeta in H.
      destruct H as [H | [H | H]]; injection H as _ H _; rewrite H; lra.
  - destruct (ma_profile (candles ca)) as [H _]. cbv zeta in H.
    destruct H as [[_ ->] | (_ & [-> | ->] & _)]; lra.
  - pose proof (macd_profile (candles ca)) as H. cbv zeta in H.
    destruct (MACD.signal (analyzeMACD (candles ca)));
      [destruct H as [H _] | destruct H as [H _] | rewrite H]; lra.
  - intros q Hq. destruct (quant_ranges _ _ _ Hq) as [H _]. lra.
Qed.

(** With fewer than three candles no module has anything to say. *)
Lemma short_series_all_hold (Math_sqrt : Q -> Q) (img : ImageData)
  (ca : CandleAnalysis) :
  analyzeProfessionalCandlesticks img = Ok ca ->
  (length (candles ca) < 3)%nat ->
  AllHold ca (performTechnicalAnalysis Math_sqrt (candles ca) img).
Proof.
  intros Hok Hlen. destruct (extraction_shape img ca Hok) as (_ & _ & Hpat).
  unfold AllHold, performTechnicalAnalysis.
  cbn [supportResistance donchianChannels movingAverages macd quantitative].
  unfold analyzeSupportResistance, analyzeDonchianChannels,
    analyzeMovingAverages, analyzeMACD, performQuantitativeAnalysis.
  replace (length (candles ca) <? 8)%nat with true
    by (symmetry; apply Nat.ltb_lt; lia).
  replace (length (candles ca) <? 20)%nat with true
    by (symmetry; apply Nat.ltb_lt; lia).
  replace (length (candles ca) <? 50)%nat with true
    by (symmetry; apply Nat.ltb_lt; lia).
  replace (length (candles ca) <? 26)%nat with true
    by (symmetry; apply Nat.ltb_lt; lia).
  replace (length (candles ca) <? 14)%nat with true
    by (symmetry; apply Nat.ltb_lt; lia).
  split; [|repeat split; discriminate].
  intros p Hp. rewrite Hpat, detect_needs_three in Hp by exact Hlen.
  destruct Hp.
Qed.

(** Whenever the pipeline produces a result for an image, its
    confidence is 40 or lies between 50 and 95.  WAIT comes with a
    confidence below 65 and zero targets.  A trade comes with a
    confidence of at least 65, the risk level of its tier, a profit
    target between 0.7 and 6.2 percent, and needs at least three
    candles in the chart. *)
Theorem pipeline_recommendation_ranges
  (Math_sqrt : Q -> Q) (clock : Clock) (imageData : ImageData)
  (out : AnalysisOutput) :
  performAdvancedAnalysis Math_sqrt clock imageData = Ok out ->
  let r := out_recommendation out in
  (confidence r = 40 \/ 50 <= confidence r <= 95)
  /\ (action r = ActWAIT ->
      confidence r < 65 /\ profitTarget r = 0%Q /\ (riskLevel r == 0)%Q)
  /\ (action r <> ActWAIT ->
      65 <= confidence r <= 95
      /\ ((85 <= confidence r /\ (riskLevel r == 2.3)%Q)
          \/ (75 <= confidence r < 85 /\ (riskLevel r == 1.5)%Q)
          \/ (confidence r < 75 /\ (riskLevel r == 0.8)%Q))
      /\ (0.7 <= profitTarget r <= 6.2)%Q
      /\ (3 <= length (candles (out_candleAnalysis out)))%nat).
Proof.
  unfold performAdvancedAnalysis.
  destruct (analyzeProfessionalCandlesticks imageData) as [ca | msg] eqn:Hok;
    [|discriminate].
  intros [= <-]. cbv zeta. cbn [out_recommendation out_candleAnalysis].
  set (ta := performTechnicalAnalysis Math_sqrt (candles ca) imageData).
  assert (Hshort : (length (candles ca) < 3)%nat ->
                   action (generateProfessionalRecommendation ca ta)
                   = ActWAIT).
  { intro Hlen. unfold generateProfessionalRecommendation, ta.
    rewrite (scoreSignals_all_hold _ _
               (short_series_all_hold Math_sqrt imageData ca Hok Hlen)).
    reflexivity. }
  pose proof (pipeline_strengths Math_sqrt imageData ca Hok) as Hnn.
  fold ta in Hnn. destruct (scoreSignals_nonneg _ _ Hnn) as [Hb Hs].
  unfold generateProfessionalRecommendation in *.
  set (t := scoreSignals ca ta) in *.
  destruct (finalRecommendation_cases t ta Hb Hs)
    as [(Ha & Hc & Hp & Hr & _) | (Ha & Hc & _ & _ & Hr & Hp)];
    cbv zeta in *.
  - split; [destruct Hc; [now left | right; lia]|].
    split; [intros _; split; [lia | auto] | intro Hn; congruence].
  - assert (Hn : action (finalRecommendation t ta) <> ActWAIT)
      by (rewrite Ha; destruct (buyScore t >? sellScore t)%Q; discriminate).
    split; [right; lia|]. split; [intro Hw; congruence|].
    intros _. split; [exact Hc|]. split; [exact Hr|]. split; [exact Hp|].
    destruct (Nat.lt_ge_cases (length (candles ca)) 3) as [Hlt | Hge];
      [|exact Hge].
    exfalso. apply Hn, Hshort, Hlt.
Qed.

Lemma pipeline_recommendation_ranges_witness :
  let r := out_recommendation ThreeCandleImage.output in
  (confidence r = 40 \/ 50 <= confidence r <= 95)
  /\ (action r = ActWAIT ->
      confidence r < 65 /\ profitTarget r = 0%Q /\ (riskLevel r == 0)%Q)
  /\ (action r <> ActWAIT ->
      65 <= confidence r <= 95
      /\ ((85 <= confidence r /\ (riskLevel r == 2.3)%Q)
          \/ (75 <= confidence r < 85 /\ (riskLevel r == 1.5)%Q)
          \/ (confidence r < 75 /\ (riskLevel r == 0.8)%Q))
      /\ (0.7 <= profitTarget r <= 6.2)%Q
      /\ (3 <= length (candles (out_candleAnalysis
                                  ThreeCandleImage.output)))%nat).
Proof.
  refine (pipeline_recommendation_ranges (fun x => x)
            ThreeCandleImage.clock ThreeCandleImage.chart
            ThreeCandleImage.output _).
  vm_compute. reflexivity.
Defined.

(** ** The combined technical signal *)





(** ** Image loading *)




Example loaded_image_samples :
  loadedSize 2800 1200 = (1400, 600)
  /\ loadedSize 1000 3000 = (300, 900)
  /\ loadedSize 640 480 = (640, 480)
  /\ loadedSize 5000 3 = (1400, 0).
Proof. repeat split. Qed.

(** ** Accepting an upload *)

(** [analyzeImage] starts an analysis exactly when no analysis is in
    progress and the file is present, of one of the five image types
    and of at most 10485760 bytes.  Otherwise the lock is left as it
    was.  A start sets the lock, so that every further call is blocked
    until the lock is released. *)
Theorem analyzeImage_starts_valid_uploads_only (analysisInProgress : bool)
  (file : option Upload.File) :
  let r := Upload.analyzeImage analysisInProgress file in
  (fst r = Upload.Started <->
   analysisInProgress = false
   /\ exists f, file = Some f
                /\ In (Upload.file_type f) Upload.allowedTypes
                /\ Upload.file_size f <= 10485760)
  /\ (fst r <> Upload.Started -> snd r = analysisInProgress)
  /\ (fst r = Upload.Started ->
      snd r = true
      /\ forall next, Upload.analyzeImage (snd r) next
                      = (Upload.Blocked, true)).
Proof.
  cbv zeta. unfold Upload.analyzeImage.
  destruct file as [f|].
  2:{ cbn. split; [split; [discriminate | intros (_ & f & H & _);
                                           discriminate]|].
      split; [reflexivity | discriminate]. }
  destruct analysisInProgress.
  { cbn. split; [split; [discriminate | intros [H _]; discriminate]|].
    split; [reflexivity | discriminate]. }
  destruct (existsb _ Upload.allowedTypes) eqn:Et; cbn [negb].
  - assert (Hin : In (Upload.file_type f) Upload.allowedTypes).
    { apply existsb_exists in Et. destruct Et as (x & Hx & Heq).
      apply String.eqb_eq in Heq. subst x. exact Hx. }
    destruct (Z.gtb_spec (Upload.file_size f) (10 * 1024 * 1024)) as [H|H];
      cbn [fst snd].
    + split; [split; [discriminate|]|split; [reflexivity | discriminate]].
      intros (_ & g & [= <-] & _ & Hs). lia.
    + split; [split; [intros _; split; [reflexivity|]; exists f;
                      repeat split; [exact Hin | lia]
                     | reflexivity]|].
      split; [intro Hn; congruence|]. intros _. split; [reflexivity|].
      intros [g|]; reflexivity.
  - cbn [fst snd].
    split; [split; [discriminate|]|split; [reflexivity | discriminate]].
    intros (_ & g & [= <-] & Hin & _).
    assert (Ht : existsb (String.eqb (Upload.file_type f))
                   Upload.allowedTypes = true).
    { apply existsb_exists. exists (Upload.file_type f).
      split; [exact Hin | apply String.eqb_refl]. }
    congruence.
Qed.

Example analyzeImage_samples :
  Upload.analyzeImage false (Some (Upload.png 10485760))
  = (Upload.Started, true)
  /\ Upload.analyzeImage false (Some (Upload.png 10485761))
     = (Upload.TooLarge, false)
  /\ Upload.analyzeImage false (Some (Upload.gif 1000))
     = (Upload.Unsupported, false)
  /\ Upload.analyzeImage true (Some (Upload.png 1000))
     = (Upload.Blocked, true)
  /\ Upload.analyzeImage false None = (Upload.Blocked, false).
Proof. repeat split. Qed.

(** * Revision v6.0 *)

(** ** The false-breakout test *)

(** The false-breakout test never reports anything: each of its two
    conditions asks the last close to lie beyond the level on the far
    side of the previous close and, at once, on the near side of it. *)
Theorem detectFalseBreakouts_never_fires (candles : list V6.Candle)
  (nearestSupport nearestResistance : option V6.Level) :
  V6.detectFalseBreakouts candles nearestSupport nearestResistance = None.
Proof.
  unfold V6.detectFalseBreakouts.
  destruct (length candles <? 10)%nat; [reflexivity|].
  destruct (nth_error candles (length candles - 1)) as [lastCandle|];
    [|reflexivity].
  destruct (nth_error candles (length candles - 2)) as [prevCandle|];
    [|reflexivity].
  assert (Hr : match nearestResistance with
               | Some r =>
                   ((V6.close prevCandle <? V6.level r)
                    && (V6.close lastCandle >? V6.level r)
                    && (V6.close lastCandle <? V6.close prevCandle))%Q
               | None => false
               end = false).
  { destruct nearestResistance as [r|]; [|reflexivity].
    destruct (_ <? V6.level r)%Q eqn:E1; [|reflexivity].
    destruct (_ >? V6.level r)%Q eqn:E2; [|reflexivity].
    apply ltb_lt in E1. apply gtb_lt in E2. cbn [andb].
    apply ltb_ge. lra. }
  assert (Hs : match nearestSupport with
               | Some s =>
                   ((V6.close prevCandle >? V6.level s)
                    && (V6.close lastCandle <? V6.level s)
                    && (V6.close lastCandle >? V6.close prevCandle))%Q
               | None => false
               end = false).
  { destruct nearestSupport as [s|]; [|reflexivity].
    destruct (_ >? V6.level s)%Q eqn:E1; [|reflexivity].
    destruct (_ <? V6.level s)%Q eqn:E2; [|reflexivity].
    apply gtb_lt in E1. apply ltb_lt in E2. cbn [andb].
    apply gtb_le. lra. }
  rewrite Hr, Hs. reflexivity.
Qed.

(** ** Simulated timeframes *)

Lemma full_group_iff (n m k : nat) :
  (0 < m)%nat -> (k * m + m <= n <-> k < n / m)%nat.
Proof.
  intro Hm. pose proof (Nat.div_mod_eq n m) as Hd.
  pose proof (Nat.mod_upper_bound n m ltac:(lia)) as Hr.
  set (q := (n / m)%nat) in *. set (r := (n mod m)%nat) in *.
  clearbody q r. split; intro H; nia.
Qed.

Lemma groupAt_length (candles : list V6.Candle) (m : positive) (k : nat) :
  (k < length candles / Pos.to_nat m)%nat ->
  length (V6.groupAt candles m k) = Pos.to_nat m.
Proof.
  intro H. apply full_group_iff in H; [|lia].
  unfold V6.groupAt. rewrite length_firstn, length_skipn. lia.
Qed.

Lemma simulateFrom_spec (candles : list V6.Candle) (m : positive) :
  forall (fuel k : nat) (acc : list V6.Candle),
    (length candles - k * Pos.to_nat m <= fuel)%nat ->
    V6.simulateFrom fuel candles m (k * Pos.to_nat m) acc
    = acc ++ flat_map (simulatedAt candles m)
               (seq k (length candles / Pos.to_nat m - k)).
Proof.
  pose proof (Pos2Nat.is_pos m) as Hm.
  induction fuel as [|fuel IH]; intros k acc Hfuel.
  - cbn [V6.simulateFrom].
    assert (Hk : ~ (k < length candles / Pos.to_nat m)%nat).
    { intro H. apply full_group_iff in H; lia. }
    replace (length candles / Pos.to_nat m - k)%nat with 0%nat by lia.
    cbn. now rewrite app_nil_r.
  - cbn [V6.simulateFrom].
    destruct (Nat.ltb_spec (k * Pos.to_nat m) (length candles)) as [Hlt|Hge].
    + replace (k * Pos.to_nat m + Pos.to_nat m)%nat
        with (S k * Pos.to_nat m)%nat by (cbn; lia).
      destruct (Nat.leb_spec (S k * Pos.to_nat m) (length candles))
        as [Hfull | Hpart].
      * assert (Hk : (k < length candles / Pos.to_nat m)%nat)
          by (apply full_group_iff; cbn in Hfull; lia).
        rewrite IH by (cbn; cbn in Hfull; lia).
        replace (length candles / Pos.to_nat m - k)%nat
          with (S (length candles / Pos.to_nat m - S k)) by lia.
        cbn [seq flat_map]. unfold simulatedAt at 2.
        fold (V6.groupAt candles m k).
        pose proof (groupAt_length candles m k Hk) as Hlen.
        destruct (V6.groupAt candles m k) as [|first rest] eqn:Eg;
          [cbn in Hlen; lia|].
        rewrite <- app_assoc. reflexivity.
      * assert (Hk : ~ (k < length candles / Pos.to_nat m)%nat).
        { intro H. apply full_group_iff in H; cbn in Hpart; lia. }
        rewrite IH by (cbn; cbn in Hpart; lia).
        replace (length candles / Pos.to_nat m - k)%nat with 0%nat by lia.
        replace (length candles / Pos.to_nat m - S k)%nat with 0%nat by lia.
        reflexivity.
    + assert (Hk : ~ (k < length candles / Pos.to_nat m)%nat).
      { intro H. apply full_group_iff in H; lia. }
      replace (length candles / Pos.to_nat m - k)%nat with 0%nat by lia.
      cbn. now rewrite app_nil_r.
Qed.

Lemma simulateTimeframeData_spec (candles : list V6.Candle) (m : positive) :
  V6.simulateTimeframeData candles m
  = flat_map (simulatedAt candles m)
      (seq 0 (length candles / Pos.to_nat m)).
Proof.
  unfold V6.simulateTimeframeData.
  pose proof (simulateFrom_spec candles m (length candles) 0 []) as H.
  cbn [Nat.mul app] in H. rewrite H by lia. now rewrite Nat.sub_0_r.
Qed.

Lemma Qmax_either (x y : Q) : Qmax x y = x \/ Qmax x y = y.
Proof.
  unfold Qmax, GenericMinMax.gmax. destruct (x ?= y)%Q; auto.
Qed.

Lemma Qmin_either (x y : Q) : Qmin x y = x \/ Qmin x y = y.
Proof.
  unfold Qmin, GenericMinMax.gmin. destruct (x ?= y)%Q; auto.
Qed.

Lemma fold_Qmax_spec (rest : list Q) (x : Q) :
  In (fold_left Qmax rest x) (x :: rest)
  /\ forall y, In y (x :: rest) -> (y <= fold_left Qmax rest x)%Q.
Proof.
  revert x. induction rest as [|z rest IH]; intro x; cbn [fold_left].
  - split; [now left | intros y [<- | []]; lra].
  - destruct (IH (Qmax x z)) as [Hin Hle]. split.
    + destruct Hin as [Hin | Hin]; [|right; right; exact Hin].
      rewrite <- Hin. destruct (Qmax_either x z) as [-> | ->];
        [now left | right; now left].
    + intros y Hy.
      assert (Hm : (y <= Qmax x z)%Q \/ In y rest).
      { destruct Hy as [<- | [<- | Hy]]; [left | left | right; exact Hy].
        - apply Q.le_max_l.
        - apply Q.le_max_r. }
      destruct Hm as [Hm | Hm].
      * apply Qle_trans with (y := Qmax x z); [exact Hm|].
        apply Hle. now left.
      * apply Hle. now right.
Qed.

Lemma fold_Qmin_spec (rest : list Q) (x : Q) :
  In (fold_left Qmin rest x) (x :: rest)
  /\ forall y, In y (x :: rest) -> (fold_left Qmin rest x <= y)%Q.
Proof.
  revert x. induction rest as [|z rest IH]; intro x; cbn [fold_left].
  - split; [now left | intros y [<- | []]; lra].
  - destruct (IH (Qmin x z)) as [Hin Hle]. split.
    + destruct Hin as [Hin | Hin]; [|right; right; exact Hin].
      rewrite <- Hin. destruct (Qmin_either x z) as [-> | ->];
        [now left | right; now left].
    + intros y Hy.
      assert (Hm : (Qmin x z <= y)%Q \/ In y rest).
      { destruct Hy as [<- | [<- | Hy]]; [left | left | right; exact Hy].
        - apply Q.le_min_l.
        - apply Q.le_min_r. }
      destruct Hm as [Hm | Hm].
      * apply Qle_trans with (y := Qmin x z); [|exact Hm].
        apply Hle. now left.
      * apply Hle. now right.
Qed.

(** The candle that stands for a group has the largest high and the
    smallest low of the group. *)
Lemma merge_spans (first : V6.Candle) (group : list V6.Candle) :
  group <> [] ->
  (forall c, In c group ->
     (V6.high c <= V6.high (V6.merge first group))%Q
     /\ (V6.low (V6.merge first group) <= V6.low c)%Q)
  /\ (exists c, In c group /\ V6.high (V6.merge first group) = V6.high c)
  /\ (exists c, In c group /\ V6.low (V6.merge first group) = V6.low c).
Proof.
  intro Hne. destruct group as [|g rest]; [congruence|].
  unfold V6.merge. cbn [V6.high V6.low map V6.Math_max V6.Math_min].
  destruct (fold_Qmax_spec (map V6.high rest) (V6.high g)) as [Hin1 Hle1].
  destruct (fold_Qmin_spec (map V6.low rest) (V6.low g)) as [Hin2 Hle2].
  change (V6.high g :: map V6.high rest) with (map V6.high (g :: rest))
    in *.
  change (V6.low g :: map V6.low rest) with (map V6.low (g :: rest)) in *.
  split; [|split].
  - intros c Hc. split.
    + apply Hle1. apply in_map. exact Hc.
    + apply Hle2. apply in_map. exact Hc.
  - apply in_map_iff in Hin1. destruct Hin1 as (c & Hc & Hin).
    exists c. split; [exact Hin | now symmetry].
  - apply in_map_iff in Hin2. destruct Hin2 as (c & Hc & Hin).
    exists c. split; [exact Hin | now symmetry].
Qed.

Lemma flat_map_singletons_nth {A : Type} (f : nat -> list A) :
  forall (count start k : nat) (s : A),
    (forall j, (start <= j < start + count)%nat -> length (f j) = 1%nat) ->
    nth_error (flat_map f (seq start count)) k = Some s ->
    (k < count)%nat /\ f (start + k)%nat = [s].
Proof.
  induction count as [|count IH]; intros start k s Hone Hk.
  - cbn in Hk. destruct k; discriminate.
  - cbn [seq flat_map] in Hk.
    pose proof (Hone start ltac:(lia)) as H1.
    destruct (f start) as [|a [|b l]] eqn:Ef; try discriminate.
    destruct k as [|k].
    + cbn in Hk. injection Hk as <-. rewrite Nat.add_0_r.
      split; [lia | exact Ef].
    + cbn [app nth_error] in Hk.
      destruct (IH (S start) k s) as [Hlt Heq];
        [intros j Hj; apply Hone; lia | exact Hk |].
      replace (start + S k)%nat with (S start + k)%nat by lia.
      split; [lia | exact Heq].
Qed.

Lemma flat_map_singletons_length {A : Type} (f : nat -> list A) :
  forall (count start : nat),
    (forall j, (start <= j < start + count)%nat -> length (f j) = 1%nat) ->
    length (flat_map f (seq start count)) = count.
Proof.
  induction count as [|count IH]; intros start Hone; [reflexivity|].
  cbn [seq flat_map]. rewrite length_app, (Hone start) by lia.
  rewrite IH by (intros j Hj; apply Hone; lia). reflexivity.
Qed.

Lemma simulatedAt_single (candles : list V6.Candle) (m : positive)
  (k : nat) :
  (k < length candles / Pos.to_nat m)%nat ->
  exists first rest,
    V6.groupAt candles m k = first :: rest
    /\ simulatedAt candles m k = [V6.merge first (first :: rest)].
Proof.
  intro Hk. pose proof (groupAt_length candles m k Hk) as Hlen.
  pose proof (Pos2Nat.is_pos m) as Hm.
  unfold simulatedAt.
  destruct (V6.groupAt candles m k) as [|first rest]; [cbn in Hlen; lia|].
  exists first, rest. split; reflexivity.
Qed.

Lemma nth_error_last {A : Type} (l : list A) (d : A) :
  l <> [] -> nth_error l (length l - 1) = Some (last l d).
Proof.
  induction l as [|a l IH]; [congruence|]. intros _.
  destruct l as [|b l]; [reflexivity|].
  change (last (a :: b :: l) d) with (last (b :: l) d).
  rewrite <- IH by discriminate.
  cbn [length Nat.sub]. rewrite !Nat.sub_0_r. reflexivity.
Qed.

(** What a simulated candle is made of. *)
Lemma simulated_profile (candles : list V6.Candle) (m : positive) :
  let simulated := V6.simulateTimeframeData candles m in
  length simulated = (length candles / Pos.to_nat m)%nat
  /\ forall k s,
       nth_error simulated k = Some s ->
       let group := V6.groupAt candles m k in
       length group = Pos.to_nat m
       /\ (exists first, nth_error group 0 = Some first
                         /\ V6.open s = V6.open first)
       /\ (exists final, nth_error group (Pos.to_nat m - 1) = Some final
                         /\ V6.close s = V6.close final)
       /\ (forall c, In c group ->
             (V6.high c <= V6.high s)%Q /\ (V6.low s <= V6.low c)%Q)
       /\ (exists c, In c group /\ V6.high s = V6.high c)
       /\ (exists c, In c group /\ V6.low s = V6.low c).
Proof.
  cbv zeta. rewrite simulateTimeframeData_spec.
  assert (Hone : forall j,
             (0 <= j < 0 + length candles / Pos.to_nat m)%nat ->
             length (simulatedAt candles m j) = 1%nat).
  { intros j Hj.
    destruct (simulatedAt_single candles m j) as (f & r & _ & ->);
      [lia | reflexivity]. }
  split; [apply flat_map_singletons_length; exact Hone|].
  intros k s Hk.
  destruct (flat_map_singletons_nth _ _ _ _ _ Hone Hk) as [Hlt Hs].
  cbn [Nat.add] in Hs.
  pose proof (groupAt_length candles m k Hlt) as Hlen.
  destruct (simulatedAt_single candles m k Hlt) as (first & rest & Eg & Es).
  rewrite Es in Hs. injection Hs as <-. rewrite Eg in *.
  destruct (merge_spans first (first :: rest)) as (Hall & Hhi & Hlo);
    [discriminate|].
  split; [exact Hlen|].
  split; [exists first; split; reflexivity|].
  split; [|split; [exact Hall | split; [exact Hhi | exact Hlo]]].
  exists (last (first :: rest) first). split; [|reflexivity].
  rewrite <- Hlen. apply nth_error_last. discriminate.
Qed.

(** [simulateTimeframeData] turns every full group of
    [timeframeMultiplier] candles into one candle and drops the
    candles left over: the [k]-th simulated candle opens where the
    first candle of its group opens, closes where the last one closes,
    and its high and low are the largest high and the smallest low of
    the group. *)
Theorem simulated_candles_span_their_groups
  (candles : list V6.Candle) (timeframeMultiplier : positive) :
  let simulated := V6.simulateTimeframeData candles timeframeMultiplier in
  length simulated = (length candles / Pos.to_nat timeframeMultiplier)%nat
  /\ forall k s,
       nth_error simulated k = Some s ->
       let group := V6.groupAt candles timeframeMultiplier k in
       length group = Pos.to_nat timeframeMultiplier
       /\ (exists first, nth_error group 0 = Some first
                         /\ V6.open s = V6.open first)
       /\ (exists final,
             nth_error group (Pos.to_nat timeframeMultiplier - 1)
             = Some final
             /\ V6.close s = V6.close final)
       /\ (forall c, In c group ->
             (V6.high c <= V6.high s)%Q /\ (V6.low s <= V6.low c)%Q)
       /\ (exists c, In c group /\ V6.high s = V6.high c)
       /\ (exists c, In c group /\ V6.low s = V6.low c).
Proof. exact (simulated_profile candles timeframeMultiplier). Qed.

Example simulated_samples :
  V6.simulateTimeframeData (V6.rising 12) 5
  = [ V6.mkCandle 0 5 6 (-1); V6.mkCandle 5 10 11 4 ]%Q
  /\ V6.simulateTimeframeData (V6.rising 4) 5 = [].
Proof. split; reflexivity. Qed.

Lemma simulated_candles_span_their_groups_witness :
  let simulated := V6.simulateTimeframeData (V6.rising 12) 5 in
  length simulated = (length (V6.rising 12) / Pos.to_nat 5)%nat
  /\ forall k s,
       nth_error simulated k = Some s ->
       let group := V6.groupAt (V6.rising 12) 5 k in
       length group = Pos.to_nat 5
       /\ (exists first, nth_error group 0 = Some first
                         /\ V6.open s = V6.open first)
       /\ (exists final,
             nth_error group (Pos.to_nat 5 - 1) = Some final
             /\ V6.close s = V6.close final)
       /\ (forall c, In c group ->
             (V6.high c <= V6.high s)%Q /\ (V6.low s <= V6.low c)%Q)
       /\ (exists c, In c group /\ V6.high s = V6.high c)
       /\ (exists c, In c group /\ V6.low s = V6.low c).
Proof.
  exact (simulated_candles_span_their_groups (V6.rising 12) 5).
Defined.

(** ** Levels of the simulated timeframes *)

Lemma groupAt_incl (candles : list V6.Candle) (m : positive) (k : nat)
  (c : V6.Candle) :
  In c (V6.groupAt candles m k) -> In c candles.
Proof.
  unfold V6.groupAt. intro H.
  rewrite <- (firstn_skipn (k * Pos.to_nat m) candles).
  apply in_or_app. right.
  rewrite <- (firstn_skipn (Pos.to_nat m)
                (skipn (k * Pos.to_nat m) candles)).
  apply in_or_app. now left.
Qed.

(** A simulated candle takes its high and its low from candles of the
    series. *)
Lemma simulated_from_series (candles : list V6.Candle) (m : positive)
  (s : V6.Candle) :
  In s (V6.simulateTimeframeData candles m) ->
  (exists c, In c candles /\ V6.high s = V6.high c)
  /\ (exists c, In c candles /\ V6.low s = V6.low c).
Proof.
  intro Hs. apply In_nth_error in Hs. destruct Hs as [k Hk].
  destruct (simulated_profile candles m) as [_ H].
  destruct (H k s Hk) as (_ & _ & _ & _ & (c1 & Hc1 & E1) & (c2 & Hc2 & E2)).
  split; [exists c1 | exists c2];
    (split; [eapply groupAt_incl; eassumption | assumption]).
Qed.

Lemma extractKeyLevels_levels (candles : list V6.Candle) (imageHeight : Z)
  (weight : Q) (l : V6.Level) :
  In l (V6.extractKeyLevels candles imageHeight weight) ->
  (3 <= length candles)%nat
  /\ V6.touches l = 1 /\ V6.strength l = weight
  /\ exists c, In c candles
               /\ ((V6.type l = V6.resistance /\ V6.level l = V6.high c)
                   \/ (V6.type l = V6.support /\ V6.level l = V6.low c)).
Proof.
  unfold V6.extractKeyLevels.
  destruct (Nat.ltb_spec (length candles) 3) as [Hlt | Hge]; [intros []|].
  intro Hl. split; [exact Hge|].
  apply in_flat_map in Hl. destruct Hl as (i & _ & Hl).
  destruct (nth_error candles (i - 1)) as [prev|]; [|destruct Hl].
  destruct (nth_error candles i) as [cur|] eqn:Ecur; [|destruct Hl].
  destruct (nth_error candles (i + 1)) as [next|]; [|destruct Hl].
  apply nth_error_In in Ecur.
  unfold V6.swingLevels in Hl. apply in_app_or in Hl.
  destruct Hl as [Hl | Hl];
    [destruct (_ && _) | destruct (_ && _)];
    try destruct Hl as [<- | []]; try destruct Hl;
    (split; [reflexivity|]); (split; [reflexivity|]);
    exists cur; (split; [exact Ecur|]); [left | right]; split; reflexivity.
Qed.

(** The multi-timeframe analysis needs at least 15 candles to return a
    level.  Every level it returns has one touch and the strength 0.7
    of the 5-candle timeframe or, with at least 45 candles, the
    strength 0.9 of the 15-candle timeframe, and it lies on the high
    (resistance) or on the low (support) of a candle of the series. *)
Theorem multi_timeframe_levels (candles : list V6.Candle)
  (imageHeight : Z) :
  let levels := V6.performMultiTimeframeAnalysis candles imageHeight in
  ((length candles < 15)%nat -> levels = [])
  /\ forall l, In l levels ->
       V6.touches l = 1
       /\ ((V6.strength l = 0.7%Q /\ (15 <= length candles)%nat)
           \/ (V6.strength l = 0.9%Q /\ (45 <= length candles)%nat))
       /\ exists c, In c candles
                    /\ ((V6.type l = V6.resistance
                         /\ V6.level l = V6.high c)
                        \/ (V6.type l = V6.support
                            /\ V6.level l = V6.low c)).
Proof.
  cbv zeta.
  assert (Hall : forall l,
             In l (V6.performMultiTimeframeAnalysis candles imageHeight) ->
             V6.touches l = 1
             /\ ((V6.strength l = 0.7%Q /\ (15 <= length candles)%nat)
                 \/ (V6.strength l = 0.9%Q /\ (45 <= length candles)%nat))
             /\ exists c, In c candles
                          /\ ((V6.type l = V6.resistance
                               /\ V6.level l = V6.high c)
                              \/ (V6.type l = V6.support
                                  /\ V6.level l = V6.low c))).
  { intros l Hl. unfold V6.performMultiTimeframeAnalysis in Hl.
    cbv zeta in Hl. apply in_app_or in Hl.
    destruct Hl as [Hl | Hl];
      apply extractKeyLevels_levels in Hl;
      destruct Hl as (Hlen & Ht & Hs & s & Hin & Hlv);
      match type of Hin with
      | In s (V6.simulateTimeframeData candles ?m) =>
          destruct (simulated_profile candles m) as [Hcount _];
          destruct (simulated_from_series candles m s Hin)
            as [(c1 & Hc1 & E1) (c2 & Hc2 & E2)]
      end;
      cbv zeta in Hcount; rewrite Hcount in Hlen;
      (split; [exact Ht|]); split.
    - left. split; [exact Hs|].
      change (Pos.to_nat 5) with 5%nat in Hlen.
      pose proof (Nat.div_mod_eq (length candles) 5). lia.
    - destruct Hlv as [[Hty Hlv] | [Hty Hlv]];
        [exists c1 | exists c2];
        (split; [assumption|]); [left | right];
        (split; [exact Hty | congruence]).
    - right. split; [exact Hs|].
      change (Pos.to_nat 15) with 15%nat in Hlen.
      pose proof (Nat.div_mod_eq (length candles) 15). lia.
    - destruct Hlv as [[Hty Hlv] | [Hty Hlv]];
        [exists c1 | exists c2];
        (split; [assumption|]); [left | right];
        (split; [exact Hty | congruence]). }
  split; [|exact Hall].
  intro Hlt.
  destruct (V6.performMultiTimeframeAnalysis candles imageHeight)
    as [|l rest]; [reflexivity|].
  destruct (Hall l (or_introl eq_refl)) as (_ & [[_ H] | [_ H]] & _); lia.
Qed.

Example multi_timeframe_samples :
  V6.performMultiTimeframeAnalysis (V6.zigzag 25) 100
  = [ V6.mkLevel 13 1 0.7 V6.resistance; V6.mkLevel (-1) 1 0.7 V6.support ]%Q
  /\ V6.performMultiTimeframeAnalysis (V6.zigzag 14) 100 = [].
Proof. split; reflexivity. Qed.

(** ** Directional indicators *)

Lemma sumQ_from (xs : list Q) (a : Q) :
  (fold_left (fun a b => a + b) xs a == a + sumQ xs)%Q.
Proof.
  unfold sumQ. revert a. induction xs as [|x xs IH]; intro a; cbn.
  - ring.
  - rewrite IH, (IH (0 + x)%Q). ring.
Qed.

Lemma sumQ_cons (x : Q) (xs : list Q) : (sumQ (x :: xs) == x + sumQ xs)%Q.
Proof.
  unfold sumQ at 1. cbn [fold_left]. rewrite sumQ_from. ring.
Qed.

Lemma sumQ_bounds (hi : Q) (xs : list Q) :
  Forall (fun v => (0 <= v <= hi)%Q) xs ->
  (0 <= sumQ xs <= hi * inject_Z (Z.of_nat (length xs)))%Q.
Proof.
  induction 1 as [|x xs Hx _ IH].
  - cbn. split; [lra | ring_simplify; lra].
  - rewrite sumQ_cons. cbn [length]. rewrite Nat2Z.inj_succ.
    unfold Z.succ. rewrite inject_Z_plus. change (inject_Z 1) with 1%Q.
    split; [lra|]. ring_simplify. lra.
Qed.

Lemma sumQ_nonneg (xs : list Q) :
  Forall (fun v => (0 <= v)%Q) xs -> (0 <= sumQ xs)%Q.
Proof.
  induction 1 as [|x xs Hx _ IH]; [cbn; lra|]. rewrite sumQ_cons. lra.
Qed.

Lemma nth_nonneg (xs : list Q) (i : nat) :
  Forall (fun v => (0 <= v)%Q) xs -> (0 <= nth i xs 0)%Q.
Proof.
  intro H. revert i. induction H as [|x xs Hx _ IH]; intro i.
  - destruct i; cbn; lra.
  - destruct i; cbn; [exact Hx | apply IH].
Qed.

Lemma movements_nonneg (prevC : V6.Candle) (rest : list V6.Candle) :
  length (V6.movements prevC rest) = length rest
  /\ Forall (fun m => (0 <= fst (fst m))%Q /\ (0 <= snd (fst m))%Q
                      /\ (0 <= snd m)%Q)
       (V6.movements prevC rest).
Proof.
  revert prevC. induction rest as [|c rest IH]; intro prevC.
  - split; [reflexivity | constructor].
  - destruct (IH c) as [Hlen Hall]. cbn [V6.movements].
    split; [cbn [length]; now rewrite Hlen|].
    constructor; [|exact Hall]. cbn [fst snd].
    split; [|split].
    + destruct (_ >? _)%Q; cbn [andb]; [|lra].
      destruct (_ >? 0)%Q eqn:E; [|lra]. apply gtb_lt in E. lra.
    + destruct (_ >? _)%Q; cbn [andb]; [|lra].
      destruct (_ >? 0)%Q eqn:E; [|lra]. apply gtb_lt in E. lra.
    + eapply Qle_trans; [|apply Q.le_max_r]. apply Qabs_nonneg.
Qed.

Lemma smoothed_term (period : positive) (s x : Q) :
  (0 <= s)%Q -> (0 <= x)%Q ->
  (0 <= s - s / inject_Z (Zpos period) + x)%Q.
Proof.
  intros Hs Hx.
  assert (Hp : (1 <= inject_Z (Zpos period))%Q).
  { change 1%Q with (inject_Z 1). rewrite <- Zle_Qle. lia. }
  assert (Hd : (s / inject_Z (Zpos period) <= s)%Q).
  { apply Qle_shift_div_r; [lra|].
    assert (H : (0 <= s * (inject_Z (Zpos period) - 1))%Q)
      by (apply Qmult_le_0_compat; lra).
    lra. }
  lra.
Qed.

Lemma ratio_nonneg (a b : Q) :
  (0 <= a)%Q -> (0 <= b)%Q ->
  (0 <= (if negb (Qeq_bool b 0) then a / b * 100 else 0))%Q.
Proof.
  intros Ha Hb. destruct (Qeq_bool b 0) eqn:E; cbn [negb]; [lra|].
  assert (Hpos : (0 < b)%Q).
  { destruct (Qlt_le_dec 0 b) as [H | H]; [exact H|].
    assert (E' : (b == 0)%Q) by lra.
    apply Qeq_bool_iff in E'. congruence. }
  pose proof (Qdiv_nonneg a b Ha Hpos). lra.
Qed.

Lemma smoothStep_good (period : positive) (plusDM minusDM tr : list Q)
  (count : nat) (st : V6.Smoothed) (i : nat) :
  Forall (fun v => (0 <= v)%Q) plusDM ->
  Forall (fun v => (0 <= v)%Q) minusDM ->
  Forall (fun v => (0 <= v)%Q) tr ->
  GoodSmoothed count st ->
  GoodSmoothed (S count) (V6.smoothStep period plusDM minusDM tr st i).
Proof.
  intros Hp Hm Ht (H1 & H2 & H3 & H4 & H5 & H6 & H7).
  unfold V6.smoothStep.
  assert (Hs : forall s xs, (0 <= s)%Q -> Forall (fun v => (0 <= v)%Q) xs ->
                 (0 <= s - s / inject_Z (Zpos period) + nth i xs 0)%Q).
  { intros s xs Hs0 Hxs. apply smoothed_term; [exact Hs0|].
    apply nth_nonneg. exact Hxs. }
  pose proof (Hs _ _ H1 Hp) as G1. pose proof (Hs _ _ H2 Hm) as G2.
  pose proof (Hs _ _ H3 Ht) as G3.
  destruct (Pos.to_nat period <=? i)%nat; cbv zeta beta iota;
    unfold GoodSmoothed;
    cbn [V6.smoothPlusDM V6.smoothMinusDM V6.smoothTR V6.plusDI
         V6.minusDI];
    (split; [assumption|]); (split; [assumption|]);
    (split; [assumption|]);
    (split; [apply Forall_app; split; [exact H4|];
             constructor; [|constructor];
             apply ratio_nonneg; assumption|]);
    (split; [apply Forall_app; split; [exact H5|];
             constructor; [|constructor];
             apply ratio_nonneg; assumption|]);
    rewrite !length_app; cbn [length]; lia.
Qed.

Lemma smoothing_good (period : positive) (plusDM minusDM tr : list Q) :
  Forall (fun v => (0 <= v)%Q) plusDM ->
  Forall (fun v => (0 <= v)%Q) minusDM ->
  Forall (fun v => (0 <= v)%Q) tr ->
  forall (indices : list nat) (count : nat) (st : V6.Smoothed),
    GoodSmoothed count st ->
    GoodSmoothed (count + length indices)
      (fold_left (V6.smoothStep period plusDM minusDM tr) indices st).
Proof.
  intros Hp Hm Ht. induction indices as [|i indices IH]; intros count st H.
  - cbn. now rewrite Nat.add_0_r.
  - cbn [fold_left length]. rewrite Nat.add_succ_r.
    apply (IH (S count)). apply smoothStep_good; assumption.
Qed.

(** The directional indicators are never negative, and there is one
    pair of them for every candle after the first [period]. *)
Lemma calculateDI_profile (candles : list V6.Candle) (period : positive)
  (plusDI minusDI : list Q) :
  V6.calculateDI candles period = Some (plusDI, minusDI) ->
  length plusDI = (length candles - Pos.to_nat period)%nat
  /\ length minusDI = (length candles - Pos.to_nat period)%nat
  /\ Forall (fun v => (0 <= v)%Q) plusDI
  /\ Forall (fun v => (0 <= v)%Q) minusDI.
Proof.
  unfold V6.calculateDI.
  destruct (Nat.ltb_spec (length candles) (Pos.to_nat period + 1))
    as [Hlt | Hge]; [discriminate|].
  destruct candles as [|first rest]; [discriminate|].
  cbv zeta. intros [= <- <-].
  destruct (movements_nonneg first rest) as [Hlen Hall].
  set (moves := V6.movements first rest) in *.
  assert (Hp : Forall (fun v => (0 <= v)%Q)
                 (map (fun m => fst (fst m)) moves)).
  { apply Forall_map. revert Hall. apply Forall_impl. intros m H. apply H. }
  assert (Hm : Forall (fun v => (0 <= v)%Q)
                 (map (fun m => snd (fst m)) moves)).
  { apply Forall_map. revert Hall. apply Forall_impl. intros m H. apply H. }
  assert (Ht : Forall (fun v => (0 <= v)%Q) (map snd moves)).
  { apply Forall_map. revert Hall. apply Forall_impl. intros m H. apply H. }
  assert (Hfirst : forall xs, Forall (fun v => (0 <= v)%Q) xs ->
                     Forall (fun v => (0 <= v)%Q)
                       (firstn (Pos.to_nat period) xs)).
  { intros xs H. rewrite Forall_forall in *. intros v Hv. apply H.
    rewrite <- (firstn_skipn (Pos.to_nat period) xs).
    apply in_or_app. now left. }
  match goal with
  | |- context [fold_left ?f ?l ?s] =>
      pose proof (smoothing_good period _ _ _ Hp Hm Ht l 0 s) as G
  end.
  destruct G as (_ & _ & _ & G4 & G5 & G6 & G7).
  { unfold GoodSmoothed.
    cbn [V6.smoothPlusDM V6.smoothMinusDM V6.smoothTR V6.plusDI
         V6.minusDI].
    repeat split; try constructor; apply sumQ_nonneg, Hfirst; assumption. }
  pose proof (Pos2Nat.is_pos period) as Hpos.
  match goal with
  | |- context [fold_left ?f ?l ?s] => set (final := fold_left f l s) in *
  end.
  rewrite length_seq, length_map, Hlen in G6, G7.
  cbn [length] in *. cbn [Nat.add] in G6, G7.
  split; [rewrite G6; lia|]. split; [rewrite G7; lia|].
  split; assumption.
Qed.

Lemma dxOf_bounds (pm : Q * Q) :
  (0 <= fst pm)%Q -> (0 <= snd pm)%Q -> (0 <= V6.dxOf pm <= 100)%Q.
Proof.
  intros Hp Hm. unfold V6.dxOf. cbv zeta.
  destruct (Qeq_bool (fst pm + snd pm) 0) eqn:E; cbn [negb]; [lra|].
  assert (Hpos : (0 < fst pm + snd pm)%Q).
  { destruct (Qlt_le_dec 0 (fst pm + snd pm)) as [H | H]; [exact H|].
    assert (E' : (fst pm + snd pm == 0)%Q) by lra.
    apply Qeq_bool_iff in E'. congruence. }
  assert (Hd : (Qabs (fst pm - snd pm) <= fst pm + snd pm)%Q)
    by (apply Qabs_Qle_condition; split; lra).
  pose proof (Qabs_nonneg (fst pm - snd pm)) as Hn.
  set (d := Qabs (fst pm - snd pm)) in *. set (t := (fst pm + snd pm)%Q) in *.
  assert (Hx : (t * (d / t) == d)%Q) by (apply Qmult_div_r; lra).
  set (x := (d / t)%Q) in *. clearbody x d t.
  assert (H0 : (0 <= x)%Q).
  { destruct (Qlt_le_dec x 0) as [H | H]; [|exact H].
    exfalso. assert (H' : (0 < t * (0 - x))%Q)
      by (apply Qmult_lt_0_compat; lra).
    lra. }
  assert (H1 : (x <= 1)%Q).
  { destruct (Qlt_le_dec 1 x) as [H | H]; [|exact H].
    exfalso. assert (H' : (0 < t * (x - 1))%Q)
      by (apply Qmult_lt_0_compat; lra).
    lra. }
  lra.
Qed.

Lemma calculateDI_defined (candles : list V6.Candle) (period : positive) :
  (Pos.to_nat period + 1 <= length candles)%nat ->
  exists plusDI minusDI,
    V6.calculateDI candles period = Some (plusDI, minusDI).
Proof.
  intro H. unfold V6.calculateDI.
  destruct (Nat.ltb_spec (length candles) (Pos.to_nat period + 1));
    [lia|].
  destruct candles as [|first rest]; [cbn in H; lia|].
  cbv zeta. eexists _, _. reflexivity.
Qed.

Lemma average_bounds (period : positive) (slice : list Q) :
  Forall (fun v => (0 <= v <= 100)%Q) slice ->
  (length slice <= Pos.to_nat period)%nat ->
  (0 <= sumQ slice / inject_Z (Zpos period) <= 100)%Q.
Proof.
  intros Hall Hlen.
  destruct (sumQ_bounds 100 slice Hall) as [H0 H1].
  assert (Hp : (0 < inject_Z (Zpos period))%Q) by (apply inject_Z_pos; lia).
  assert (Hl : (inject_Z (Z.of_nat (length slice))
                <= inject_Z (Zpos period))%Q).
  { rewrite <- Zle_Qle. lia. }
  split.
  - apply Qdiv_nonneg; assumption.
  - apply Qle_shift_div_r; [exact Hp|]. lra.
Qed.

Lemma adx_profile (candles : list V6.Candle) (period : positive) :
  (V6.calculateADX candles period = None <->
   (length candles < Pos.to_nat period + 14)%nat)
  /\ forall r,
       V6.calculateADX candles period = Some r ->
       length (V6.values r)
       = (length candles + 1 - 2 * Pos.to_nat period)%nat
       /\ Forall (fun v => (0 <= v <= 100)%Q) (V6.values r)
       /\ ((period <= 14)%positive ->
           exists v, V6.value r = Some v /\ (0 <= v <= 100)%Q).
Proof.
  unfold V6.calculateADX.
  destruct (Nat.ltb_spec (length candles) (Pos.to_nat period + 14))
    as [Hlt | Hge].
  { split; [split; [intros _; exact Hlt | reflexivity] | discriminate]. }
  destruct (calculateDI_defined candles period ltac:(lia))
    as (plusDI & minusDI & Hdi).
  rewrite Hdi.
  destruct (calculateDI_profile candles period plusDI minusDI Hdi)
    as (Hl1 & Hl2 & Hp & Hm).
  split; [split; [discriminate | lia]|].
  intros r [= <-]. cbn [V6.values V6.value].
  set (dxValues := map V6.dxOf (combine plusDI minusDI)).
  assert (Hdx : Forall (fun v => (0 <= v <= 100)%Q) dxValues).
  { unfold dxValues. apply Forall_map. apply Forall_forall.
    intros [p m] Hpm. rewrite Forall_forall in Hp, Hm.
    apply dxOf_bounds; cbn [fst snd].
    - apply Hp. eapply in_combine_l. exact Hpm.
    - apply Hm. eapply in_combine_r. exact Hpm. }
  assert (Hdxlen : length dxValues
                   = (length candles - Pos.to_nat period)%nat).
  { unfold dxValues. rewrite length_map, length_combine. lia. }
  set (adxValues := map _ (seq _ _)).
  assert (Hlen : length adxValues
                 = (length candles + 1 - 2 * Pos.to_nat period)%nat).
  { unfold adxValues. rewrite length_map, length_seq, Hdxlen. lia. }
  assert (Hall : Forall (fun v => (0 <= v <= 100)%Q) adxValues).
  { unfold adxValues. apply Forall_map. apply Forall_forall.
    intros i _. apply average_bounds.
    - rewrite Forall_forall in *. intros v Hv. apply Hdx.
      rewrite <- (firstn_skipn (i + 1 - Pos.to_nat period) dxValues).
      apply in_or_app. right.
      rewrite <- (firstn_skipn (Pos.to_nat period)
                    (skipn (i + 1 - Pos.to_nat period) dxValues)).
      apply in_or_app. now left.
    - rewrite length_firstn. lia. }
  split; [exact Hlen|]. split; [exact Hall|].
  intro Hsmall.
  assert (Hpos : (Pos.to_nat period <= 14)%nat) by lia.
  destruct (nth_error adxValues (length adxValues - 1)) as [v|] eqn:Ev.
  - exists v. split; [reflexivity|].
    apply nth_error_In in Ev. rewrite Forall_forall in Hall. auto.
  - apply nth_error_None in Ev. lia.
Qed.

(** [calculateADX] returns [null] exactly for fewer than [period + 14]
    candles.  Otherwise every ADX value lies between 0 and 100, there
    is one value for every candle from the [2 * period - 1]-th on, and
    for a period of at most 14 (the engine uses 14) the reported value
    is defined. *)
Theorem calculateADX_between_0_and_100
  (candles : list V6.Candle) (period : positive) :
  (V6.calculateADX candles period = None <->
   (length candles < Pos.to_nat period + 14)%nat)
  /\ forall r,
       V6.calculateADX candles period = Some r ->
       length (V6.values r)
       = (length candles + 1 - 2 * Pos.to_nat period)%nat
       /\ Forall (fun v => (0 <= v <= 100)%Q) (V6.values r)
       /\ ((period <= 14)%positive ->
           exists v, V6.value r = Some v /\ (0 <= v <= 100)%Q).
Proof. exact (adx_profile candles period). Qed.

Example calculateADX_samples :
  V6.calculateADX (V6.rising 27) 14 = None
  /\ V6.calculateDI (V6.rising 3) 3 = None
  /\ option_map (fun d => length (fst d)) (V6.calculateDI (V6.rising 8) 3)
     = Some 5%nat.
Proof. vm_compute. repeat split. Qed.

(** ** The result database *)

Lemma mapGet_set_same (key : string) (value : V6.Stats)
  (m : list (string * V6.Stats)) :
  V6.mapGet key (V6.mapSet key value m) = Some value.
Proof.
  induction m as [|[k v] m IH]; cbn.
  - now rewrite String.eqb_refl.
  - destruct (String.eqb key k) eqn:E; cbn.
    + now rewrite String.eqb_refl.
    + now rewrite E.
Qed.

Lemma mapGet_set_other (key other : string) (value : V6.Stats)
  (m : list (string * V6.Stats)) :
  key <> other ->
  V6.mapGet other (V6.mapSet key value m) = V6.mapGet other m.
Proof.
  intro Hne. induction m as [|[k v] m IH]; cbn.
  - destruct (String.eqb other key) eqn:E; [|reflexivity].
    apply String.eqb_eq in E. congruence.
  - destruct (String.eqb key k) eqn:E; cbn.
    + apply String.eqb_eq in E. subst k.
      destruct (String.eqb other key) eqn:E'; [|reflexivity].
      apply String.eqb_eq in E'. congruence.
    + rewrite IH. reflexivity.
Qed.

Lemma updatePattern_same (confidence : Q) (m : list (string * V6.Stats))
  (pattern : Pattern) (n c : Z) :
  0 <= n ->
  Tracked m (name pattern) n c ->
  Tracked (V6.updatePattern confidence m pattern) (name pattern) (n + 1)
    (c + (if (confidence >? 70)%Q then 1 else 0)).
Proof.
  intros Hn H. unfold Tracked, V6.updatePattern in *.
  destruct (V6.mapGet (name pattern) m) as [stats|] eqn:E.
  - rewrite E. cbv zeta. rewrite mapGet_set_same.
    destruct H as (-> & H1 & H2).
    cbn [V6.occurrences V6.correct].
    destruct (confidence >? 70)%Q;
      (split; [rewrite ?Z.add_0_r; reflexivity | lia]).
  - rewrite mapGet_set_same. cbv zeta. rewrite mapGet_set_same.
    destruct H as [-> ->]. cbn [V6.occurrences V6.correct].
    destruct (confidence >? 70)%Q; (split; [reflexivity | lia]).
Qed.

Lemma updatePattern_other (confidence : Q) (m : list (string * V6.Stats))
  (pattern : Pattern) (patternName : string) :
  name pattern <> patternName ->
  V6.mapGet patternName (V6.updatePattern confidence m pattern)
  = V6.mapGet patternName m.
Proof.
  intro Hne. unfold V6.updatePattern.
  destruct (V6.mapGet (name pattern) m) as [stats|] eqn:E.
  - rewrite E. cbv zeta. now rewrite mapGet_set_other.
  - rewrite mapGet_set_same. cbv zeta.
    now rewrite !mapGet_set_other.
Qed.

Lemma updatePatterns_tracked (confidence : Q) (patternName : string)
  (patterns : list Pattern) :
  forall (m : list (string * V6.Stats)) (n c : Z),
    0 <= n ->
    Tracked m patternName n c ->
    let k := Z.of_nat
               (length (filter (fun p => String.eqb (name p) patternName)
                          patterns)) in
    Tracked (fold_left (V6.updatePattern confidence) patterns m)
      patternName (n + k)
      (c + (if (confidence >? 70)%Q then k else 0)).
Proof.
  induction patterns as [|p ps IH]; intros m n c Hn H; cbv zeta.
  - cbn. rewrite !Z.add_0_r.
    destruct (confidence >? 70)%Q; rewrite ?Z.add_0_r; exact H.
  - cbn [fold_left filter].
    destruct (String.eqb (name p) patternName) eqn:E.
    + apply String.eqb_eq in E. subst patternName.
      pose proof (updatePattern_same confidence m p n c Hn H) as H'.
      assert (Hn1 : 0 <= n + 1) by lia.
      specialize (IH _ _ _ Hn1 H'). cbv zeta in IH.
      cbn [length]. rewrite Nat2Z.inj_succ.
      destruct (confidence >? 70)%Q;
        [ replace (n + Z.succ _) with (n + 1 + Z.of_nat
            (length (filter (fun q => String.eqb (name q) (name p)) ps)))
            by lia;
          replace (c + Z.succ _) with (c + 1 + Z.of_nat
            (length (filter (fun q => String.eqb (name q) (name p)) ps)))
            by lia
        | replace (n + Z.succ _) with (n + 1 + Z.of_nat
            (length (filter (fun q => String.eqb (name q) (name p)) ps)))
            by lia;
          replace (c + 0) with (c + 0 + 0) by lia ];
        exact IH.
    + assert (Hne : name p <> patternName)
        by (intro Heq; apply String.eqb_eq in Heq; congruence).
      apply IH; [exact Hn|].
      unfold Tracked in *. rewrite updatePattern_other by exact Hne.
      exact H.
Qed.

Lemma saved_patterns_tracked (patternName : string) :
  forall (saves : list (Z * V6.AnalysisResult)) (db : V6.AnalysisDatabase)
         (n c : Z),
    0 <= n ->
    Tracked (V6.patternAccuracy db) patternName n c ->
    Tracked
      (V6.patternAccuracy
         (fold_left (fun db s => fst (V6.saveResult db (fst s) (snd s)))
            saves db))
      patternName (n + V6.timesSaved patternName saves)
      (c + V6.timesConfident patternName saves).
Proof.
  induction saves as [|s saves IH]; intros db n c Hn H.
  - cbn. rewrite !Z.add_0_r. exact H.
  - cbn [fold_left V6.timesSaved V6.timesConfident fold_right].
    pose proof (updatePatterns_tracked (V6.result_confidence (snd s))
                  patternName (V6.result_patterns (snd s))
                  (V6.patternAccuracy db) n c Hn H) as H'.
    cbv zeta in H'. fold (V6.occursIn patternName (snd s)) in H'.
    assert (Hk : 0 <= V6.occursIn patternName (snd s))
      by (unfold V6.occursIn; lia).
    assert (Hn1 : 0 <= n + V6.occursIn patternName (snd s)) by lia.
    specialize (IH (fst (V6.saveResult db (fst s) (snd s)))
                  _ _ Hn1 H').
    fold (V6.timesSaved patternName saves) in *.
    fold (V6.timesConfident patternName saves) in *.
    rewrite !Z.add_assoc. exact IH.
Qed.

Lemma lastn_all {A : Type} (n : nat) (l : list A) :
  (length l <= n)%nat -> Js.lastn n l = l.
Proof.
  intro H. unfold Js.lastn.
  replace (length l - n)%nat with 0%nat by lia. reflexivity.
Qed.

Lemma saved_results_kept :
  forall (saves : list (Z * V6.AnalysisResult)) (db : V6.AnalysisDatabase),
    (length (V6.results db) <= 1000)%nat ->
    V6.results
      (fold_left (fun db s => fst (V6.saveResult db (fst s) (snd s)))
         saves db)
    = Js.lastn 1000
        (V6.results db
         ++ map (fun s => V6.savedOf (fst s) (snd s)) saves).
Proof.
  induction saves as [|s saves IH]; intros db Hlen.
  - cbn. rewrite app_nil_r. symmetry. apply lastn_all. exact Hlen.
  - cbn [fold_left map].
    set (x := V6.savedOf (fst s) (snd s)).
    set (rest := map (fun s => V6.savedOf (fst s) (snd s)) saves).
    set (db' := fst (V6.saveResult db (fst s) (snd s))).
    assert (Hres : V6.results db'
                   = if (1000 <? length (V6.results db ++ [x]))%nat
                     then tl (V6.results db ++ [x])
                     else V6.results db ++ [x]) by reflexivity.
    assert (Hlen' : (length (V6.results db') <= 1000)%nat).
    { rewrite Hres.
      destruct (Nat.ltb_spec 1000 (length (V6.results db ++ [x])))
        as [Hfull | Hroom]; [|exact Hroom].
      destruct (V6.results db) as [|r0 R]; cbn [app tl length] in *;
        rewrite ?length_app in *; cbn [length] in *; lia. }
    rewrite (IH db' Hlen'). fold rest. rewrite Hres.
    destruct (Nat.ltb_spec 1000 (length (V6.results db ++ [x])))
      as [Hfull | Hroom].
    + rewrite length_app in Hfull. cbn [length] in Hfull.
      destruct (V6.results db) as [|r0 R]; [cbn in Hfull; lia|].
      cbn [app tl]. cbn [length] in Hlen, Hfull.
      rewrite <- app_assoc. cbn [app].
      unfold Js.lastn. cbn [length]. rewrite !length_app.
      cbn [length].
      replace (S (length R + S (length rest)) - 1000)%nat
        with (S (length R + S (length rest) - 1000)) by lia.
      reflexivity.
    + rewrite <- app_assoc. reflexivity.
Qed.

Lemma unit_fraction (c n : Z) :
  1 <= n -> 0 <= c <= n -> (0 <= inject_Z c / inject_Z n <= 1)%Q.
Proof.
  intros Hn Hc.
  assert (Hn' : (0 < inject_Z n)%Q) by (apply inject_Z_pos; lia).
  assert (Hc0 : (0 <= inject_Z c)%Q) by (apply inject_Z_nonneg; lia).
  assert (Hcn : (inject_Z c <= inject_Z n)%Q) by (rewrite <- Zle_Qle; lia).
  split.
  - apply Qdiv_nonneg; assumption.
  - apply Qle_shift_div_r; [exact Hn' | lra].
Qed.

(** After any sequence of saves into an empty database, [results]
    holds the last 1000 saved results in their order.  For every
    pattern name the statistics count how often the pattern was saved
    and how often with a confidence above 70; the accuracy is the
    quotient of the two, or 0.5 for a pattern never saved, so that it
    lies between 0 and 1; and the weight that the scoring derives from
    it is positive and at most 1. *)
Theorem database_tracks_saved_patterns
  (saves : list (Z * V6.AnalysisResult)) :
  let db := V6.afterSaving saves in
  V6.results db
  = Js.lastn 1000 (map (fun s => V6.savedOf (fst s) (snd s)) saves)
  /\ (length (V6.results db) <= 1000)%nat
  /\ forall patternName,
       let stats := V6.getPatternAccuracy db patternName in
       V6.occurrences stats = V6.timesSaved patternName saves
       /\ V6.correct stats = V6.timesConfident patternName saves
       /\ 0 <= V6.correct stats <= V6.occurrences stats
       /\ V6.accuracy stats
          = (if V6.occurrences stats =? 0 then 0.5
             else inject_Z (V6.correct stats)
                  / inject_Z (V6.occurrences stats))%Q
       /\ (0 <= V6.accuracy stats <= 1)%Q
       /\ (0 < V6.accuracyWeight db patternName <= 1)%Q.
Proof.
  cbv zeta. unfold V6.afterSaving.
  pose proof (saved_results_kept saves V6.clear) as Hres.
  cbn [V6.results V6.clear app length] in Hres.
  specialize (Hres ltac:(lia)).
  split; [exact Hres|]. split.
  { unfold V6.afterSaving in *. rewrite Hres. unfold Js.lastn.
    rewrite length_skipn. lia. }
  intro patternName.
  pose proof (saved_patterns_tracked patternName saves V6.clear 0 0
                ltac:(lia)) as H.
  cbn [Z.add] in H. unfold V6.accuracyWeight, V6.getPatternAccuracy.
  unfold Tracked in H at 2.
  set (db := fold_left _ saves V6.clear) in *.
  destruct (V6.mapGet patternName (V6.patternAccuracy db)) as [stats|].
  - destruct H as (-> & H1 & H2); [cbn; auto|].
    cbn [V6.occurrences V6.correct V6.accuracy]. cbv zeta.
    pose proof (unit_fraction _ _ H1 H2) as Hu.
    split; [reflexivity|]. split; [reflexivity|]. split; [exact H2|].
    split; [destruct (Z.eqb_spec (V6.timesSaved patternName saves) 0);
            [lia | reflexivity]|].
    split; [exact Hu|].
    destruct (Qeq_bool _ 0) eqn:E; [lra|].
    split; [|apply Hu].
    destruct (Qlt_le_dec 0 (inject_Z (V6.timesConfident patternName saves)
                            / inject_Z (V6.timesSaved patternName saves)))
      as [Hpos | Hle]; [exact Hpos|].
    assert (E' : (inject_Z (V6.timesConfident patternName saves)
                  / inject_Z (V6.timesSaved patternName saves) == 0)%Q)
      by lra.
    apply Qeq_bool_iff in E'. congruence.
  - destruct H as [H1 H2]; [cbn; auto|].
    cbn [V6.occurrences V6.correct V6.accuracy]. cbv zeta.
    rewrite H1, H2. cbn.
    repeat split; try lia; try lra; discriminate.
Qed.

Example database_samples :
  let db :=
    V6.afterSaving
      [ (1, V6.mkAnalysisResult 80 ActBUY
              [Patterns.BullishMarubozu; Patterns.Doji]);
        (2, V6.mkAnalysisResult 60 ActWAIT [Patterns.Doji]) ] in
  V6.getPatternAccuracy db "Doji" = V6.mkStats 2 1 (1 / 2)
  /\ V6.getPatternAccuracy db "Bullish Marubozu" = V6.mkStats 1 1 (1 / 1)
  /\ V6.getPatternAccuracy db "Hammer" = V6.mkStats 0 0 0.5
  /\ map V6.id (V6.results db) = [1; 2]
  /\ V6.accuracyWeight
       (V6.afterSaving [(1, V6.mkAnalysisResult 60 ActWAIT [Patterns.Doji])])
       "Doji" = 0.5%Q.
Proof. vm_compute. repeat split. Qed.
